(** * Smart Restaurant API: a shallow embedding of [database.py] and [main.py]

    The development follows the two source modules.  Documents are Python
    dictionaries of BSON values, prices are binary64 floats (Rocq's primitive
    floats), and every handler is a computation in a small state-and-exception
    monad over the process-wide [db] handle, the clock read by
    [datetime.now] and the identifiers handed out by the driver. *)

From Stdlib Require Import ZArith NArith List String Ascii Bool Lia.
From Stdlib Require Import PrimFloat SpecFloat FloatOps FloatAxioms.
Import ListNotations.

Set Implicit Arguments.
Set Warnings "-register-all".
Open Scope string_scope.
Open Scope Z_scope.

(** ** Python dictionaries

    A [dict] keeps its keys in insertion order; assigning to an existing key
    keeps the key's position. *)

Module PyDict.

Definition t (A : Type) : Type := list (string * A).

Fixpoint get {A} (d : t A) (k : string) : option A :=
  match d with
  | [] => None
  | (k', v) :: d' => if String.eqb k' k then Some v else get d' k
  end.

Definition get_default {A} (d : t A) (k : string) (dflt : A) : A :=
  match get d k with
  | Some v => v
  | None => dflt
  end.

Fixpoint set {A} (d : t A) (k : string) (v : A) : t A :=
  match d with
  | [] => [(k, v)]
  | (k', v') :: d' =>
      if String.eqb k' k then (k', v) :: d' else (k', v') :: set d' k v
  end.

(** [d.update(u)], also the effect of [$set] on a stored document. *)
Definition update {A} (d u : t A) : t A :=
  fold_left (fun acc kv => set acc (fst kv) (snd kv)) u d.

Definition keys {A} (d : t A) : list string := map fst d.

End PyDict.

(** ** Identifiers

    An [ObjectId] is held by the text of its bytes, in lower-case
    hexadecimal: 24 digits for the twelve bytes of an identifier the driver
    generates.  [parse_ObjectId] is the constructor [ObjectId(s)] applied to
    a string: [s] must have 24 characters and [bytes.fromhex] must accept
    it.  [str_oid] is [str(oid)]; two identifiers are equal when their
    bytes are. *)

Record ObjectId : Type := Oid { oid_hex : string }.

Definition is_hex_digit (c : ascii) : bool :=
  let n := nat_of_ascii c in
  ((48 <=? n) && (n <=? 57) || (65 <=? n) && (n <=? 70)
   || (97 <=? n) && (n <=? 102))%nat.

(** ASCII whitespace: tab, line feed, vertical tab, form feed, carriage
    return and space. *)
Definition is_space (c : ascii) : bool :=
  let n := nat_of_ascii c in
  ((9 <=? n) && (n <=? 13) || (n =? 32))%nat.

Definition lower_ascii (c : ascii) : ascii :=
  let n := nat_of_ascii c in
  if ((65 <=? n) && (n <=? 90))%nat then ascii_of_nat (n + 32) else c.

Fixpoint all_hex (s : string) : bool :=
  match s with
  | EmptyString => true
  | String c s' => is_hex_digit c && all_hex s'
  end.

Fixpoint lower (s : string) : string :=
  match s with
  | EmptyString => EmptyString
  | String c s' => String (lower_ascii c) (lower s')
  end.

(** [bytes.fromhex(s)], the bytes given as their lower-case hexadecimal
    text: two hexadecimal digits per byte, in either case; whitespace is
    skipped before, between and after the bytes, not between the two
    digits of one. *)
Fixpoint fromhex (s : string) : option string :=
  match s with
  | EmptyString => Some EmptyString
  | String c s' =>
      if is_space c then fromhex s'
      else if is_hex_digit c then
        match s' with
        | String c' s'' =>
            if is_hex_digit c' then
              match fromhex s'' with
              | Some bytes =>
                  Some (String (lower_ascii c) (String (lower_ascii c') bytes))
              | None => None
              end
            else None
        | EmptyString => None
        end
      else None
  end.

Definition parse_ObjectId (s : string) : option ObjectId :=
  if (String.length s =? 24)%nat then
    match fromhex s with
    | Some bytes => Some (Oid bytes)
    | None => None
    end
  else None.

Definition str_oid (o : ObjectId) : string := oid_hex o.

Definition oid_eqb (a b : ObjectId) : bool :=
  String.eqb (oid_hex a) (oid_hex b).

Definition hex_digit (n : N) : ascii :=
  match get (N.to_nat n) "0123456789abcdef" with
  | Some c => c
  | None => "0"%char
  end.

Fixpoint hex_of (digits : nat) (n : N) (acc : string) : string :=
  match digits with
  | O => acc
  | S k => hex_of k (n / 16)%N (String (hex_digit (n mod 16)%N) acc)
  end.

(** The identifier the driver builds from 96 bits. *)
Definition oid_of_N (n : N) : ObjectId := Oid (hex_of 24 n "").

(** ** BSON / JSON values *)

Inductive value : Type :=
| VNone
| VBool (b : bool)
| VInt (z : Z)
| VFloat (f : float)
| VStr (s : string)
| VDate (ms : Z)
| VOid (o : ObjectId)
| VList (l : list value)
| VDict (d : list (string * value)).

Definition dict : Type := PyDict.t value.

(** Equality of two binary64 values as the store compares them: same class,
    sign, mantissa and exponent. *)
Definition spec_float_eqb (a b : spec_float) : bool :=
  match a, b with
  | S754_zero s1, S754_zero s2 => Bool.eqb s1 s2
  | S754_infinity s1, S754_infinity s2 => Bool.eqb s1 s2
  | S754_nan, S754_nan => true
  | S754_finite s1 m1 e1, S754_finite s2 m2 e2 =>
      Bool.eqb s1 s2 && Pos.eqb m1 m2 && Z.eqb e1 e2
  | _, _ => false
  end.

Fixpoint value_eqb (a b : value) : bool :=
  match a, b with
  | VNone, VNone => true
  | VBool x, VBool y => Bool.eqb x y
  | VInt x, VInt y => Z.eqb x y
  | VFloat x, VFloat y => spec_float_eqb (Prim2SF x) (Prim2SF y)
  | VStr x, VStr y => String.eqb x y
  | VDate x, VDate y => Z.eqb x y
  | VOid x, VOid y => oid_eqb x y
  | VList l1, VList l2 =>
      (fix go (l1 l2 : list value) : bool :=
         match l1, l2 with
         | [], [] => true
         | x :: l1', y :: l2' => value_eqb x y && go l1' l2'
         | _, _ => false
         end) l1 l2
  | VDict d1, VDict d2 =>
      (fix go (d1 d2 : list (string * value)) : bool :=
         match d1, d2 with
         | [], [] => true
         | (k1, x) :: d1', (k2, y) :: d2' =>
             String.eqb k1 k2 && value_eqb x y && go d1' d2'
         | _, _ => false
         end) d1 d2
  | _, _ => false
  end.

(** ** Python floats *)

Module PyFloat.

(** [float(n)] for an [int]: the nearest binary64 value, ties to even;
    an [int] beyond the range has no conversion ([OverflowError]). *)
Definition of_int (z : Z) : option float :=
  match binary_normalize prec emax z 0 false with
  | S754_infinity _ => None
  | sf => Some (SF2Prim sf)
  end.

(** [x * n] for an [int] [n]: the [int] is converted first. *)
Definition mul_int (x : float) (n : Z) : option float :=
  match of_int n with
  | Some y => Some (x * y)%float
  | None => None
  end.

(** [round(x, 2)]: the exact value of [x] is rounded to two decimals, ties
    to even, and the decimal is converted back to the nearest binary64
    value. Infinities and NaN round to themselves. *)
Definition round2 (x : float) : float :=
  match Prim2SF x with
  | S754_finite s m e =>
      if 0 <=? e then x
      else
        let num := Zpos m * 100 in
        let den := 2 ^ (- e) in
        let q := num / den in
        let r := num mod den in
        let n := if 2 * r <? den then q
                 else if den <? 2 * r then q + 1
                 else if Z.even q then q else q + 1 in
        match n with
        | Zpos p =>
            SF2Prim (SFdiv prec emax (S754_finite s p 0)
                                     (S754_finite false 100 0))
        | _ => if s then (- 0)%float else 0%float
        end
  | _ => x
  end.

End PyFloat.

(** ** Exceptions, the world and the handler monad *)

Inductive exn : Type :=
| HTTPException (status_code : Z) (detail : string)
| InvalidId (oid : string)
| DatabaseNotAvailable (msg : string)
| AttributeError
| TypeError
| ValueError
| OverflowError
| InvalidDocument
| DuplicateKeyError.

Inductive result (A : Type) : Type :=
| Ok (a : A)
| Raise (e : exn).

Arguments Ok {A} a.
Arguments Raise {A} e.

(** A stored document: its [_id], an [ObjectId] as the driver generates
    them, and its other fields. *)
Record Document : Type := Doc { doc_id : ObjectId; doc_fields : dict }.

Definition Collection : Type := list Document.

(** [db[name]]; a collection never written to is empty. *)
Definition Database : Type := string -> Collection.

(** [db] is the module-level handle of [database.py] ([None] when the
    environment does not configure a store).  [clock] lists the readings
    [datetime.now] will return, in milliseconds as BSON keeps them, and
    [oid_source] the 96-bit identifiers the driver will generate. *)
Record World : Type := MkWorld {
  db : option Database;
  clock : nat -> Z;
  ticks : nat;
  oid_source : nat -> N;
  issued : nat
}.

Definition M (A : Type) : Type := World -> result A * World.

Definition ret {A} (a : A) : M A := fun w => (Ok a, w).

Definition raise {A} (e : exn) : M A := fun w => (Raise e, w).

Definition bind {A B} (m : M A) (k : A -> M B) : M B :=
  fun w =>
    match m w with
    | (Ok a, w') => k a w'
    | (Raise e, w') => (Raise e, w')
    end.

Notation "x <- m ;; k" := (bind m (fun x => k))
  (at level 61, m at next level, right associativity).

Definition lift {A} (r : result A) : M A := fun w => (r, w).

Fixpoint mapM {A B} (f : A -> M B) (l : list A) : M (list B) :=
  match l with
  | [] => ret []
  | a :: l' => b <- f a ;; bs <- mapM f l' ;; ret (b :: bs)
  end.

(** [datetime.now(timezone.utc)] *)
Definition now : M Z :=
  fun w =>
    (Ok (clock w (ticks w)),
     MkWorld (db w) (clock w) (S (ticks w)) (oid_source w) (issued w)).

(** The next identifier of the driver's generator. *)
Definition fresh_oid : M ObjectId :=
  fun w =>
    (Ok (oid_of_N (oid_source w (issued w))),
     MkWorld (db w) (clock w) (ticks w) (oid_source w) (S (issued w))).

(** A write: the store's content becomes [d]. *)
Definition set_db (d : Database) : M unit :=
  fun w =>
    (Ok tt, MkWorld (Some d) (clock w) (ticks w) (oid_source w) (issued w)).

(** The store [d] with [c] as its collection [name]. *)
Definition with_collection (d : Database) (name : string) (c : Collection)
  : Database :=
  fun n => if String.eqb n name then c else d n.

(** The collection [name] of the store of [w] (empty without a store). *)
Definition stored (w : World) (name : string) : Collection :=
  match db w with
  | Some d => d name
  | None => []
  end.

(** ** The driver's collection operations *)

Module Mongo.

(** [ObjectId(s)], which raises [InvalidId] on a malformed string. *)
Definition new_ObjectId (s : string) : M ObjectId :=
  match parse_ObjectId s with
  | Some oid => ret oid
  | None => raise (InvalidId s)
  end.

Definition has_id (oid : ObjectId) (d : Document) : bool :=
  oid_eqb (doc_id d) oid.

(** [find({"_id": {"$in": oids}})] *)
Definition find_in (c : Collection) (oids : list ObjectId) : list Document :=
  filter (fun d => existsb (oid_eqb (doc_id d)) oids) c.

(** [find_one({"_id": oid})] *)
Definition find_one (c : Collection) (oid : ObjectId) : option Document :=
  find (has_id oid) c.

(** What the driver refuses to encode, in the order of the document: a key
    with a NUL character ([InvalidDocument]) and an [int] of more than eight
    bytes ([OverflowError]). *)
Fixpoint has_nul (s : string) : bool :=
  match s with
  | EmptyString => false
  | String c s' => (nat_of_ascii c =? 0)%nat || has_nul s'
  end.

Fixpoint refused_value (v : value) : option exn :=
  match v with
  | VInt z =>
      if (- 2 ^ 63 <=? z) && (z <? 2 ^ 63) then None else Some OverflowError
  | VList l =>
      (fix go (l : list value) : option exn :=
         match l with
         | [] => None
         | x :: l' =>
             match refused_value x with
             | Some e => Some e
             | None => go l'
             end
         end) l
  | VDict d =>
      (fix go (d : list (string * value)) : option exn :=
         match d with
         | [] => None
         | (k, x) :: d' =>
             if has_nul k then Some InvalidDocument
             else
               match refused_value x with
               | Some e => Some e
               | None => go d'
               end
         end) d
  | _ => None
  end.

Definition refused (data : dict) : option exn := refused_value (VDict data).

(** A [$set] that leaves every named field as it is modifies nothing. *)
Definition changes (fields upd : dict) : bool :=
  existsb (fun kv =>
             match PyDict.get fields (fst kv) with
             | Some v => negb (value_eqb v (snd kv))
             | None => true
             end) upd.

(** What the store does with [{"$set": upd}] on the documents of a
    collection, for an [upd] whose keys are field names, as every update of
    this program has them (a key with a dot would be read as a path into an
    embedded document): the first document with the identifier is merged
    with [upd]; the second component is the number of documents modified. *)
Fixpoint set_one (c : Collection) (oid : ObjectId) (upd : dict)
  : Collection * Z :=
  match c with
  | [] => ([], 0)
  | d :: c' =>
      if has_id oid d then
        if changes (doc_fields d) upd
        then (Doc (doc_id d) (PyDict.update (doc_fields d) upd) :: c', 1)
        else (d :: c', 0)
      else
        let (c'', n) := set_one c' oid upd in (d :: c'', n)
  end.

(** [update_one({"_id": oid}, {"$set": upd})]: the driver encodes the
    update, the store applies it; the answer is [modified_count]. *)
Definition update_one (d : Database) (name : string) (oid : ObjectId)
  (upd : dict) : M Z :=
  match refused upd with
  | Some e => raise e
  | None =>
      let (c, modified_count) := set_one (d name) oid upd in
      _ <- set_db (with_collection d name c) ;;
      ret modified_count
  end.

(** [insert_one(data)] for a [data] without [_id], as every document this
    program inserts is (a caller's [_id] would be kept): the driver
    generates the identifier, then encodes the document, and the store
    refuses an identifier it already holds. *)
Definition insert_one (d : Database) (name : string) (data : dict)
  : M ObjectId :=
  oid <- fresh_oid ;;
  match refused data with
  | Some e => raise e
  | None =>
      match find_one (d name) oid with
      | Some _ => raise DuplicateKeyError
      | None =>
          _ <- set_db
                 (with_collection d name (d name ++ [Doc oid data])%list) ;;
          ret oid
      end
  end.

End Mongo.

(** ** database.py *)

(** [ObjectId(id_str)] *)
Definition to_object_id (id_str : string) : M ObjectId :=
  Mongo.new_ObjectId id_str.

(** The dictionary the driver returns for a stored document, after
    [serialize_doc] has replaced its [_id] by the identifier's text. *)
Definition serialize_doc (d : Document) : dict :=
  ("_id", VStr (str_oid (doc_id d))) :: doc_fields d.

(** The guard [if db is None: raise Exception(msg)]. *)
Definition get_db (msg : string) : M Database :=
  fun w =>
    match db w with
    | Some d => (Ok d, w)
    | None => (Raise (DatabaseNotAvailable msg), w)
    end.

(** [create_document] on a [dict], which is what [main.py] passes; the copy
    keeps the caller's dictionary free of the timestamps and of [_id]. *)
Definition create_document (collection_name : string) (data : dict)
  : M string :=
  d <- get_db ("Database not available. Check DATABASE_URL and "
               ++ "DATABASE_NAME environment variables.") ;;
  let data_dict := data in
  t1 <- now ;;
  let data_dict := PyDict.set data_dict "created_at" (VDate t1) in
  t2 <- now ;;
  let data_dict := PyDict.set data_dict "updated_at" (VDate t2) in
  inserted_id <- Mongo.insert_one d collection_name data_dict ;;
  ret (str_oid inserted_id).

(** A found document is a non-empty dictionary, hence true in
    [serialize_doc(doc) if doc else None]. *)
Definition get_document_by_id (collection_name id_str : string)
  : M (option dict) :=
  d <- get_db "Database not available." ;;
  oid <- to_object_id id_str ;;
  match Mongo.find_one (d collection_name) oid with
  | Some doc => ret (Some (serialize_doc doc))
  | None => ret None
  end.

(** The timestamp is read before the identifier is parsed; the answer is
    [result.modified_count > 0]. *)
Definition update_document (collection_name id_str : string)
  (update_data : dict) : M bool :=
  d <- get_db "Database not available." ;;
  t <- now ;;
  let update_data := PyDict.set update_data "updated_at" (VDate t) in
  oid <- to_object_id id_str ;;
  modified_count <- Mongo.update_one d collection_name oid update_data ;;
  ret (0 <? modified_count).

(** ** main.py: request bodies

    The records are the bodies after validation; the [valid_] predicates are
    the [Field] constraints the framework has checked before a handler
    runs. *)

Record MenuUpdate : Type := {
  mu_name : option string;
  mu_description : option string;
  mu_price : option float;
  mu_category : option string;
  mu_image_url : option string;
  mu_is_available : option bool
}.

Record OrderItemIn : Type := { item_id : string; quantity : Z }.

Inductive PaymentMethod : Type := online | cash.

Record OrderCreate : Type := {
  table_id : string;
  items : list OrderItemIn;
  payment_method : PaymentMethod;
  notes : option string
}.

Inductive OrderStatus : Type :=
  pending | preparing | served | completed | cancelled.

Record OrderStatusUpdate : Type := { osu_status : OrderStatus }.

Inductive PaymentOutcome : Type := succeeded | failed.

Record PaymentConfirm : Type := {
  pc_order_id : string;
  pc_status : PaymentOutcome
}.

Definition valid_OrderItemIn (it : OrderItemIn) : bool := 1 <=? quantity it.

Definition valid_OrderCreate (p : OrderCreate) : bool :=
  forallb valid_OrderItemIn (items p).

Definition valid_MenuUpdate (p : MenuUpdate) : bool :=
  match mu_price p with
  | Some x => (0 <=? x)%float
  | None => true
  end.

Definition opt_value {A} (f : A -> value) (o : option A) : value :=
  match o with
  | Some a => f a
  | None => VNone
  end.

Definition is_None (v : value) : bool :=
  match v with
  | VNone => true
  | _ => false
  end.

(** [payload.model_dump()] *)
Definition MenuUpdate_model_dump (p : MenuUpdate) : dict :=
  [ ("name", opt_value VStr (mu_name p));
    ("description", opt_value VStr (mu_description p));
    ("price", opt_value VFloat (mu_price p));
    ("category", opt_value VStr (mu_category p));
    ("image_url", opt_value VStr (mu_image_url p));
    ("is_available", opt_value VBool (mu_is_available p)) ].

Definition PaymentMethod_str (m : PaymentMethod) : string :=
  match m with
  | online => "online"
  | cash => "cash"
  end.

Definition OrderStatus_str (s : OrderStatus) : string :=
  match s with
  | pending => "pending"
  | preparing => "preparing"
  | served => "served"
  | completed => "completed"
  | cancelled => "cancelled"
  end.

(** ** main.py: handlers *)

Section Handlers.

(** [float(s)] for a string [s] is the interpreter's parser of decimal
    literals; the handlers below are stated for any such parser
    ([None] is [ValueError]). *)
Variable float_of_str : string -> option float.

(** [float(v)] *)
Definition py_float (v : value) : result float :=
  match v with
  | VFloat f => Ok f
  | VInt z =>
      match PyFloat.of_int z with
      | Some f => Ok f
      | None => Raise OverflowError
      end
  | VBool b => Ok (if b then 1%float else 0%float)
  | VStr s =>
      match float_of_str s with
      | Some f => Ok f
      | None => Raise ValueError
      end
  | _ => Raise TypeError
  end.

(** [db.menuitem]: an attribute of the handle, which fails on [None]. *)
Definition db_attr : M Database :=
  fun w =>
    match db w with
    | Some d => (Ok d, w)
    | None => (Raise AttributeError, w)
    end.

Definition update_menu_item (item_id : string) (payload : MenuUpdate)
  : M value :=
  ok <- update_document "menuitem" item_id
          (filter (fun kv => negb (is_None (snd kv)))
                  (MenuUpdate_model_dump payload)) ;;
  if negb ok then raise (HTTPException 404 "Menu item not found")
  else ret (VDict [("success", VBool true)]).

(** [{str(doc["_id"]): float(doc.get("price", 0)) for doc in menu_docs}] *)
Fixpoint price_map_of (menu_docs : list Document) (acc : PyDict.t float)
  : result (PyDict.t float) :=
  match menu_docs with
  | [] => Ok acc
  | doc :: rest =>
      match py_float (PyDict.get_default (doc_fields doc) "price" (VInt 0))
      with
      | Ok p => price_map_of rest (PyDict.set acc (str_oid (doc_id doc)) p)
      | Raise e => Raise e
      end
  end.

(** [{str(doc["_id"]): doc.get("name", "Item") for doc in menu_docs}] *)
Definition name_map_of (menu_docs : list Document) : dict :=
  fold_left
    (fun acc doc =>
       PyDict.set acc (str_oid (doc_id doc))
         (PyDict.get_default (doc_fields doc) "name" (VStr "Item")))
    menu_docs [].

(** The dictionary appended to [order_items] for one requested item. *)
Definition order_item (name_map : dict) (it : OrderItemIn)
  (price line_total : float) : value :=
  VDict [ ("item_id", VStr (item_id it));
          ("name", PyDict.get_default name_map (item_id it) (VStr "Item"));
          ("price", VFloat price);
          ("quantity", VInt (quantity it));
          ("line_total", VFloat line_total) ].

(** The loop over [payload.items], from the state [order_items],
    [subtotal] it has reached. *)
Fixpoint price_lines (price_map : PyDict.t float) (name_map : dict)
  (its : list OrderItemIn) (order_items : list value) (subtotal : float)
  : result (list value * float) :=
  match its with
  | [] => Ok (order_items, subtotal)
  | it :: rest =>
      match PyDict.get price_map (item_id it) with
      | None =>
          Raise (HTTPException 400 ("Invalid item_id " ++ item_id it))
      | Some price =>
          match PyFloat.mul_int price (quantity it) with
          | None => Raise OverflowError
          | Some line_total =>
              price_lines price_map name_map rest
                (order_items
                 ++ [order_item name_map it price line_total])%list
                (subtotal + line_total)%float
          end
      end
  end.

Definition create_order (payload : OrderCreate) : M value :=
  let ids := map item_id (items payload) in
  d <- db_attr ;;
  oids <- mapM Mongo.new_ObjectId ids ;;
  let menu_docs := Mongo.find_in (d "menuitem") oids in
  price_map <- lift (price_map_of menu_docs []) ;;
  let name_map := name_map_of menu_docs in
  priced <- lift (price_lines price_map name_map (items payload)
                    [] 0%float) ;;
  let (order_items, subtotal) := priced in
  let order_doc :=
    [ ("table_id", VStr (table_id payload));
      ("items", VList order_items);
      ("subtotal", VFloat (PyFloat.round2 subtotal));
      ("payment_method", VStr (PaymentMethod_str (payment_method payload)));
      ("status", VStr "pending");
      ("payment_status",
       VStr (match payment_method payload with
             | cash => "unpaid"
             | online => "pending"
             end));
      ("notes", opt_value VStr (notes payload)) ] in
  order_id <- create_document "order" order_doc ;;
  payment <-
    match payment_method payload with
    | online =>
        let payment :=
          [ ("order_id", VStr order_id);
            ("provider", VStr "mock");
            ("amount", VFloat (PyFloat.round2 subtotal));
            ("currency", VStr "INR");
            ("status", VStr "pending");
            ("transaction_id", VNone) ] in
        payment_id <- create_document "paymentrecord" payment ;;
        ret (VDict (("id", VStr payment_id) :: payment))
    | cash => ret VNone
    end ;;
  ret (VDict [ ("order_id", VStr order_id);
               ("subtotal", VFloat (PyFloat.round2 subtotal));
               ("payment", payment) ]).

Definition get_order (order_id : string) : M value :=
  order <- get_document_by_id "order" order_id ;;
  match order with
  | None => raise (HTTPException 404 "Order not found")
  | Some o => ret (VDict o)
  end.

Definition set_order_status (order_id : string)
  (payload : OrderStatusUpdate) : M value :=
  ok <- update_document "order" order_id
          [("status", VStr (OrderStatus_str (osu_status payload)))] ;;
  if negb ok then raise (HTTPException 404 "Order not found")
  else ret (VDict [("success", VBool true)]).

Definition confirm_mock_payment (payload : PaymentConfirm) : M value :=
  order <- get_document_by_id "order" (pc_order_id payload) ;;
  match order with
  | None => raise (HTTPException 404 "Order not found")
  | Some _ =>
      match pc_status payload with
      | succeeded =>
          _ <- update_document "order" (pc_order_id payload)
                 [("payment_status", VStr "paid")] ;;
          ret (VDict [ ("success", VBool true);
                       ("order_id", VStr (pc_order_id payload));
                       ("payment_status", VStr "paid") ])
      | failed =>
          _ <- update_document "order" (pc_order_id payload)
                 [("payment_status", VStr "failed")] ;;
          ret (VDict [ ("success", VBool true);
                       ("order_id", VStr (pc_order_id payload));
                       ("payment_status", VStr "failed") ])
      end
  end.

End Handlers.

(** ** Vocabulary of the specification *)

(** The text of an identifier as the API hands it out. *)
Definition canonical (id : string) : Prop :=
  parse_ObjectId id = Some (Oid id).

(** [id] is the identifier of a document of the collection. *)
Definition resolves (c : Collection) (id : string) : Prop :=
  exists oid doc,
    parse_ObjectId id = Some oid /\ In doc c /\ doc_id doc = oid.

Definition resolvesb (c : Collection) (id : string) : bool :=
  match parse_ObjectId id with
  | Some oid => existsb (fun doc => oid_eqb (doc_id doc) oid) c
  | None => false
  end.

(** The store keeps one document per [_id]. *)
Definition unique_ids (c : Collection) : Prop := NoDup (map doc_id c).

(** The sum of the line totals, accumulated in input order from [0.0]. *)
Definition float_sum (l : list float) : float :=
  fold_left PrimFloat.add l 0%float.

(** [ObjectId(i) for i in ids], as a value. *)
Fixpoint parse_ids (ids : list string) : result (list ObjectId) :=
  match ids with
  | [] => Ok []
  | i :: rest =>
      match parse_ObjectId i with
      | None => Raise (InvalidId i)
      | Some o =>
          match parse_ids rest with
          | Ok os => Ok (o :: os)
          | Raise e => Raise e
          end
      end
  end.

(** The [order_doc] and [payment] dictionaries of [create_order]. *)
Definition order_doc (payload : OrderCreate) (order_items : list value)
  (subtotal : float) : dict :=
  [ ("table_id", VStr (table_id payload));
    ("items", VList order_items);
    ("subtotal", VFloat (PyFloat.round2 subtotal));
    ("payment_method", VStr (PaymentMethod_str (payment_method payload)));
    ("status", VStr "pending");
    ("payment_status",
     VStr (match payment_method payload with
           | cash => "unpaid"
           | online => "pending"
           end));
    ("notes", opt_value VStr (notes payload)) ].

Definition payment_doc (order_id : string) (subtotal : float) : dict :=
  [ ("order_id", VStr order_id);
    ("provider", VStr "mock");
    ("amount", VFloat (PyFloat.round2 subtotal));
    ("currency", VStr "INR");
    ("status", VStr "pending");
    ("transaction_id", VNone) ].

(** The response of [create_order]. *)
Definition order_response (order_id : string) (subtotal : float)
  (payment : value) : value :=
  VDict [ ("order_id", VStr order_id);
          ("subtotal", VFloat (PyFloat.round2 subtotal));
          ("payment", payment) ].

(** Lines 144 to 169 of [create_order]: the two writes and the response. *)
Definition persist_order (payload : OrderCreate) (order_items : list value)
  (subtotal : float) : M value :=
  order_id <- create_document "order"
                (order_doc payload order_items subtotal) ;;
  payment <-
    match payment_method payload with
    | online =>
        payment_id <- create_document "paymentrecord"
                        (payment_doc order_id subtotal) ;;
        ret (VDict (("id", VStr payment_id)
                    :: payment_doc order_id subtotal))
    | cash => ret VNone
    end ;;
  ret (order_response order_id subtotal payment).

(** One priced line of an order: the requested item, the unit price found
    for it and the line total computed from them. *)
Record PricedLine : Type := {
  pl_item : OrderItemIn;
  pl_price : float;
  pl_total : float
}.

(** The dictionary stored in the order for a priced line. *)
Definition line_doc (name_map : dict) (l : PricedLine) : value :=
  order_item name_map (pl_item l) (pl_price l) (pl_total l).

(** [p] is the price, as a float, of a menu document that [id] names:
    [float(doc.get("price", 0))]. *)
Definition menu_price (float_of_str : string -> option float)
  (menu : Collection) (id : string) (p : float) : Prop :=
  exists doc,
    In doc menu
    /\ parse_ObjectId id = Some (doc_id doc)
    /\ py_float float_of_str
         (PyDict.get_default (doc_fields doc) "price" (VInt 0)) = Ok p.

(** The clock and identifier counters after one [create_document]. *)
Definition advance (w : World) : World :=
  MkWorld (db w) (clock w) (S (S (ticks w))) (oid_source w) (S (issued w)).

(** Two worlds that differ at most in the menuitem collection. *)
Definition agree (w2 w : World) : Prop :=
  clock w2 = clock w /\ ticks w2 = ticks w
  /\ oid_source w2 = oid_source w /\ issued w2 = issued w
  /\ (db w2 = None <-> db w = None)
  /\ forall n, n <> "menuitem" -> stored w2 n = stored w n.

(** A computation that cannot tell such worlds apart. *)
Definition respects {A} (m : M A) : Prop :=
  forall w2 w,
    agree w2 w ->
    fst (m w2) = fst (m w) /\ agree (snd (m w2)) (snd (m w)).

(** The quantity converts to a positive finite float, as every quantity from
    1 up to the largest float does. *)
Definition finite_quantity (q : Z) : bool :=
  match PyFloat.of_int q with
  | Some qf =>
      match Prim2SF qf with
      | S754_finite false _ _ => true
      | _ => false
      end
  | None => false
  end.

(** The field [k] of a dictionary value. *)
Definition field (v : value) (k : string) : option value :=
  match v with
  | VDict d => PyDict.get d k
  | _ => None
  end.

(** The world [w] with [menu] as its menuitem collection. *)
Definition with_menu (w : World) (menu : Collection) : World :=
  MkWorld
    (option_map (fun d => with_collection d "menuitem" menu) (db w))
    (clock w) (ticks w) (oid_source w) (issued w).

(** Two menu documents that differ at most in [is_available]. *)
Definition same_but_availability (a b : Document) : Prop :=
  doc_id a = doc_id b
  /\ forall k, k <> "is_available" ->
       PyDict.get (doc_fields a) k = PyDict.get (doc_fields b) k.

(** The identifier the driver generates next. *)
Definition next_oid (w : World) : ObjectId :=
  oid_of_N (oid_source w (issued w)).

(** [data] with the two timestamps [create_document] adds in [w]. *)
Definition stamped (data : dict) (w : World) : dict :=
  PyDict.set (PyDict.set data "created_at" (VDate (clock w (ticks w))))
    "updated_at" (VDate (clock w (S (ticks w)))).

(** The world after a successful [create_document]. *)
Definition inserted (d : Database) (name : string) (data : dict) (w : World)
  : World :=
  MkWorld
    (Some (with_collection d name
             (d name ++ [Doc (next_oid w) (stamped data w)])%list))
    (clock w) (S (S (ticks w))) (oid_source w) (S (issued w)).

(** The [$set] document [update_document] sends in [w]. *)
Definition set_doc (update_data : dict) (w : World) : dict :=
  PyDict.set update_data "updated_at" (VDate (clock w (ticks w))).

(** What a [MenuUpdate] body says about the field [k]: [None] when [k] is no
    field of the body, [Some VNone] when the field is omitted or null. *)
Definition requested (payload : MenuUpdate) (k : string) : option value :=
  PyDict.get (MenuUpdate_model_dump payload) k.

(** The fields [update_menu_item] passes to [update_document]. *)
Definition menu_changes (payload : MenuUpdate) : dict :=
  filter (fun kv => negb (is_None (snd kv))) (MenuUpdate_model_dump payload).

Definition payment_status_of (o : PaymentOutcome) : string :=
  match o with
  | succeeded => "paid"
  | failed => "failed"
  end.

(** The order [id] is stored in [w]. *)
Definition order_exists (w : World) (id : string) : Prop :=
  exists oid doc,
    parse_ObjectId id = Some oid
    /\ db w <> None
    /\ Mongo.find_one (stored w "order") oid = Some doc.

(** The order [id] is stored in [w] with the field [k] holding [v]. *)
Definition order_field (w : World) (id k : string) (v : value) : Prop :=
  exists oid doc,
    parse_ObjectId id = Some oid
    /\ db w <> None
    /\ Mongo.find_one (stored w "order") oid = Some doc
    /\ PyDict.get (doc_fields doc) k = Some v.

(** Successive confirmations for one order, oldest first. *)
Fixpoint confirm_all (id : string) (outcomes : list PaymentOutcome)
  (w : World) : World :=
  match outcomes with
  | [] => w
  | o :: rest =>
      confirm_all id rest
        (snd (confirm_mock_payment (Build_PaymentConfirm id o) w))
  end.

(** [id] is the text of the document's identifier. *)
Definition names (id : string) (doc : Document) : Prop :=
  parse_ObjectId id = Some (doc_id doc) /\ str_oid (doc_id doc) = id.

(** The same menu document, switched on. *)
Definition make_available (doc : Document) : Document :=
  Doc (doc_id doc) (PyDict.set (doc_fields doc) "is_available" (VBool true)).

(** The world [w] with every menu item switched on. *)
Definition all_available (w : World) : World :=
  with_menu w (map make_available (stored w "menuitem")).

(** The menu document's price field converts to a float. *)
Definition price_converts (float_of_str : string -> option float)
  (doc : Document) : Prop :=
  exists p,
    py_float float_of_str
      (PyDict.get_default (doc_fields doc) "price" (VInt 0)) = Ok p.

(** ** A small restaurant

    Four menu documents, the second one switched off and the last one
    without a price, and an empty order book.
    The clock advances one millisecond per reading until the third
    millisecond, where it stays: the requests that follow fall into one
    millisecond. *)

Module Demo.

Definition paneer_id : string := "65a1b2c3d4e5f60718293a4b".
Definition lassi_id : string := "65a1b2c3d4e5f60718293a4c".
Definition chutney_id : string := "65a1b2c3d4e5f60718293a4d".
Definition water_id : string := "65a1b2c3d4e5f60718293a4e".

Definition paneer : Document :=
  Doc (Oid paneer_id)
    [ ("name", VStr "Paneer Tikka"); ("description", VNone);
      ("price", VFloat 120); ("category", VStr "Starters");
      ("image_url", VNone); ("is_available", VBool true) ].

Definition lassi : Document :=
  Doc (Oid lassi_id)
    [ ("name", VStr "Lassi"); ("description", VStr "Sweet");
      ("price", VFloat 75.5); ("category", VStr "Drinks");
      ("image_url", VNone); ("is_available", VBool false) ].

Definition chutney : Document :=
  Doc (Oid chutney_id)
    [ ("name", VStr "Chutney"); ("description", VNone);
      ("price", VFloat 10.125); ("category", VNone);
      ("image_url", VNone); ("is_available", VBool true) ].

(** A document put into the store by hand, without a price. *)
Definition water : Document :=
  Doc (Oid water_id) [ ("name", VStr "Water") ].

Definition menu : Collection := [paneer; lassi; chutney; water].

Definition database : Database :=
  fun name => if String.eqb name "menuitem" then menu else [].

Definition world : World :=
  MkWorld (Some database)
    (fun n => Z.min (1000 + Z.of_nat n) 1002) 0
    (fun n => 4096 + N.of_nat n)%N 0.

(** No string is a price in this store. *)
Definition no_float (s : string) : option float := None.

Definition order_body (m : PaymentMethod) : OrderCreate :=
  {| table_id := "7";
     items := [ {| item_id := paneer_id; quantity := 2 |};
                {| item_id := lassi_id; quantity := 1 |} ];
     payment_method := m;
     notes := None |}.

(** An identifier no menu document carries. *)
Definition unknown_id : string := "65a1b2c3d4e5f60718293aff".

Definition unknown_body : OrderCreate :=
  {| table_id := "7";
     items := [ {| item_id := paneer_id; quantity := 1 |};
                {| item_id := unknown_id; quantity := 3 |} ];
     payment_method := online;
     notes := None |}.

Definition malformed_body : OrderCreate :=
  {| table_id := "7";
     items := [ {| item_id := "xyz"; quantity := 1 |} ];
     payment_method := cash;
     notes := None |}.

Definition water_item : OrderItemIn :=
  {| item_id := water_id; quantity := 2 |}.

Definition water_body : OrderCreate :=
  {| table_id := "7";
     items := [ water_item; {| item_id := paneer_id; quantity := 1 |} ];
     payment_method := cash;
     notes := None |}.

Definition chutney_body : OrderCreate :=
  {| table_id := "7";
     items := [ {| item_id := chutney_id; quantity := 1 |} ];
     payment_method := cash;
     notes := Some "extra spicy" |}.

(** The identifiers of the lassi and of the water, written in upper case,
    and an order for each. *)
Definition lassi_upper : string := "65A1B2C3D4E5F60718293A4C".
Definition water_upper : string := "65A1B2C3D4E5F60718293A4E".

Definition lassi_upper_body : OrderCreate :=
  {| table_id := "7";
     items := [ {| item_id := lassi_upper; quantity := 1 |} ];
     payment_method := cash;
     notes := None |}.

Definition water_upper_body : OrderCreate :=
  {| table_id := "7";
     items := [ {| item_id := water_upper; quantity := 2 |} ];
     payment_method := cash;
     notes := None |}.

(** 22 hexadecimal digits and two spaces: eleven bytes, which the
    [ObjectId] constructor accepts. *)
Definition spaced_id : string := "65a1b2c3d4e5f60718293a  ".

Definition spaced_body : OrderCreate :=
  {| table_id := "7";
     items := [ {| item_id := spaced_id; quantity := 1 |} ];
     payment_method := cash;
     notes := None |}.

(** A quantity of nine bytes. *)
Definition huge_body : OrderCreate :=
  {| table_id := "7";
     items := [ {| item_id := paneer_id; quantity := 2 ^ 63 |} ];
     payment_method := cash;
     notes := None |}.

(** The world once the online order is placed, and the order's id. *)
Definition world_ordered : World :=
  snd (create_order no_float (order_body online) world).

Definition placed_id : string := "000000000000000000001000".

Definition online_response : value :=
  VDict [ ("order_id", VStr placed_id);
          ("subtotal", VFloat 315.5);
          ("payment",
           VDict [ ("id", VStr "000000000000000000001001");
                   ("order_id", VStr placed_id);
                   ("provider", VStr "mock");
                   ("amount", VFloat 315.5);
                   ("currency", VStr "INR");
                   ("status", VStr "pending");
                   ("transaction_id", VNone) ]) ].

(** The world once the kitchen has marked the order served. *)
Definition world_served : World :=
  snd (set_order_status placed_id {| osu_status := served |}
         world_ordered).

End Demo.

(** ** The rest of the adapter: queries and deletion

    The filters this program builds compare top-level fields with a boolean
    or a string. *)

Inductive FilterValue : Type :=
| FBool (b : bool)
| FStr (s : string).

Definition Filter : Type := PyDict.t FilterValue.

Definition SortSpec : Type := list (string * Z).

Module Query.

Definition operand (q : FilterValue) : value :=
  match q with
  | FBool b => VBool b
  | FStr s => VStr s
  end.

(** The document as a query sees it, [_id] included. *)
Definition view (doc : Document) : dict :=
  ("_id", VOid (doc_id doc)) :: doc_fields doc.

(** [{field: q}] holds of a field that equals [q] or is an array with an
    element equal to [q]. *)
Definition field_matches (v : value) (q : FilterValue) : bool :=
  value_eqb v (operand q)
  || match v with
     | VList l => existsb (fun x => value_eqb x (operand q)) l
     | _ => false
     end.

(** A document matches when every condition holds; a missing field matches
    neither a boolean nor a string. *)
Definition matches (filt : Filter) (doc : Document) : bool :=
  forallb (fun kq =>
             match PyDict.get (view doc) (fst kq) with
             | Some v => field_matches v (snd kq)
             | None => false
             end) filt.

(** [find(filt)], in the collection's natural order. *)
Definition find (c : Collection) (filt : Filter) : list Document :=
  filter (matches filt) c.

(** [delete_one({"_id": oid})]: the first document with the identifier is
    removed; the second component is [deleted_count]. *)
Fixpoint delete_one (c : Collection) (oid : ObjectId) : Collection * Z :=
  match c with
  | [] => ([], 0)
  | d :: c' =>
      if Mongo.has_id oid d then (c', 1)
      else let (c'', n) := delete_one c' oid in (d :: c'', n)
  end.

End Query.

Definition delete_document (collection_name id_str : string) : M bool :=
  d <- get_db "Database not available." ;;
  oid <- to_object_id id_str ;;
  let (c, deleted_count) := Query.delete_one (d collection_name) oid in
  _ <- set_db (with_collection d collection_name c) ;;
  ret (0 <? deleted_count).

(** ** The rest of main.py *)

Record MenuCreate : Type := {
  mc_name : string;
  mc_description : option string;
  mc_price : float;
  mc_category : option string;
  mc_image_url : option string;
  mc_is_available : bool
}.

Definition valid_MenuCreate (p : MenuCreate) : bool :=
  (0 <=? mc_price p)%float.

(** [payload.model_dump()] *)
Definition MenuCreate_model_dump (p : MenuCreate) : dict :=
  [ ("name", VStr (mc_name p));
    ("description", opt_value VStr (mc_description p));
    ("price", VFloat (mc_price p));
    ("category", opt_value VStr (mc_category p));
    ("image_url", opt_value VStr (mc_image_url p));
    ("is_available", VBool (mc_is_available p)) ].

(** The truth value of an optional string: [None] and [""] are false. *)
Definition truthy (s : option string) : bool :=
  match s with
  | Some (String _ _) => true
  | _ => false
  end.

Definition root : M value :=
  ret (VDict [("message", VStr "Smart Restaurant API running")]).

Definition create_menu_item (payload : MenuCreate) : M value :=
  item_id <- create_document "menuitem" (MenuCreate_model_dump payload) ;;
  ret (VDict [("id", VStr item_id)]).

(** [db["order"]]: subscripting the handle, which fails on [None]. *)
Definition db_item : M Database :=
  fun w =>
    match db w with
    | Some d => (Ok d, w)
    | None => (Raise TypeError, w)
    end.

Fixpoint map_result {A B} (f : A -> result B) (l : list A)
  : result (list B) :=
  match l with
  | [] => Ok []
  | a :: l' =>
      match f a with
      | Raise e => Raise e
      | Ok b =>
          match map_result f l' with
          | Ok bs => Ok (b :: bs)
          | Raise e => Raise e
          end
      end
  end.

Section Surface.

Variable float_of_str : string -> option float.

(** The cursor's [sort] and [limit] are the store's: the order it gives to
    documents of any type, ties included, and the documents it keeps for a
    non-zero limit. *)
Variable cursor_sort : SortSpec -> list Document -> list Document.
Variable cursor_limit : Z -> list Document -> list Document.

(** The interpreter's [sum] of a non-empty series of floats (plain
    left-to-right addition in older interpreters, compensated in newer
    ones). *)
Variable float_total : list float -> float.

Definition get_documents (collection_name : string)
  (filter_dict : option Filter) (limit : option Z) (sort : option SortSpec)
  : M (list dict) :=
  d <- get_db ("Database not available. Check DATABASE_URL and "
               ++ "DATABASE_NAME environment variables.") ;;
  let cursor :=
    Query.find (d collection_name)
      (match filter_dict with
       | Some f => f
       | None => []
       end) in
  let cursor :=
    match sort with
    | Some (k :: s) => cursor_sort (k :: s) cursor
    | _ => cursor
    end in
  let cursor :=
    match limit with
    | Some n => if n =? 0 then cursor else cursor_limit n cursor
    | None => cursor
    end in
  ret (map serialize_doc cursor).

Definition list_menu (category : option string) : M value :=
  let filt := [("is_available", FBool true)] in
  let filt :=
    match category with
    | Some c => if truthy category then PyDict.set filt "category" (FStr c)
                else filt
    | None => filt
    end in
  items <- get_documents "menuitem" (Some filt) None (Some [("name", 1)]) ;;
  ret (VDict [("items", VList (map VDict items))]).

Definition list_orders (table_id : option string) : M value :=
  let filt :=
    match table_id with
    | Some t => if truthy table_id then [("table_id", FStr t)] else []
    | None => []
    end in
  orders <- get_documents "order" (Some filt) None
              (Some [("created_at", -1)]) ;;
  ret (VDict [("orders", VList (map VDict orders))]).

Definition admin_orders : M value :=
  orders <- get_documents "order" (Some []) None
              (Some [("created_at", -1)]) ;;
  ret (VDict [("orders", VList (map VDict orders))]).

Definition admin_stats : M value :=
  d <- db_item ;;
  let total_orders := Z.of_nat (List.length (d "order")) in
  let paid_orders := Query.find (d "order") [("payment_status", FStr "paid")] in
  amounts <- lift (map_result
                     (fun o =>
                        py_float float_of_str
                          (PyDict.get_default (doc_fields o) "subtotal"
                             (VInt 0))) paid_orders) ;;
  let total_sales :=
    match amounts with
    | [] => VInt 0
    | _ :: _ => VFloat (PyFloat.round2 (float_total amounts))
    end in
  ret (VDict [ ("total_orders", VInt total_orders);
               ("paid_orders", VInt (Z.of_nat (List.length paid_orders)));
               ("total_sales", total_sales) ]).

(** The liveness route and the ten routes of [main.py] that read or write
    the store. GET /test and GET /api/qr/{table_number} are not among them:
    the first reports on the environment and the second draws an image. *)
Inductive Request : Type :=
| GetRoot
| GetMenu (category : option string)
| PostMenu (payload : MenuCreate)
| PutMenu (item_id : string) (payload : MenuUpdate)
| PostOrder (payload : OrderCreate)
| GetOrder (order_id : string)
| GetOrders (table_id : option string)
| PatchOrderStatus (order_id : string) (payload : OrderStatusUpdate)
| PostPaymentConfirm (payload : PaymentConfirm)
| GetAdminOrders
| GetAdminStats.

Definition handle (r : Request) : M value :=
  match r with
  | GetRoot => root
  | GetMenu category => list_menu category
  | PostMenu payload => create_menu_item payload
  | PutMenu item_id payload => update_menu_item item_id payload
  | PostOrder payload => create_order float_of_str payload
  | GetOrder order_id => get_order order_id
  | GetOrders table_id => list_orders table_id
  | PatchOrderStatus order_id payload => set_order_status order_id payload
  | PostPaymentConfirm payload => confirm_mock_payment payload
  | GetAdminOrders => admin_orders
  | GetAdminStats => admin_stats
  end.

(** The world after a series of requests, served one after the other. *)
Fixpoint serve (reqs : list Request) (w : World) : World :=
  match reqs with
  | [] => w
  | r :: rest => serve rest (snd (handle r w))
  end.

End Surface.

(** ** Vocabulary of the further properties *)

Fixpoint has_char (c : ascii) (s : string) : bool :=
  match s with
  | EmptyString => false
  | String c' s' => Ascii.eqb c' c || has_char c s'
  end.

(** A key that names a field of the document itself: not empty, no dot
    (which would make it a path) and no leading dollar. *)
Definition field_name (k : string) : bool :=
  negb (String.eqb k "") && negb (has_char "." k)
  && negb (String.prefix "$" k).

(** The fields a status or payment transition rewrites. *)
Definition volatile (k : string) : bool :=
  String.eqb k "status" || String.eqb k "payment_status"
  || String.eqb k "updated_at".

(** [b] is [a] but for its volatile fields. *)
Definition same_snapshot (a b : Document) : Prop :=
  doc_id b = doc_id a
  /\ forall k, volatile k = false ->
       PyDict.get (doc_fields b) k = PyDict.get (doc_fields a) k.

Definition same_id (a b : Document) : Prop := doc_id b = doc_id a.

(** [c'] holds the documents of [c], in place and up to [R], and then
    documents added since. *)
Definition extends (R : Document -> Document -> Prop) (c c' : Collection)
  : Prop :=
  exists kept added, c' = (kept ++ added)%list /\ Forall2 R c kept.

(** What the store of [w'] has kept of the store of [w]. *)
Definition history (w w' : World) : Prop :=
  (db w' = None <-> db w = None)
  /\ extends same_snapshot (stored w "order") (stored w' "order")
  /\ extends eq (stored w "paymentrecord") (stored w' "paymentrecord")
  /\ extends same_id (stored w "menuitem") (stored w' "menuitem").

(** Every collection holds one document per identifier. *)
Definition store_unique (w : World) : Prop :=
  forall name, unique_ids (stored w name).

(** The order a payment record refers to. *)
Definition order_ref (rec : Document) : option value :=
  PyDict.get (doc_fields rec) "order_id".

(** Payment records refer to distinct orders, each of them stored and
    placed with the online method. *)
Definition payments_sound (w : World) : Prop :=
  NoDup (map order_ref (stored w "paymentrecord"))
  /\ forall rec,
       In rec (stored w "paymentrecord") ->
       exists order,
         In order (stored w "order")
         /\ order_ref rec = Some (VStr (str_oid (doc_id order)))
         /\ PyDict.get (doc_fields order) "payment_method"
            = Some (VStr "online").

(** ** What a request may do to the store *)

(** [k] is one of [keys]. *)
Definition named_in (keys : list string) (k : string) : bool :=
  existsb (String.eqb k) keys.

(** Nothing is written. *)
Definition unchanged (w w' : World) : Prop :=
  (db w' = None <-> db w = None)
  /\ forall n, stored w' n = stored w n.

(** [doc], under an identifier the collection did not hold, is added at
    the end of the collection [name]; nothing else is written. *)
Definition appended (name : string) (doc : Document) (w w' : World) : Prop :=
  db w <> None /\ db w' <> None
  /\ ~ In (doc_id doc) (map doc_id (stored w name))
  /\ stored w' name = (stored w name ++ [doc])%list
  /\ forall n, n <> name -> stored w' n = stored w n.

(** Documents of the collection [name] are rewritten in place, keeping
    their identifier and every field that [may_change] does not name;
    nothing else is written. *)
Definition rewritten (name : string) (may_change : string -> bool)
  (w w' : World) : Prop :=
  (db w' = None <-> db w = None)
  /\ Forall2
       (fun a b =>
          doc_id b = doc_id a
          /\ forall k, may_change k = false ->
               PyDict.get (doc_fields b) k = PyDict.get (doc_fields a) k)
       (stored w name) (stored w' name)
  /\ forall n, n <> name -> stored w' n = stored w n.

(** An order and the payment record that refers to it are added, both
    under fresh identifiers. *)
Definition order_paid (order rec : Document) (w w' : World) : Prop :=
  db w <> None /\ db w' <> None
  /\ ~ In (doc_id order) (map doc_id (stored w "order"))
  /\ ~ In (doc_id rec) (map doc_id (stored w "paymentrecord"))
  /\ stored w' "order" = (stored w "order" ++ [order])%list
  /\ stored w' "paymentrecord" = (stored w "paymentrecord" ++ [rec])%list
  /\ order_ref rec = Some (VStr (str_oid (doc_id order)))
  /\ PyDict.get (doc_fields order) "payment_method" = Some (VStr "online")
  /\ forall n, n <> "order" -> n <> "paymentrecord" ->
       stored w' n = stored w n.

(** The writes of one request. *)
Inductive effect (w w' : World) : Prop :=
| eff_none : unchanged w w' -> effect w w'
| eff_menu_added doc : appended "menuitem" doc w w' -> effect w w'
| eff_menu_changed : rewritten "menuitem" (fun _ => true) w w' -> effect w w'
| eff_order_changed : rewritten "order" volatile w w' -> effect w w'
| eff_order_placed order : appended "order" order w w' -> effect w w'
| eff_order_paid order rec : order_paid order rec w w' -> effect w w'.

(** ** An evening at the restaurant

    A store that keeps the natural order when it sorts, a summation from
    left to right, and a series of requests on the world of [Demo]. *)

Module Service.

Definition keep_order (spec : SortSpec) (docs : list Document)
  : list Document := docs.

Definition take (n : Z) (docs : list Document) : list Document :=
  firstn (Z.to_nat (Z.abs n)) docs.

Definition total (l : list float) : float := fold_left PrimFloat.add l 0%float.

Definition raita : MenuCreate :=
  {| mc_name := "Raita"; mc_description := None; mc_price := 40.5;
     mc_category := Some "Sides"; mc_image_url := None;
     mc_is_available := true |}.

(** Two portions of the raita, under the identifier it gets when it is the
    first document written in [Demo]. *)
Definition raita_body : OrderCreate :=
  {| table_id := "7";
     items := [ {| item_id := Demo.placed_id; quantity := 2 |} ];
     payment_method := cash;
     notes := None |}.

Definition switch_off : MenuUpdate :=
  {| mu_name := None; mu_description := None; mu_price := None;
     mu_category := None; mu_image_url := None;
     mu_is_available := Some false |}.

Definition evening : list Request :=
  [ GetMenu None;
    PostMenu raita;
    PostOrder (Demo.order_body online);
    PatchOrderStatus "000000000000000000001001"
      {| osu_status := preparing |};
    PostOrder (Demo.order_body cash);
    PostPaymentConfirm
      {| pc_order_id := "000000000000000000001001"; pc_status := succeeded |};
    PutMenu Demo.paneer_id switch_off;
    GetAdminStats ].

Definition run (reqs : list Request) (w : World) : World :=
  serve Demo.no_float keep_order take total reqs w.

Definition answer (r : Request) (w : World) : result value :=
  fst (handle Demo.no_float keep_order take total r w).

End Service.

(** * Properties *)

(** ** Dictionaries *)

Module PyDictFacts.
Import PyDict.

Lemma get_set_eq {A} (d : t A) k v : get (set d k v) k = Some v.
Proof.
  induction d as [|[k' v'] d IH]; simpl.
  - now rewrite String.eqb_refl.
  - destruct (String.eqb k' k) eqn:E; simpl; rewrite E; auto.
Qed.

Lemma get_set_neq {A} (d : t A) k k' v :
  k <> k' -> get (set d k v) k' = get d k'.
Proof.
  intros Hne. induction d as [|[k0 v0] d IH]; simpl.
  - destruct (String.eqb k k') eqn:E; auto.
    apply String.eqb_eq in E. contradiction.
  - destruct (String.eqb k0 k) eqn:E; simpl.
    + apply String.eqb_eq in E. subst k0.
      destruct (String.eqb k k') eqn:E'; auto.
      apply String.eqb_eq in E'. contradiction.
    + now rewrite IH.
Qed.

Lemma get_set {A} (d : t A) k k' v :
  get (set d k v) k' = if String.eqb k k' then Some v else get d k'.
Proof.
  destruct (String.eqb k k') eqn:E.
  - apply String.eqb_eq in E. subst. apply get_set_eq.
  - apply get_set_neq. intros ->. now rewrite String.eqb_refl in E.
Qed.

Lemma set_In {A} (d : t A) k v k' v' :
  In (k', v') (set d k v) -> In (k', v') d \/ (k', v') = (k, v).
Proof.
  induction d as [|[k0 v0] d IH]; simpl.
  - intros [H|[]]; auto.
  - destruct (String.eqb k0 k) eqn:E; simpl.
    + apply String.eqb_eq in E. subst k0. intros [H|H]; auto.
    + intros [H|H]; auto. destruct (IH H); auto.
Qed.

Lemma get_In {A} (d : t A) k v : get d k = Some v -> In (k, v) d.
Proof.
  induction d as [|[k0 v0] d IH]; simpl; [discriminate|].
  destruct (String.eqb k0 k) eqn:E.
  - apply String.eqb_eq in E. intros [= <-]. subst. now left.
  - auto.
Qed.


Lemma In_get_NoDup {A} (d : t A) k v :
  NoDup (keys d) -> In (k, v) d -> get d k = Some v.
Proof.
  induction d as [|[k0 v0] d IH]; simpl; [tauto|].
  intros Hnd [H|H].
  - injection H as -> ->. now rewrite String.eqb_refl.
  - inversion Hnd as [|? ? Hnin Hnd']; subst.
    destruct (String.eqb k0 k) eqn:E; auto.
    apply String.eqb_eq in E. subst k0. exfalso. apply Hnin.
    change k with (fst (k, v)). now apply in_map.
Qed.

(** A key the update does not name keeps its value. *)
Lemma get_update_other {A} (u d : t A) k :
  ~ In k (keys u) -> get (update d u) k = get d k.
Proof.
  unfold update. revert d.
  induction u as [|[k0 v0] u IH]; simpl; intros d Hnin; auto.
  rewrite IH by tauto. apply get_set_neq. tauto.
Qed.

(** Whatever an update leaves under a key was there or was named. *)
Lemma get_update_inv {A} (u d : t A) k v :
  get (update d u) k = Some v -> get d k = Some v \/ In (k, v) u.
Proof.
  unfold update. revert d.
  induction u as [|[k0 v0] u IH]; simpl; intros d H; auto.
  apply IH in H. destruct H as [H|H]; auto.
  rewrite get_set in H. simpl in H.
  destruct (String.eqb k0 k) eqn:E; auto.
  apply String.eqb_eq in E. injection H as ->. subst. auto.
Qed.

(** A named key holds the named value afterwards. *)
Lemma get_update_named {A} (u d : t A) k v :
  NoDup (keys u) -> In (k, v) u -> get (update d u) k = Some v.
Proof.
  unfold update. revert d.
  induction u as [|[k0 v0] u IH]; simpl; intros d Hnd Hin; [tauto|].
  inversion Hnd as [|? ? Hnin Hnd']; subst.
  destruct Hin as [H|H].
  - injection H as -> ->.
    fold (update (set d k v) u). rewrite get_update_other by assumption.
    apply get_set_eq.
  - now apply IH.
Qed.

Lemma keys_set {A} (d : t A) k v k' :
  In k' (keys (set d k v)) -> In k' (keys d) \/ k' = k.
Proof.
  unfold keys. intros H. apply in_map_iff in H.
  destruct H as [[k1 v1] [E H]]. simpl in E. subst k1.
  apply set_In in H. destruct H as [H|H].
  - left. change k' with (fst (k', v1)). now apply in_map.
  - injection H as -> _. now right.
Qed.

Lemma keys_set_NoDup {A} (d : t A) k v :
  NoDup (keys d) -> NoDup (keys (set d k v)).
Proof.
  induction d as [|[k0 v0] d IH]; simpl; intros Hnd.
  - constructor; [tauto|constructor].
  - inversion Hnd as [|? ? Hnin Hnd']; subst.
    destruct (String.eqb k0 k) eqn:E; simpl.
    + constructor; assumption.
    + constructor; auto. intros H. apply keys_set in H.
      apply String.eqb_neq in E. destruct H; [tauto|congruence].
Qed.

End PyDictFacts.

(** ** Identifiers *)

Lemma oid_eqb_eq (a b : ObjectId) : oid_eqb a b = true <-> a = b.
Proof.
  destruct a as [x], b as [y]. unfold oid_eqb. simpl.
  rewrite String.eqb_eq. split; [now intros ->|now intros [= ->]].
Qed.

Lemma oid_eqb_refl (a : ObjectId) : oid_eqb a a = true.
Proof. now apply oid_eqb_eq. Qed.

Lemma lower_ascii_idem (c : ascii) :
  lower_ascii (lower_ascii c) = lower_ascii c.
Proof. destruct c as [[] [] [] [] [] [] [] []]; reflexivity. Qed.

Lemma lower_idem (s : string) : lower (lower s) = lower s.
Proof.
  induction s as [|c s IH]; simpl; [reflexivity|].
  now rewrite lower_ascii_idem, IH.
Qed.

Lemma hex_digit_lower (c : ascii) :
  is_hex_digit c = true ->
  is_space c = false
  /\ is_space (lower_ascii c) = false
  /\ is_hex_digit (lower_ascii c) = true.
Proof.
  destruct c as [[] [] [] [] [] [] [] []]; vm_compute; intros H;
    try discriminate H; repeat split.
Qed.

Lemma fromhex_cons (c : ascii) (s : string) :
  fromhex (String c s)
  = if is_space c then fromhex s
    else if is_hex_digit c then
      match s with
      | String c' s'' =>
          if is_hex_digit c' then
            match fromhex s'' with
            | Some bytes =>
                Some (String (lower_ascii c) (String (lower_ascii c') bytes))
            | None => None
            end
          else None
      | EmptyString => None
      end
    else None.
Proof. reflexivity. Qed.

(** The text of bytes read by [fromhex] reads as the same bytes. *)
Lemma fromhex_idem (s h : string) :
  fromhex s = Some h -> fromhex h = Some h.
Proof.
  remember (String.length s) as n eqn:Hn.
  assert (Hlen : (String.length s <= n)%nat) by lia. clear Hn.
  revert s h Hlen. induction n as [|n IH]; intros s h Hlen H.
  - destruct s; [|cbn in Hlen; lia]. injection H as <-. reflexivity.
  - destruct s as [|c s]; [injection H as <-; reflexivity|].
    cbn [String.length] in Hlen. rewrite fromhex_cons in H.
    destruct (is_space c).
    + apply (IH s h); [lia|assumption].
    + destruct (is_hex_digit c) eqn:Ec; [|discriminate].
      destruct s as [|c' s]; [discriminate|].
      cbn [String.length] in Hlen.
      destruct (is_hex_digit c') eqn:Ec'; [|discriminate].
      destruct (fromhex s) as [b|] eqn:Eb; [|discriminate].
      injection H as <-.
      destruct (hex_digit_lower c Ec) as [_ [Hs Hh]].
      destruct (hex_digit_lower c' Ec') as [_ [_ Hh']].
      rewrite fromhex_cons, Hs, Hh, Hh'.
      rewrite (IH s b); [|lia|assumption].
      now rewrite !lower_ascii_idem.
Qed.

(** Hexadecimal digits in pairs are their own bytes, in lower case. *)
Lemma fromhex_hex (n : nat) (s : string) :
  String.length s = (2 * n)%nat ->
  all_hex s = true ->
  fromhex s = Some (lower s).
Proof.
  revert s. induction n as [|n IH]; intros s Hlen Hhex.
  - destruct s; [reflexivity|discriminate].
  - destruct s as [|c [|c' s]]; try (cbn in Hlen; lia).
    cbn [all_hex] in Hhex. apply andb_prop in Hhex.
    destruct Hhex as [Hc Hhex]. apply andb_prop in Hhex.
    destruct Hhex as [Hc' Hhex].
    destruct (hex_digit_lower c Hc) as [Hs _].
    rewrite fromhex_cons, Hs, Hc, Hc'.
    rewrite (IH s); [reflexivity| |assumption].
    cbn [String.length] in Hlen. lia.
Qed.

Lemma parse_ObjectId_hex (s : string) :
  String.length s = 24%nat ->
  all_hex s = true ->
  parse_ObjectId s = Some (Oid (lower s)).
Proof.
  intros Hlen Hhex. unfold parse_ObjectId. rewrite Hlen. cbn [Nat.eqb].
  now rewrite (@fromhex_hex 12 s Hlen Hhex).
Qed.

(** An identifier's text, when it is an identifier, is this identifier. *)
Lemma parse_ObjectId_str (s : string) (o o' : ObjectId) :
  parse_ObjectId s = Some o ->
  parse_ObjectId (str_oid o) = Some o' ->
  o' = o.
Proof.
  unfold parse_ObjectId.
  destruct (String.length s =? 24)%nat; [|discriminate].
  destruct (fromhex s) as [h|] eqn:Eh; [|discriminate].
  intros [= <-]. cbn [str_oid oid_hex].
  destruct (String.length h =? 24)%nat; [|discriminate].
  rewrite (fromhex_idem _ Eh). congruence.
Qed.

Lemma parse_ids_In (ids : list string) (oids : list ObjectId) :
  parse_ids ids = Ok oids ->
  forall o, In o oids <-> exists i, In i ids /\ parse_ObjectId i = Some o.
Proof.
  revert oids. induction ids as [|i ids IH]; simpl; intros oids H o.
  - injection H as <-. simpl. split; [tauto|intros [? [[] _]]].
  - destruct (parse_ObjectId i) as [o'|] eqn:Ei; [|discriminate].
    destruct (parse_ids ids) as [os|] eqn:Eids; [|discriminate].
    injection H as <-. simpl. rewrite (IH os eq_refl o). split.
    + intros [->|[j [Hj Ej]]]; eauto.
    + intros [j [[->|Hj] Ej]]; [left; congruence|eauto].
Qed.

Lemma parse_ids_Ok (ids : list string) :
  Forall (fun i => parse_ObjectId i <> None) ids ->
  exists oids, parse_ids ids = Ok oids.
Proof.
  induction 1 as [|i ids Hi _ [oids IH]]; simpl; eauto.
  destruct (parse_ObjectId i); [|contradiction]. rewrite IH. eauto.
Qed.

(** ** The monad *)

Lemma bind_Ok_inv {A B} (m : M A) (k : A -> M B) w b w' :
  bind m k w = (Ok b, w') ->
  exists a w1, m w = (Ok a, w1) /\ k a w1 = (Ok b, w').
Proof.
  unfold bind. destruct (m w) as [[a|e] w1]; [eauto|discriminate].
Qed.

Lemma bind_Ok {A B} (m : M A) (k : A -> M B) w a w1 :
  m w = (Ok a, w1) -> bind m k w = k a w1.
Proof. unfold bind. now intros ->. Qed.

Lemma bind_Raise {A B} (m : M A) (k : A -> M B) w e w1 :
  m w = (Raise e, w1) -> bind m k w = (Raise e, w1).
Proof. unfold bind. now intros ->. Qed.

Lemma mapM_new_ObjectId (ids : list string) (w : World) :
  mapM Mongo.new_ObjectId ids w = (parse_ids ids, w).
Proof.
  induction ids as [|i ids IH]; simpl; [reflexivity|].
  unfold bind, Mongo.new_ObjectId at 1.
  destruct (parse_ObjectId i) as [o|]; simpl; [|reflexivity].
  rewrite IH. destruct (parse_ids ids); reflexivity.
Qed.

(** ** The driver and [database.py] *)



Lemma update_one_not_found (c : Collection) oid upd :
  Mongo.find_one c oid = None -> Mongo.set_one c oid upd = (c, 0).
Proof.
  unfold Mongo.find_one.
  induction c as [|d c IH]; simpl; [reflexivity|].
  destruct (Mongo.has_id oid d); [discriminate|].
  intros H. now rewrite (IH H).
Qed.

Lemma update_one_found (c : Collection) oid upd doc :
  Mongo.find_one c oid = Some doc ->
  let doc' := if Mongo.changes (doc_fields doc) upd
              then Doc (doc_id doc) (PyDict.update (doc_fields doc) upd)
              else doc in
  Mongo.find_one (fst (Mongo.set_one c oid upd)) oid = Some doc'
  /\ snd (Mongo.set_one c oid upd)
     = if Mongo.changes (doc_fields doc) upd then 1 else 0.
Proof.
  unfold Mongo.find_one.
  induction c as [|d c IH]; simpl; [discriminate|].
  destruct (Mongo.has_id oid d) eqn:E.
  - intros [= ->].
    destruct (Mongo.changes (doc_fields doc) upd); simpl.
    + unfold Mongo.has_id in *. simpl. now rewrite E.
    + now rewrite E.
  - intros H. specialize (IH H).
    destruct (Mongo.set_one c oid upd) as [c'' n]. simpl in *.
    now rewrite E.
Qed.

(** [update_one] touches at most one document, keeps every identifier and
    merges the update into the fields of the one it touches. *)
Lemma update_one_Forall2 (c : Collection) oid upd :
  Forall2
    (fun a b =>
       b = a \/ (doc_id b = doc_id a
                 /\ doc_fields b = PyDict.update (doc_fields a) upd))
    c (fst (Mongo.set_one c oid upd)).
Proof.
  assert (Hrefl : forall l : Collection,
             Forall2 (fun a b => b = a \/ (doc_id b = doc_id a /\
                        doc_fields b = PyDict.update (doc_fields a) upd))
                     l l).
  { induction l; constructor; auto. }
  induction c as [|d c IH]; simpl; [constructor|].
  destruct (Mongo.has_id oid d).
  - destruct (Mongo.changes (doc_fields d) upd); simpl.
    + constructor; [right; auto | apply Hrefl].
    + apply Hrefl.
  - destruct (Mongo.set_one c oid upd) as [c'' n]. simpl in *.
    constructor; auto.
Qed.

Lemma stored_with_collection (d : Database) name c clk t src n name' :
  stored (MkWorld (Some (with_collection d name c)) clk t src n) name'
  = if String.eqb name' name then c else d name'.
Proof. reflexivity. Qed.

Lemma create_document_eq (name : string) (data : dict) (w : World) d :
  db w = Some d ->
  create_document name data w
  = match Mongo.refused (stamped data w) with
    | Some e =>
        (Raise e,
         MkWorld (Some d) (clock w) (S (S (ticks w))) (oid_source w)
           (S (issued w)))
    | None =>
        match Mongo.find_one (d name) (next_oid w) with
        | Some _ =>
            (Raise DuplicateKeyError,
             MkWorld (Some d) (clock w) (S (S (ticks w))) (oid_source w)
               (S (issued w)))
        | None => (Ok (str_oid (next_oid w)), inserted d name data w)
        end
    end.
Proof.
  intros Hd. destruct w as [o clk t src n]. simpl in Hd. subst o.
  unfold create_document, bind, get_db, now, Mongo.insert_one, bind,
    fresh_oid, next_oid, inserted, stamped. simpl.
  destruct (Mongo.refused _); [reflexivity|].
  destruct (Mongo.find_one (d name) (oid_of_N (src n))); reflexivity.
Qed.

Lemma create_document_no_db (name : string) (data : dict) (w : World) :
  db w = None -> exists e, create_document name data w = (Raise e, w).
Proof.
  intros Hd. unfold create_document, bind, get_db. rewrite Hd. eauto.
Qed.

Lemma update_document_eq (name id : string) (upd : dict) (w : World) d :
  db w = Some d ->
  update_document name id upd w
  = match parse_ObjectId id with
    | None =>
        (Raise (InvalidId id),
         MkWorld (Some d) (clock w) (S (ticks w)) (oid_source w) (issued w))
    | Some oid =>
        match Mongo.refused (set_doc upd w) with
        | Some e =>
            (Raise e,
             MkWorld (Some d) (clock w) (S (ticks w)) (oid_source w)
               (issued w))
        | None =>
            let r := Mongo.set_one (d name) oid (set_doc upd w) in
            (Ok (0 <? snd r),
             MkWorld (Some (with_collection d name (fst r))) (clock w)
               (S (ticks w)) (oid_source w) (issued w))
        end
    end.
Proof.
  intros Hd. destruct w as [o clk t src n]. simpl in Hd. subst o.
  unfold update_document, bind, get_db, now, to_object_id,
    Mongo.new_ObjectId, Mongo.update_one, set_doc. simpl.
  destruct (parse_ObjectId id) as [oid|]; simpl; [|reflexivity].
  destruct (Mongo.refused _); [reflexivity|].
  destruct (Mongo.set_one (d name) oid
              (PyDict.set upd "updated_at" (VDate (clk t)))); reflexivity.
Qed.

Lemma update_document_no_db (name id : string) (upd : dict) (w : World) :
  db w = None ->
  update_document name id upd w
  = (Raise (DatabaseNotAvailable "Database not available."), w).
Proof.
  intros Hd. unfold update_document, bind, get_db. now rewrite Hd.
Qed.

(** A write to one collection leaves every other collection as it was. *)
Lemma update_document_frame (name id : string) (upd : dict) (w : World)
  (other : string) :
  other <> name ->
  stored (snd (update_document name id upd w)) other = stored w other.
Proof.
  intros Hne. destruct (db w) as [d|] eqn:Hd.
  - rewrite (update_document_eq name id upd w Hd).
    destruct (parse_ObjectId id) as [oid|]; simpl.
    + destruct (Mongo.refused _); simpl.
      * unfold stored. simpl. now rewrite Hd.
      * unfold stored at 1. simpl. unfold with_collection.
        apply String.eqb_neq in Hne. rewrite Hne.
        unfold stored. now rewrite Hd.
    + unfold stored. simpl. now rewrite Hd.
  - now rewrite (update_document_no_db name id upd w Hd).
Qed.

Lemma get_document_by_id_eq (name id : string) (w : World) d :
  db w = Some d ->
  get_document_by_id name id w
  = match parse_ObjectId id with
    | None => (Raise (InvalidId id), w)
    | Some oid =>
        (Ok (option_map serialize_doc (Mongo.find_one (d name) oid)), w)
    end.
Proof.
  intros Hd. unfold get_document_by_id, bind, get_db, to_object_id,
    Mongo.new_ObjectId. rewrite Hd.
  destruct (parse_ObjectId id) as [oid|]; simpl; [|reflexivity].
  destruct (Mongo.find_one (d name) oid); reflexivity.
Qed.

Lemma stored_db (w : World) d name : db w = Some d -> stored w name = d name.
Proof. unfold stored. now intros ->. Qed.

(** ** Menu updates *)

Lemma update_menu_item_world (item_id : string) (payload : MenuUpdate) w :
  snd (update_menu_item item_id payload w)
  = snd (update_document "menuitem" item_id (menu_changes payload) w).
Proof.
  unfold update_menu_item, bind. fold (menu_changes payload).
  destruct (update_document "menuitem" item_id (menu_changes payload) w)
    as [[[|]|e] w']; reflexivity.
Qed.

Lemma update_document_keeps_db (name id : string) (upd : dict) (w : World) :
  db (snd (update_document name id upd w)) = None <-> db w = None.
Proof.
  destruct (db w) as [d|] eqn:Hd.
  - rewrite (update_document_eq name id upd w Hd).
    destruct (parse_ObjectId id); [destruct (Mongo.refused _)|]; simpl;
      split; discriminate.
  - rewrite (update_document_no_db name id upd w Hd). simpl. tauto.
Qed.

Lemma get_order_eq (order_id : string) (w : World) :
  fst (get_order order_id w)
  = match db w with
    | None => Raise (DatabaseNotAvailable "Database not available.")
    | Some _ =>
        match parse_ObjectId order_id with
        | None => Raise (InvalidId order_id)
        | Some oid =>
            match Mongo.find_one (stored w "order") oid with
            | None => Raise (HTTPException 404 "Order not found")
            | Some doc => Ok (VDict (serialize_doc doc))
            end
        end
    end.
Proof.
  unfold get_order, bind. destruct (db w) as [d|] eqn:Hd.
  - rewrite (get_document_by_id_eq "order" order_id w Hd).
    rewrite (stored_db w "order" Hd).
    destruct (parse_ObjectId order_id) as [oid|]; [|reflexivity].
    destruct (Mongo.find_one (d "order") oid); reflexivity.
  - unfold get_document_by_id, bind, get_db. now rewrite Hd.
Qed.

(** C7. A menu update (PUT /api/menu/{id}) writes to the menuitem collection
    only: the order collection after it is the order collection before it, so
    every stored order keeps its line items and subtotal, and GET
    /api/order/{id} answers after the update what it answered before. *)
Theorem update_menu_item_keeps_orders :
  forall (w : World) (item_id : string) (payload : MenuUpdate),
    stored (snd (update_menu_item item_id payload w)) "order"
    = stored w "order"
    /\ (forall oid,
          Mongo.find_one
            (stored (snd (update_menu_item item_id payload w)) "order") oid
          = Mongo.find_one (stored w "order") oid)
    /\ (forall order_id,
          fst (get_order order_id (snd (update_menu_item item_id payload w)))
          = fst (get_order order_id w)).
Proof.
  intros w item_id payload.
  assert (Hst : stored (snd (update_menu_item item_id payload w)) "order"
                = stored w "order").
  { rewrite update_menu_item_world. now apply update_document_frame. }
  split; [assumption|]. split.
  - intros oid. now rewrite Hst.
  - intros order_id. rewrite !get_order_eq, Hst.
    pose proof (update_document_keeps_db "menuitem" item_id
                  (menu_changes payload) w) as Hdb.
    rewrite <- update_menu_item_world in Hdb.
    destruct (db (snd (update_menu_item item_id payload w))),
      (db w); try reflexivity.
    + destruct Hdb as [_ H]. discriminate (H eq_refl).
    + destruct Hdb as [H _]. discriminate (H eq_refl).
Qed.

Lemma model_dump_keys (payload : MenuUpdate) :
  PyDict.keys (MenuUpdate_model_dump payload)
  = ["name"; "description"; "price"; "category"; "image_url";
     "is_available"].
Proof. reflexivity. Qed.

Lemma model_dump_NoDup (payload : MenuUpdate) :
  NoDup (PyDict.keys (MenuUpdate_model_dump payload)).
Proof.
  rewrite model_dump_keys.
  repeat (constructor; [simpl; intuition discriminate|]). constructor.
Qed.

Lemma keys_filter_NoDup {A} (f : string * A -> bool) (d : PyDict.t A) :
  NoDup (PyDict.keys d) -> NoDup (PyDict.keys (filter f d)).
Proof.
  unfold PyDict.keys.
  induction d as [|kv d IH]; simpl; intros Hnd; [constructor|].
  inversion Hnd as [|? ? Hnin Hnd']; subst.
  destruct (f kv); simpl; auto. constructor; auto.
  intros H. apply Hnin. apply in_map_iff in H.
  destruct H as [x [E Hx]]. apply filter_In in Hx.
  apply in_map_iff. exists x. tauto.
Qed.

(** The fields sent to the store are the non-null fields of the body. *)
Lemma menu_changes_In (payload : MenuUpdate) k v :
  In (k, v) (menu_changes payload)
  <-> requested payload k = Some v /\ v <> VNone.
Proof.
  unfold menu_changes, requested. rewrite filter_In. cbn [snd]. split.
  - intros [Hin Hv]. split.
    + apply PyDictFacts.In_get_NoDup; [apply model_dump_NoDup|assumption].
    + intros ->. discriminate.
  - intros [Hget Hv]. split.
    + now apply PyDictFacts.get_In.
    + destruct v; try reflexivity. contradiction.
Qed.

Lemma set_doc_In (upd : dict) (w : World) k v :
  In (k, v) (set_doc upd w) ->
  In (k, v) upd \/ (k = "updated_at" /\ exists t, v = VDate t).
Proof.
  unfold set_doc. intros H. apply PyDictFacts.set_In in H.
  destruct H as [H|H]; [now left|].
  injection H as -> ->. right. eauto.
Qed.

(** C10. A partial menu update (PUT /api/menu/{id}) sends the store only the
    body's non-null fields. Document by document, the menuitem collection
    after the call keeps every identifier; a field the body omits or leaves
    null keeps its stored value (the adapter's updated_at stamp apart); no
    field is null afterwards unless it was null before, so description,
    category and image_url cannot be cleared; and a document that was changed
    holds every non-null field of the body. *)
Theorem update_menu_item_partial :
  forall (w : World) (item_id : string) (payload : MenuUpdate),
    Forall2
      (fun doc doc' =>
         doc_id doc' = doc_id doc
         /\ (forall k,
               k <> "updated_at" ->
               requested payload k = None
               \/ requested payload k = Some VNone ->
               PyDict.get (doc_fields doc') k = PyDict.get (doc_fields doc) k)
         /\ (forall k,
               PyDict.get (doc_fields doc') k = Some VNone ->
               PyDict.get (doc_fields doc) k = Some VNone)
         /\ (doc' = doc
             \/ forall k v,
                 requested payload k = Some v -> v <> VNone ->
                 PyDict.get (doc_fields doc') k = Some v))
      (stored w "menuitem")
      (stored (snd (update_menu_item item_id payload w)) "menuitem").
Proof.
  intros w item_id payload. rewrite update_menu_item_world.
  assert (Hrefl : forall c : Collection,
             Forall2
               (fun doc doc' =>
                  doc_id doc' = doc_id doc
                  /\ (forall k, k <> "updated_at" ->
                        requested payload k = None
                        \/ requested payload k = Some VNone ->
                        PyDict.get (doc_fields doc') k
                        = PyDict.get (doc_fields doc) k)
                  /\ (forall k, PyDict.get (doc_fields doc') k = Some VNone ->
                        PyDict.get (doc_fields doc) k = Some VNone)
                  /\ (doc' = doc
                      \/ forall k v, requested payload k = Some v ->
                           v <> VNone ->
                           PyDict.get (doc_fields doc') k = Some v)) c c).
  { induction c; constructor; auto; repeat split; auto. }
  destruct (db w) as [d|] eqn:Hd.
  2:{ rewrite (update_document_no_db _ _ _ w Hd). apply Hrefl. }
  rewrite (update_document_eq _ item_id (menu_changes payload) w Hd).
  destruct (parse_ObjectId item_id) as [oid|].
  2:{ unfold stored. simpl. rewrite Hd. apply Hrefl. }
  destruct (Mongo.refused _).
  { unfold stored. simpl. rewrite Hd. apply Hrefl. }
  cbv zeta. simpl snd. rewrite stored_with_collection. simpl.
  rewrite (stored_db w "menuitem" Hd).
  eapply Forall2_impl; [|apply update_one_Forall2].
  intros a b [->|[Hid Hf]].
  { repeat split; auto. }
  split; [assumption|]. rewrite Hf. split; [|split].
  - intros k Hk Hreq. apply PyDictFacts.get_update_other.
    intros Hin. apply in_map_iff in Hin.
    destruct Hin as [[k' v] [E Hin]]. simpl in E. subst k'.
    apply set_doc_In in Hin. destruct Hin as [Hin|[-> _]]; [|contradiction].
    apply menu_changes_In in Hin. destruct Hin as [Hget Hv].
    destruct Hreq as [Hreq|Hreq]; rewrite Hreq in Hget;
      [discriminate|injection Hget as <-; contradiction].
  - intros k Hget. apply PyDictFacts.get_update_inv in Hget.
    destruct Hget as [Hget|Hin]; [assumption|].
    apply set_doc_In in Hin. destruct Hin as [Hin|[_ [t Ht]]].
    + apply menu_changes_In in Hin. now destruct Hin.
    + discriminate.
  - right. intros k v Hreq Hv.
    assert (Hnd : NoDup (PyDict.keys (menu_changes payload))).
    { apply keys_filter_NoDup, model_dump_NoDup. }
    apply PyDictFacts.get_update_named.
    + unfold set_doc. now apply PyDictFacts.keys_set_NoDup.
    + apply PyDictFacts.get_In. unfold set_doc.
      rewrite PyDictFacts.get_set_neq.
      * apply PyDictFacts.In_get_NoDup; [assumption|].
        now apply menu_changes_In.
      * intros <-. unfold requested in Hreq. simpl in Hreq. discriminate.
Qed.

(** ** Status and payment transitions *)

Lemma value_eqb_VStr (v : value) (s : string) :
  value_eqb v (VStr s) = true -> v = VStr s.
Proof.
  destruct v; simpl; try discriminate.
  intros H. apply String.eqb_eq in H. now subst.
Qed.


Lemma set_doc_single (k : string) (v : value) (w : World) :
  k <> "updated_at" ->
  set_doc [(k, v)] w = [(k, v); ("updated_at", VDate (clock w (ticks w)))].
Proof.
  intros Hk. unfold set_doc. cbn [PyDict.set].
  apply String.eqb_neq in Hk. now rewrite Hk.
Qed.

Lemma set_doc_single_storable (k s : string) (w : World) :
  k <> "updated_at" ->
  Mongo.has_nul k = false ->
  Mongo.refused (set_doc [(k, VStr s)] w) = None.
Proof.
  intros Hk Hn. rewrite (set_doc_single (VStr s) w Hk).
  unfold Mongo.refused. cbn [Mongo.refused_value]. rewrite Hn.
  reflexivity.
Qed.

(** After [update_document] has run on a stored document, the document
    holds the string it was asked to set, modified or not. *)
Lemma update_document_sets (name id k s : string) (w : World) d oid doc :
  db w = Some d ->
  parse_ObjectId id = Some oid ->
  Mongo.find_one (d name) oid = Some doc ->
  k <> "updated_at" ->
  Mongo.has_nul k = false ->
  exists doc',
    Mongo.find_one
      (stored (snd (update_document name id [(k, VStr s)] w)) name) oid
    = Some doc'
    /\ PyDict.get (doc_fields doc') k = Some (VStr s)
    /\ db (snd (update_document name id [(k, VStr s)] w)) <> None.
Proof.
  intros Hd Hp Hf Hk Hn.
  rewrite (update_document_eq name id [(k, VStr s)] w Hd), Hp.
  rewrite (set_doc_single_storable s w Hk Hn).
  cbv zeta. cbn [snd]. rewrite stored_with_collection, String.eqb_refl.
  destruct (update_one_found (d name) oid (set_doc [(k, VStr s)] w) Hf)
    as [Hfound _].
  eexists. split; [exact Hfound|]. split; [|discriminate].
  rewrite (set_doc_single (VStr s) w Hk) in *.
  destruct (Mongo.changes (doc_fields doc) _) eqn:Hch.
  - cbn [doc_fields]. apply PyDictFacts.get_update_named.
    + constructor; [|constructor; [tauto|constructor]].
      intros [H|[]]. now symmetry in H.
    + now left.
  - unfold Mongo.changes in Hch. cbn [existsb fst snd] in Hch.
    apply orb_false_elim in Hch. destruct Hch as [Hch _].
    destruct (PyDict.get (doc_fields doc) k) as [v|]; [|discriminate].
    apply negb_false_iff, value_eqb_VStr in Hch. now subst.
Qed.

Lemma order_field_exists (w : World) (id k : string) (v : value) :
  order_field w id k v -> order_exists w id.
Proof.
  intros [oid [doc [Hp [Hd [Hf _]]]]]. exists oid, doc. auto.
Qed.

Lemma confirm_mock_payment_eq (payload : PaymentConfirm) (w : World) :
  order_exists w (pc_order_id payload) ->
  confirm_mock_payment payload w
  = (Ok (VDict [ ("success", VBool true);
                 ("order_id", VStr (pc_order_id payload));
                 ("payment_status",
                  VStr (payment_status_of (pc_status payload))) ]),
     snd (update_document "order" (pc_order_id payload)
            [("payment_status",
              VStr (payment_status_of (pc_status payload)))] w)).
Proof.
  intros [oid [doc [Hp [Hd Hf]]]].
  destruct (db w) as [d|] eqn:Edb; [|contradiction].
  rewrite (stored_db w "order" Edb) in Hf.
  unfold confirm_mock_payment, bind.
  rewrite (get_document_by_id_eq "order" (pc_order_id payload) w Edb).
  rewrite Hp, Hf. cbn [option_map].
  destruct (pc_status payload); cbn [payment_status_of];
    match goal with
    | |- context [update_document ?n ?i ?u w] =>
        destruct (update_document n i u w) as [[b|e] w'] eqn:E
    end; try reflexivity;
    rewrite (update_document_eq _ _ _ w Edb), Hp in E;
    rewrite set_doc_single_storable in E by (discriminate || reflexivity);
    discriminate.
Qed.

Lemma confirm_mock_payment_field (payload : PaymentConfirm) (w : World) :
  order_exists w (pc_order_id payload) ->
  order_field (snd (confirm_mock_payment payload w)) (pc_order_id payload)
    "payment_status" (VStr (payment_status_of (pc_status payload))).
Proof.
  intros Hex. rewrite (confirm_mock_payment_eq payload Hex). cbn [snd].
  destruct Hex as [oid [doc [Hp [Hd Hf]]]].
  destruct (db w) as [d|] eqn:Edb; [|contradiction].
  rewrite (stored_db w "order" Edb) in Hf.
  destruct (@update_document_sets "order" (pc_order_id payload)
              "payment_status" (payment_status_of (pc_status payload))
              w d oid doc Edb Hp Hf) as [doc' [Hf' [Hg Hdb]]];
    [discriminate|reflexivity|].
  exists oid, doc'. auto.
Qed.

(** C5. For every stored order, POST /api/payment/mock/confirm answers with
    payment_status "paid" for the outcome "succeeded" and "failed" for
    "failed", and leaves the order with that payment_status, whatever the
    order's payment_method and earlier payment_status were; after any
    series of confirmations the order carries the status of the last. *)
Theorem confirm_mock_payment_sets_status :
  forall (w : World) (payload : PaymentConfirm),
    order_exists w (pc_order_id payload) ->
    fst (confirm_mock_payment payload w)
    = Ok (VDict [ ("success", VBool true);
                  ("order_id", VStr (pc_order_id payload));
                  ("payment_status",
                   VStr (payment_status_of (pc_status payload))) ])
    /\ order_field (snd (confirm_mock_payment payload w))
         (pc_order_id payload) "payment_status"
         (VStr (payment_status_of (pc_status payload)))
    /\ forall earlier : list PaymentOutcome,
         order_field
           (confirm_all (pc_order_id payload)
              (earlier ++ [pc_status payload]) w)
           (pc_order_id payload) "payment_status"
           (VStr (payment_status_of (pc_status payload))).
Proof.
  intros w [id outcome] Hex. cbn [pc_order_id pc_status] in *.
  split.
  { now rewrite (@confirm_mock_payment_eq (Build_PaymentConfirm id outcome)
                   w Hex). }
  split.
  { exact (@confirm_mock_payment_field (Build_PaymentConfirm id outcome)
             w Hex). }
  intros earlier. revert w Hex.
  induction earlier as [|o earlier IH]; intros w Hex; cbn [app confirm_all].
  - exact (@confirm_mock_payment_field (Build_PaymentConfirm id outcome)
             w Hex).
  - apply IH. eapply order_field_exists.
    exact (@confirm_mock_payment_field (Build_PaymentConfirm id o) w Hex).
Qed.

Lemma demo_order_exists :
  order_exists Demo.world_ordered Demo.placed_id.
Proof.
  eexists. eexists. split; [vm_compute; reflexivity|].
  split; [vm_compute; discriminate|vm_compute; reflexivity].
Qed.

Lemma confirm_mock_payment_sets_status_witness :
  order_exists Demo.world_ordered Demo.placed_id
  /\ order_field
       (confirm_all Demo.placed_id [failed; succeeded; failed]
          Demo.world_ordered)
       Demo.placed_id "payment_status" (VStr "failed").
Proof.
  split; [exact demo_order_exists|].
  exact (proj2 (proj2 (confirm_mock_payment_sets_status
                         (w := Demo.world_ordered)
                         {| pc_order_id := Demo.placed_id;
                            pc_status := failed |}
                         demo_order_exists)) [failed; succeeded]).
Defined.

Lemma value_eqb_VDate (v : value) (t : Z) :
  value_eqb v (VDate t) = true -> v = VDate t.
Proof.
  destruct v; simpl; try discriminate.
  intros H. apply Z.eqb_eq in H. now subst.
Qed.

Lemma set_order_status_eq (order_id : string) (payload : OrderStatusUpdate)
  (w : World) d oid :
  db w = Some d ->
  parse_ObjectId order_id = Some oid ->
  set_order_status order_id payload w
  = let r := Mongo.set_one (d "order") oid
               (set_doc [("status",
                          VStr (OrderStatus_str (osu_status payload)))] w) in
    (if 0 <? snd r then Ok (VDict [("success", VBool true)])
     else Raise (HTTPException 404 "Order not found"),
     MkWorld (Some (with_collection d "order" (fst r))) (clock w)
       (S (ticks w)) (oid_source w) (issued w)).
Proof.
  intros Hd Hp. unfold set_order_status, bind.
  rewrite (update_document_eq "order" order_id _ w Hd), Hp. cbv zeta.
  destruct (0 <? snd _); reflexivity.
Qed.

(** PATCH /api/order/{id}/status on a well-formed identifier that no stored
    order carries: 404, and the order collection is as it was. *)
Lemma set_order_status_not_found (order_id : string)
  (payload : OrderStatusUpdate) (w : World) oid :
  db w <> None ->
  parse_ObjectId order_id = Some oid ->
  Mongo.find_one (stored w "order") oid = None ->
  fst (set_order_status order_id payload w)
  = Raise (HTTPException 404 "Order not found")
  /\ stored (snd (set_order_status order_id payload w)) "order"
     = stored w "order".
Proof.
  intros Hdb Hp Hf. destruct (db w) as [d|] eqn:Hd; [|contradiction].
  rewrite (stored_db w "order" Hd) in *.
  rewrite (set_order_status_eq order_id payload w Hd Hp). cbv zeta.
  rewrite (update_one_not_found _ _ _ Hf). cbn [fst snd].
  split; [reflexivity|].
  rewrite stored_with_collection. reflexivity.
Qed.

(** On a stored order the request is accepted, whatever the status it had
    and whichever of the five it asks for, as soon as the write changes the
    document: the status is new, or the clock has moved past the stored
    [updated_at]. *)
Lemma set_order_status_accepted (order_id : string)
  (payload : OrderStatusUpdate) (w : World) oid doc :
  db w <> None ->
  parse_ObjectId order_id = Some oid ->
  Mongo.find_one (stored w "order") oid = Some doc ->
  PyDict.get (doc_fields doc) "status"
  <> Some (VStr (OrderStatus_str (osu_status payload)))
  \/ PyDict.get (doc_fields doc) "updated_at"
     <> Some (VDate (clock w (ticks w))) ->
  fst (set_order_status order_id payload w)
  = Ok (VDict [("success", VBool true)])
  /\ order_field (snd (set_order_status order_id payload w)) order_id
       "status" (VStr (OrderStatus_str (osu_status payload))).
Proof.
  intros Hdb Hp Hf Hch. destruct (db w) as [d|] eqn:Hd; [|contradiction].
  rewrite (stored_db w "order" Hd) in *.
  assert (Hchanges :
            Mongo.changes (doc_fields doc)
              (set_doc [("status",
                         VStr (OrderStatus_str (osu_status payload)))] w)
            = true).
  { rewrite set_doc_single by discriminate.
    unfold Mongo.changes. cbn [existsb fst snd].
    destruct (PyDict.get (doc_fields doc) "status") as [v|] eqn:Es;
      [|reflexivity].
    destruct (value_eqb v (VStr (OrderStatus_str (osu_status payload))))
      eqn:Ev; [|reflexivity].
    apply value_eqb_VStr in Ev. subst v.
    destruct Hch as [Hch|Hch]; [contradiction|]. cbn [negb orb].
    destruct (PyDict.get (doc_fields doc) "updated_at") as [v|] eqn:Eu;
      [|reflexivity].
    destruct (value_eqb v (VDate (clock w (ticks w)))) eqn:Ev;
      [|reflexivity].
    apply value_eqb_VDate in Ev. subst v. contradiction. }
  split.
  - rewrite (set_order_status_eq order_id payload w Hd Hp). cbv zeta.
    destruct (update_one_found (d "order") oid
                (set_doc [("status",
                           VStr (OrderStatus_str (osu_status payload)))] w)
                Hf) as [_ Hn].
    rewrite Hn, Hchanges. reflexivity.
  - assert (Hw : snd (set_order_status order_id payload w)
                 = snd (update_document "order" order_id
                          [("status",
                            VStr (OrderStatus_str (osu_status payload)))]
                          w)).
    { unfold set_order_status, bind.
      destruct (update_document "order" order_id _ w) as [[[|]|e] w'];
        reflexivity. }
    rewrite Hw.
    destruct (@update_document_sets "order" order_id "status"
                (OrderStatus_str (osu_status payload)) w d oid doc Hd Hp Hf)
      as [doc' [Hf' [Hg Hdb']]]; [discriminate|reflexivity|].
    exists oid, doc'. auto.
Qed.

(** C6. The order placed in [Demo] is marked served; the same request,
    handled again within the same millisecond, changes nothing in the
    stored document, so [modified_count] is 0 and the handler answers 404
    "Order not found" for an order that is stored. *)
Theorem set_order_status_repeated_same_millisecond :
  fst (set_order_status Demo.placed_id {| osu_status := served |}
         Demo.world_ordered)
  = Ok (VDict [("success", VBool true)])
  /\ order_field Demo.world_served Demo.placed_id "status" (VStr "served")
  /\ fst (set_order_status Demo.placed_id {| osu_status := served |}
            Demo.world_served)
     = Raise (HTTPException 404 "Order not found").
Proof.
  split; [vm_compute; reflexivity|]. split.
  - eexists. eexists. split; [vm_compute; reflexivity|].
    split; [vm_compute; discriminate|].
    split; vm_compute; reflexivity.
  - vm_compute. reflexivity.
Qed.

(** ** Order creation *)

Example demo_bodies_valid :
  valid_OrderCreate (Demo.order_body online) = true
  /\ valid_OrderCreate Demo.water_body = true
  /\ valid_MenuUpdate
       {| mu_name := None; mu_description := None; mu_price := Some 130%float;
          mu_category := None; mu_image_url := None;
          mu_is_available := Some false |} = true.
Proof. repeat split; reflexivity. Qed.

Section CreateOrder.

Variable float_of_str : string -> option float.

Lemma create_order_no_db (payload : OrderCreate) (w : World) :
  db w = None -> create_order float_of_str payload w = (Raise AttributeError, w).
Proof.
  intros Hd. unfold create_order, bind, db_attr.
  now rewrite Hd.
Qed.

(** The handler, stage by stage: nothing is written before the loop over
    the requested items has ended. *)
Lemma create_order_eq (payload : OrderCreate) (w : World) d :
  db w = Some d ->
  create_order float_of_str payload w
  = match parse_ids (map item_id (items payload)) with
    | Raise e => (Raise e, w)
    | Ok oids =>
        let menu_docs := Mongo.find_in (d "menuitem") oids in
        match price_map_of float_of_str menu_docs [] with
        | Raise e => (Raise e, w)
        | Ok price_map =>
            match price_lines price_map (name_map_of menu_docs)
                    (items payload) [] 0%float with
            | Raise e => (Raise e, w)
            | Ok (order_items, subtotal) =>
                persist_order payload order_items subtotal w
            end
        end
    end.
Proof.
  intros Hd. unfold create_order, bind at 1, db_attr.
  rewrite Hd. unfold bind at 1. rewrite mapM_new_ObjectId.
  destruct (parse_ids (map item_id (items payload))) as [oids|e];
    [|reflexivity].
  cbv zeta. unfold bind at 1, lift at 1.
  destruct (price_map_of float_of_str (Mongo.find_in (d "menuitem") oids) [])
    as [pm|e]; [|reflexivity].
  unfold bind at 1, lift at 1.
  destruct (price_lines pm _ (items payload) [] 0%float)
    as [[oi s]|e]; reflexivity.
Qed.

Lemma stored_inserted (d : Database) (name n : string) (data : dict)
  (w : World) :
  stored (inserted d name data w) n
  = if String.eqb n name
    then (d name ++ [Doc (next_oid w) (stamped data w)])%list
    else d n.
Proof. reflexivity. Qed.

Lemma payment_doc_storable (order_id : string) (subtotal : float)
  (w : World) :
  Mongo.refused (stamped (payment_doc order_id subtotal) w) = None.
Proof. reflexivity. Qed.

Lemma persist_order_Ok (payload : OrderCreate) (order_items : list value)
  (subtotal : float) (w w' : World) (resp : value) :
  persist_order payload order_items subtotal w = (Ok resp, w') ->
  exists d,
    db w = Some d
    /\ Mongo.find_one (d "order") (next_oid w) = None
    /\ let w1 := inserted d "order"
                   (order_doc payload order_items subtotal) w in
       let order_id := str_oid (next_oid w) in
       match payment_method payload with
       | cash => resp = order_response order_id subtotal VNone /\ w' = w1
       | online =>
           resp = order_response order_id subtotal
                    (VDict (("id", VStr (str_oid (next_oid w1)))
                            :: payment_doc order_id subtotal))
           /\ exists d1,
               db w1 = Some d1
               /\ Mongo.find_one (d1 "paymentrecord") (next_oid w1) = None
               /\ w' = inserted d1 "paymentrecord"
                         (payment_doc order_id subtotal) w1
       end.
Proof.
  intros H. destruct (db w) as [d|] eqn:Hd.
  2:{ unfold persist_order in H.
      destruct (create_document_no_db "order"
                  (order_doc payload order_items subtotal) w Hd) as [e He].
      erewrite bind_Raise in H by exact He. discriminate. }
  exists d. split; [reflexivity|].
  unfold persist_order in H. apply bind_Ok_inv in H.
  destruct H as [order_id [w1 [H1 H2]]].
  erewrite create_document_eq in H1 by exact Hd.
  destruct (Mongo.refused _); [discriminate|].
  destruct (Mongo.find_one (d "order") (next_oid w)); [discriminate|].
  injection H1 as <- <-. split; [reflexivity|]. cbv zeta.
  apply bind_Ok_inv in H2. destruct H2 as [payment [w2 [H2 H3]]].
  injection H3 as <- <-.
  destruct (payment_method payload).
  - apply bind_Ok_inv in H2. destruct H2 as [pid [w3 [H2 H3]]].
    injection H3 as <- <-.
    erewrite create_document_eq in H2 by reflexivity.
    rewrite payment_doc_storable in H2.
    match type of H2 with
    | match ?f with _ => _ end = _ => destruct f eqn:Ef; [discriminate|]
    end.
    injection H2 as <- <-. split; [reflexivity|].
    eexists. split; [reflexivity|]. split; [exact Ef|reflexivity].
  - injection H2 as <- <-. auto.
Qed.

(** What a successful [create_order] leaves in the store: one more order,
    and one more payment record exactly when the method is online. *)
Lemma persist_order_stored (payload : OrderCreate)
  (order_items : list value) (subtotal : float) (w w' : World)
  (resp : value) :
  persist_order payload order_items subtotal w = (Ok resp, w') ->
  stored w' "order"
  = (stored w "order"
     ++ [Doc (next_oid w)
           (stamped (order_doc payload order_items subtotal) w)])%list
  /\ stored w' "paymentrecord"
     = match payment_method payload with
       | cash => stored w "paymentrecord"
       | online =>
           (stored w "paymentrecord"
            ++ [Doc (next_oid (advance w))
                  (stamped (payment_doc (str_oid (next_oid w)) subtotal)
                     (advance w))])%list
       end.
Proof.
  intros H. apply persist_order_Ok in H.
  destruct H as [d [Hd [_ H]]]. cbv zeta in H.
  rewrite !(stored_db w _ Hd).
  destruct (payment_method payload).
  - destruct H as [_ [d1 [Hd1 [_ ->]]]]. injection Hd1 as <-.
    rewrite !stored_inserted. cbn [String.eqb Ascii.eqb Bool.eqb].
    split; reflexivity.
  - destruct H as [_ ->]. rewrite !stored_inserted. split; reflexivity.
Qed.

Lemma price_lines_Ok (pm : PyDict.t float) (nm : dict)
  (its : list OrderItemIn) (oi0 : list value) (s0 : float) oi s :
  price_lines pm nm its oi0 s0 = Ok (oi, s) ->
  exists lines,
    map pl_item lines = its
    /\ Forall
         (fun l =>
            PyDict.get pm (item_id (pl_item l)) = Some (pl_price l)
            /\ PyFloat.mul_int (pl_price l) (quantity (pl_item l))
               = Some (pl_total l)) lines
    /\ oi = (oi0 ++ map (line_doc nm) lines)%list
    /\ s = fold_left PrimFloat.add (map pl_total lines) s0.
Proof.
  revert oi0 s0. induction its as [|it its IH]; intros oi0 s0 H.
  - injection H as <- <-. exists []. cbn. rewrite app_nil_r. auto.
  - cbn [price_lines] in H.
    destruct (PyDict.get pm (item_id it)) as [price|] eqn:Ep;
      [|discriminate].
    destruct (PyFloat.mul_int price (quantity it)) as [lt|] eqn:El;
      [|discriminate].
    apply IH in H. destruct H as [lines [Hm [Hf [Hoi Hs]]]].
    exists ({| pl_item := it; pl_price := price; pl_total := lt |}
            :: lines).
    cbn [map pl_item pl_total fold_left]. rewrite Hm. split; [reflexivity|].
    split; [constructor; auto|]. split; [|assumption].
    rewrite Hoi, <- app_assoc. reflexivity.
Qed.

(** Every price in the lookup is the price of a fetched document. *)
Lemma price_map_of_get (docs : list Document) (acc pm : PyDict.t float) :
  price_map_of float_of_str docs acc = Ok pm ->
  forall k p,
    PyDict.get pm k = Some p ->
    PyDict.get acc k = Some p
    \/ exists doc,
         In doc docs /\ str_oid (doc_id doc) = k
         /\ py_float float_of_str
              (PyDict.get_default (doc_fields doc) "price" (VInt 0))
            = Ok p.
Proof.
  revert acc. induction docs as [|doc docs IH]; intros acc H k p Hk.
  - injection H as <-. now left.
  - cbn [price_map_of] in H.
    destruct (py_float float_of_str _) as [p0|e] eqn:Ep; [|discriminate].
    destruct (IH _ H k p Hk) as [Hacc|[doc' [Hin [Hid Hp]]]].
    + rewrite PyDictFacts.get_set in Hacc.
      destruct (String.eqb (str_oid (doc_id doc)) k) eqn:E; [|now left].
      apply String.eqb_eq in E. injection Hacc as <-.
      right. exists doc. simpl. auto.
    + right. exists doc'. simpl. auto.
Qed.

(** Every fetched document has a price in the lookup. *)
Lemma price_map_of_keys (docs : list Document) (acc pm : PyDict.t float) :
  price_map_of float_of_str docs acc = Ok pm ->
  forall k,
    PyDict.get acc k <> None
    \/ (exists doc, In doc docs /\ str_oid (doc_id doc) = k) ->
    PyDict.get pm k <> None.
Proof.
  revert acc. induction docs as [|doc docs IH]; intros acc H k Hk.
  - injection H as <-. destruct Hk as [Hk|[doc [[] _]]]. assumption.
  - cbn [price_map_of] in H.
    destruct (py_float float_of_str _) as [p0|e] eqn:Ep; [|discriminate].
    apply (IH _ H k). rewrite PyDictFacts.get_set.
    destruct (String.eqb (str_oid (doc_id doc)) k) eqn:E.
    + left. discriminate.
    + destruct Hk as [Hk|[doc' [[->|Hin] Hid]]].
      * now left.
      * rewrite Hid, String.eqb_refl in E. discriminate.
      * right. eauto.
Qed.

Lemma find_in_In (c : Collection) (oids : list ObjectId) doc :
  In doc (Mongo.find_in c oids) <-> In doc c /\ In (doc_id doc) oids.
Proof.
  unfold Mongo.find_in. rewrite filter_In, existsb_exists. split.
  - intros [Hin [o [Ho E]]]. apply oid_eqb_eq in E. now subst.
  - intros [Hin Ho]. split; [assumption|].
    exists (doc_id doc). split; [assumption|apply oid_eqb_refl].
Qed.

Lemma parse_ids_all (ids : list string) (oids : list ObjectId) :
  parse_ids ids = Ok oids ->
  forall i, In i ids -> exists o, parse_ObjectId i = Some o.
Proof.
  revert oids. induction ids as [|j ids IH]; intros oids H i Hi.
  - destruct Hi.
  - cbn [parse_ids] in H.
    destruct (parse_ObjectId j) as [o|] eqn:Ej; [|discriminate].
    destruct (parse_ids ids) as [os|]; [|discriminate].
    destruct Hi as [->|Hi]; eauto.
Qed.

(** A requested id that is the text of a fetched document's identifier
    parses to that identifier. *)
Lemma fetched_id_parses (ids : list string) (oids : list ObjectId)
  (c : Collection) doc :
  parse_ids ids = Ok oids ->
  In doc (Mongo.find_in c oids) ->
  In (str_oid (doc_id doc)) ids ->
  parse_ObjectId (str_oid (doc_id doc)) = Some (doc_id doc).
Proof.
  intros Hp Hdoc Hin. apply find_in_In in Hdoc. destruct Hdoc as [_ Ho].
  apply (parse_ids_In _ Hp) in Ho. destruct Ho as [j [_ Ej]].
  destruct (parse_ids_all _ Hp _ Hin) as [o Eo]. rewrite Eo.
  now rewrite (parse_ObjectId_str _ Ej Eo).
Qed.

(** A lookup hit for a requested id is the price of a menu document
    the id names. *)
Lemma price_map_menu_price (ids : list string) (oids : list ObjectId)
  (c : Collection) (pm : PyDict.t float) id p :
  parse_ids ids = Ok oids ->
  price_map_of float_of_str (Mongo.find_in c oids) [] = Ok pm ->
  In id ids ->
  PyDict.get pm id = Some p ->
  menu_price float_of_str c id p.
Proof.
  intros Hp Hpm Hin Hget.
  destruct (price_map_of_get _ _ Hpm _ Hget)
    as [Hacc|[doc [Hdoc [Hid Hprice]]]]; [discriminate|].
  exists doc. subst id. split; [|split; [|assumption]].
  - now apply find_in_In in Hdoc.
  - eapply fetched_id_parses; eassumption.
Qed.

(** What a successful call has computed and written. *)
Lemma create_order_Ok (payload : OrderCreate) (w w' : World)
  (resp : value) :
  create_order float_of_str payload w = (Ok resp, w') ->
  exists (name_map : dict) (lines : list PricedLine),
    map pl_item lines = items payload
    /\ Forall
         (fun l =>
            menu_price float_of_str (stored w "menuitem")
              (item_id (pl_item l)) (pl_price l)
            /\ PyFloat.mul_int (pl_price l) (quantity (pl_item l))
               = Some (pl_total l)) lines
    /\ persist_order payload (map (line_doc name_map) lines)
         (float_sum (map pl_total lines)) w = (Ok resp, w').
Proof.
  intros H. destruct (db w) as [d|] eqn:Hd.
  2:{ rewrite (create_order_no_db payload w Hd) in H. discriminate. }
  rewrite (create_order_eq payload w Hd) in H.
  destruct (parse_ids (map item_id (items payload))) as [oids|e] eqn:Hp;
    [|discriminate].
  cbv zeta in H.
  destruct (price_map_of float_of_str _ []) as [pm|e] eqn:Hpm;
    [|discriminate].
  destruct (price_lines pm _ (items payload) [] 0%float)
    as [[oi s]|e] eqn:Hl; [|discriminate].
  apply price_lines_Ok in Hl.
  destruct Hl as [lines [Hm [Hf [-> ->]]]].
  eexists. exists lines. split; [assumption|]. split; [|exact H].
  rewrite (stored_db w "menuitem" Hd).
  rewrite Forall_forall in *. intros l Hl.
  destruct (Hf l Hl) as [Hget Hmul]. split; [|assumption].
  eapply price_map_menu_price; try eassumption.
  rewrite <- Hm. rewrite map_map. apply in_map_iff. eauto.
Qed.

Lemma persist_order_response (payload : OrderCreate)
  (order_items : list value) (subtotal : float) (w w' : World)
  (resp : value) :
  persist_order payload order_items subtotal w = (Ok resp, w') ->
  resp
  = order_response (str_oid (next_oid w)) subtotal
      match payment_method payload with
      | cash => VNone
      | online =>
          VDict (("id", VStr (str_oid (next_oid (advance w))))
                 :: payment_doc (str_oid (next_oid w)) subtotal)
      end.
Proof.
  intros H. apply persist_order_Ok in H.
  destruct H as [d [Hd [_ H]]]. cbv zeta in H.
  destruct (payment_method payload); destruct H as [-> _]; reflexivity.
Qed.

(** C2. Whenever POST /api/order succeeds, the subtotal of the response
    and the subtotal stored on the new order are both round(s, 2), where s
    is the sum, accumulated in input order from 0.0, of the line totals
    price_i * quantity_i, each price_i being the float price of a menu
    document the requested id names: one rounding, after the accumulation.
    The order of 2 items at 120.00 and 1 item at 75.50 gets 315.50. *)
Theorem create_order_subtotal :
  (forall (payload : OrderCreate) (w w' : World) (resp : value),
      create_order float_of_str payload w = (Ok resp, w') ->
      exists lines : list PricedLine,
        map pl_item lines = items payload
        /\ Forall
             (fun l =>
                menu_price float_of_str (stored w "menuitem")
                  (item_id (pl_item l)) (pl_price l)
                /\ PyFloat.mul_int (pl_price l) (quantity (pl_item l))
                   = Some (pl_total l)) lines
        /\ field resp "subtotal"
           = Some (VFloat (PyFloat.round2
                             (float_sum (map pl_total lines))))
        /\ exists order : Document,
             stored w' "order" = (stored w "order" ++ [order])%list
             /\ field resp "order_id"
                = Some (VStr (str_oid (doc_id order)))
             /\ PyDict.get (doc_fields order) "subtotal"
                = Some (VFloat (PyFloat.round2
                                  (float_sum (map pl_total lines)))))
  /\ fst (create_order float_of_str (Demo.order_body cash) Demo.world)
     = Ok (VDict [ ("order_id", VStr Demo.placed_id);
                   ("subtotal", VFloat 315.5);
                   ("payment", VNone) ]).
Proof.
  split; [|vm_compute; reflexivity].
  intros payload w w' resp H. apply create_order_Ok in H.
  destruct H as [nm [lines [Hm [Hf H]]]].
  exists lines. split; [assumption|]. split; [assumption|].
  rewrite (persist_order_response _ _ _ _ H).
  split; [reflexivity|].
  apply persist_order_stored in H. destruct H as [Ho _].
  eexists. split; [exact Ho|]. split; reflexivity.
Qed.

(** C3 (as the code has it). Whenever POST /api/order succeeds, the new
    order stores one line per requested item, in input order, and each
    line carries the unit price found for the item, the requested quantity
    and, as line_total, their float product price_i * quantity_i as it
    is, without rounding. *)
Theorem create_order_line_totals :
  forall (payload : OrderCreate) (w w' : World) (resp : value),
    create_order float_of_str payload w = (Ok resp, w') ->
    exists (name_map : dict) (lines : list PricedLine) (order : Document),
      map pl_item lines = items payload
      /\ stored w' "order" = (stored w "order" ++ [order])%list
      /\ PyDict.get (doc_fields order) "items"
         = Some (VList (map (line_doc name_map) lines))
      /\ Forall
           (fun l =>
              menu_price float_of_str (stored w "menuitem")
                (item_id (pl_item l)) (pl_price l)
              /\ PyFloat.mul_int (pl_price l) (quantity (pl_item l))
                 = Some (pl_total l)
              /\ field (line_doc name_map l) "price"
                 = Some (VFloat (pl_price l))
              /\ field (line_doc name_map l) "quantity"
                 = Some (VInt (quantity (pl_item l)))
              /\ field (line_doc name_map l) "line_total"
                 = Some (VFloat (pl_total l))) lines.
Proof.
  intros payload w w' resp H. apply create_order_Ok in H.
  destruct H as [nm [lines [Hm [Hf H]]]].
  apply persist_order_stored in H. destruct H as [Ho _].
  exists nm, lines. eexists. split; [assumption|].
  split; [exact Ho|]. split; [reflexivity|].
  eapply Forall_impl; [|exact Hf].
  intros l [Hp Hmul]. repeat split; assumption.
Qed.

(** C4. Whenever POST /api/order succeeds, one order is added. With the
    method cash the response carries no payment object, no payment record
    is written and the order starts unpaid. With the method online the
    order starts pending and exactly one payment record is added: provider
    mock, amount the order's rounded subtotal (also the response's), no
    transaction id, referring to the order; its identifier is the id of
    the response's payment object. *)
Theorem create_order_payment :
  forall (payload : OrderCreate) (w w' : World) (resp : value),
    create_order float_of_str payload w = (Ok resp, w') ->
    exists order : Document,
      stored w' "order" = (stored w "order" ++ [order])%list
      /\ field resp "order_id" = Some (VStr (str_oid (doc_id order)))
      /\ match payment_method payload with
         | cash =>
             field resp "payment" = Some VNone
             /\ stored w' "paymentrecord" = stored w "paymentrecord"
             /\ PyDict.get (doc_fields order) "payment_status"
                = Some (VStr "unpaid")
         | online =>
             PyDict.get (doc_fields order) "payment_status"
             = Some (VStr "pending")
             /\ exists (record : Document) (amount : float)
                  (payment : value),
                 stored w' "paymentrecord"
                 = (stored w "paymentrecord" ++ [record])%list
                 /\ PyDict.get (doc_fields record) "provider"
                    = Some (VStr "mock")
                 /\ PyDict.get (doc_fields record) "amount"
                    = Some (VFloat amount)
                 /\ PyDict.get (doc_fields order) "subtotal"
                    = Some (VFloat amount)
                 /\ field resp "subtotal" = Some (VFloat amount)
                 /\ PyDict.get (doc_fields record) "transaction_id"
                    = Some VNone
                 /\ PyDict.get (doc_fields record) "order_id"
                    = Some (VStr (str_oid (doc_id order)))
                 /\ field resp "payment" = Some payment
                 /\ field payment "id"
                    = Some (VStr (str_oid (doc_id record)))
         end.
Proof.
  intros payload w w' resp H. apply create_order_Ok in H.
  destruct H as [nm [lines [Hm [Hf H]]]].
  rewrite (persist_order_response _ _ _ _ H).
  apply persist_order_stored in H. destruct H as [Ho Hp].
  eexists. split; [exact Ho|]. split; [reflexivity|].
  destruct (payment_method payload) eqn:Epm.
  - split.
    { cbn [doc_fields]. unfold order_doc. rewrite Epm. reflexivity. }
    eexists. eexists. eexists. split; [exact Hp|].
    repeat split; reflexivity.
  - split; [reflexivity|]. split; [exact Hp|].
    cbn [doc_fields]. unfold order_doc. rewrite Epm. reflexivity.
Qed.

End CreateOrder.

Lemma demo_order_placed :
  create_order Demo.no_float (Demo.order_body online) Demo.world
  = (Ok Demo.online_response, Demo.world_ordered).
Proof.
  unfold Demo.world_ordered.
  destruct (create_order Demo.no_float (Demo.order_body online) Demo.world)
    as [r w] eqn:E.
  apply (f_equal fst) in E. vm_compute in E. now subst r.
Qed.

Lemma create_order_subtotal_witness :
  create_order Demo.no_float (Demo.order_body online) Demo.world
  = (Ok Demo.online_response, Demo.world_ordered)
  /\ exists lines : list PricedLine,
      map pl_item lines = items (Demo.order_body online)
      /\ Forall
           (fun l =>
              menu_price Demo.no_float (stored Demo.world "menuitem")
                (item_id (pl_item l)) (pl_price l)
              /\ PyFloat.mul_int (pl_price l) (quantity (pl_item l))
                 = Some (pl_total l)) lines
      /\ field Demo.online_response "subtotal"
         = Some (VFloat (PyFloat.round2 (float_sum (map pl_total lines))))
      /\ exists order : Document,
           stored Demo.world_ordered "order"
           = (stored Demo.world "order" ++ [order])%list
           /\ field Demo.online_response "order_id"
              = Some (VStr (str_oid (doc_id order)))
           /\ PyDict.get (doc_fields order) "subtotal"
              = Some (VFloat (PyFloat.round2
                                (float_sum (map pl_total lines)))).
Proof.
  split; [exact demo_order_placed|].
  exact (proj1 (create_order_subtotal Demo.no_float)
           (Demo.order_body online) Demo.world Demo.world_ordered
           Demo.online_response demo_order_placed).
Defined.

Lemma create_order_line_totals_witness :
  create_order Demo.no_float (Demo.order_body online) Demo.world
  = (Ok Demo.online_response, Demo.world_ordered)
  /\ exists (name_map : dict) (lines : list PricedLine) (order : Document),
      map pl_item lines = items (Demo.order_body online)
      /\ stored Demo.world_ordered "order"
         = (stored Demo.world "order" ++ [order])%list
      /\ PyDict.get (doc_fields order) "items"
         = Some (VList (map (line_doc name_map) lines))
      /\ Forall
           (fun l =>
              menu_price Demo.no_float (stored Demo.world "menuitem")
                (item_id (pl_item l)) (pl_price l)
              /\ PyFloat.mul_int (pl_price l) (quantity (pl_item l))
                 = Some (pl_total l)
              /\ field (line_doc name_map l) "price"
                 = Some (VFloat (pl_price l))
              /\ field (line_doc name_map l) "quantity"
                 = Some (VInt (quantity (pl_item l)))
              /\ field (line_doc name_map l) "line_total"
                 = Some (VFloat (pl_total l))) lines.
Proof.
  split; [exact demo_order_placed|].
  exact (create_order_line_totals Demo.no_float (Demo.order_body online)
           Demo.world demo_order_placed).
Defined.

(** C3, as stated, fails where a product has more than two decimals: one
    Chutney at 10.125 is stored with line_total 10.125, which round(., 2)
    would have changed. *)
Lemma line_total_not_rounded :
  fst (create_order Demo.no_float Demo.chutney_body Demo.world)
  = Ok (VDict [ ("order_id", VStr Demo.placed_id);
                ("subtotal", VFloat (PyFloat.round2 10.125));
                ("payment", VNone) ])
  /\ option_map (fun order => PyDict.get (doc_fields order) "items")
       (hd_error
          (stored
             (snd (create_order Demo.no_float Demo.chutney_body Demo.world))
             "order"))
     = Some (Some (VList
                     [ VDict [ ("item_id", VStr Demo.chutney_id);
                               ("name", VStr "Chutney");
                               ("price", VFloat 10.125);
                               ("quantity", VInt 1);
                               ("line_total", VFloat 10.125) ] ]))
  /\ PyFloat.mul_int 10.125 1 = Some 10.125%float
  /\ PyFloat.round2 10.125 <> 10.125%float.
Proof.
  split; [vm_compute; reflexivity|].
  split; [vm_compute; reflexivity|].
  split; [vm_compute; reflexivity|].
  vm_compute. discriminate.
Qed.

Lemma create_order_payment_witness :
  create_order Demo.no_float (Demo.order_body online) Demo.world
  = (Ok Demo.online_response, Demo.world_ordered)
  /\ exists order : Document,
      stored Demo.world_ordered "order"
      = (stored Demo.world "order" ++ [order])%list
      /\ field Demo.online_response "order_id"
         = Some (VStr (str_oid (doc_id order)))
      /\ PyDict.get (doc_fields order) "payment_status"
         = Some (VStr "pending")
      /\ exists (record : Document) (amount : float) (payment : value),
          stored Demo.world_ordered "paymentrecord"
          = (stored Demo.world "paymentrecord" ++ [record])%list
          /\ PyDict.get (doc_fields record) "provider" = Some (VStr "mock")
          /\ PyDict.get (doc_fields record) "amount" = Some (VFloat amount)
          /\ PyDict.get (doc_fields order) "subtotal" = Some (VFloat amount)
          /\ field Demo.online_response "subtotal" = Some (VFloat amount)
          /\ PyDict.get (doc_fields record) "transaction_id" = Some VNone
          /\ PyDict.get (doc_fields record) "order_id"
             = Some (VStr (str_oid (doc_id order)))
          /\ field Demo.online_response "payment" = Some payment
          /\ field payment "id" = Some (VStr (str_oid (doc_id record))).
Proof.
  split; [exact demo_order_placed|].
  exact (create_order_payment Demo.no_float (Demo.order_body online)
           Demo.world demo_order_placed).
Defined.

(** ** Order creation: rejected requests *)

Lemma resolvesb_spec (c : Collection) (id : string) :
  resolvesb c id = true <-> resolves c id.
Proof.
  unfold resolvesb, resolves. split.
  - destruct (parse_ObjectId id) as [oid|]; [|discriminate].
    intros H. apply existsb_exists in H. destruct H as [doc [Hin E]].
    apply oid_eqb_eq in E. eauto.
  - intros [oid [doc [-> [Hin E]]]]. apply existsb_exists.
    exists doc. split; [assumption|]. now apply oid_eqb_eq.
Qed.

Lemma resolvesb_false (c : Collection) (id : string) :
  resolvesb c id = false -> ~ resolves c id.
Proof.
  intros H Hr. apply resolvesb_spec in Hr. congruence.
Qed.

Section RejectedOrders.

Variable float_of_str : string -> option float.

Lemma unresolved_not_priced (ids : list string) (oids : list ObjectId)
  (c : Collection) (pm : PyDict.t float) (id : string) :
  parse_ids ids = Ok oids ->
  price_map_of float_of_str (Mongo.find_in c oids) [] = Ok pm ->
  In id ids ->
  ~ resolves c id ->
  PyDict.get pm id = None.
Proof.
  intros Hp Hpm Hin Hun.
  destruct (PyDict.get pm id) as [p|] eqn:E; [|reflexivity].
  exfalso. apply Hun.
  destruct (@price_map_menu_price float_of_str ids oids c pm id p
              Hp Hpm Hin E) as [doc [Hdoc [Hparse _]]].
  exists (doc_id doc), doc. auto.
Qed.

Lemma resolved_priced (ids : list string) (oids : list ObjectId)
  (c : Collection) (pm : PyDict.t float) (id : string) :
  parse_ids ids = Ok oids ->
  price_map_of float_of_str (Mongo.find_in c oids) [] = Ok pm ->
  In id ids ->
  canonical id ->
  resolves c id ->
  PyDict.get pm id <> None.
Proof.
  intros Hp Hpm Hin Hcan [oid [doc [Hparse [Hdoc Hid]]]].
  unfold canonical in Hcan. rewrite Hcan in Hparse.
  injection Hparse as <-.
  eapply price_map_of_keys; [exact Hpm|]. right. exists doc. split.
  - apply find_in_In. split; [assumption|]. rewrite Hid.
    apply (parse_ids_In _ Hp). eauto.
  - now rewrite Hid.
Qed.

Lemma mul_int_None (p : float) (q : Z) :
  PyFloat.mul_int p q = None <-> PyFloat.of_int q = None.
Proof.
  unfold PyFloat.mul_int. destruct (PyFloat.of_int q); split; congruence.
Qed.

(** The loop does not end normally when some requested id has no price. *)
Lemma price_lines_Raise (pm : PyDict.t float) (nm : dict)
  (its : list OrderItemIn) :
  (exists it, In it its /\ PyDict.get pm (item_id it) = None) ->
  forall oi s, exists e, price_lines pm nm its oi s = Raise e.
Proof.
  induction its as [|it its IH]; intros [bad [Hin Hbad]] oi s.
  - destruct Hin.
  - cbn [price_lines].
    destruct (PyDict.get pm (item_id it)) as [price|] eqn:Ep; [|eauto].
    destruct (PyFloat.mul_int price (quantity it)); [|eauto].
    apply IH. destruct Hin as [->|Hin]; [congruence|eauto].
Qed.

(** With quantities that convert, it ends at the first id without a
    price, with the 400 that names it. *)
Lemma price_lines_first_miss (pm : PyDict.t float) (nm : dict)
  (its : list OrderItemIn) :
  Forall (fun it => PyFloat.of_int (quantity it) <> None) its ->
  (exists it, In it its /\ PyDict.get pm (item_id it) = None) ->
  exists it,
    In it its /\ PyDict.get pm (item_id it) = None
    /\ forall oi s,
        price_lines pm nm its oi s
        = Raise (HTTPException 400 ("Invalid item_id " ++ item_id it)).
Proof.
  induction 1 as [|it its Hq _ IH]; intros [bad [Hin Hbad]].
  - destruct Hin.
  - destruct (PyDict.get pm (item_id it)) as [price|] eqn:Ep.
    + destruct IH as [it' [Hin' [Hmiss Hrun]]].
      { destruct Hin as [->|Hin]; [congruence|eauto]. }
      exists it'. split; [now right|]. split; [assumption|].
      intros oi s. cbn [price_lines]. rewrite Ep.
      destruct (PyFloat.mul_int price (quantity it)) eqn:Em.
      * apply Hrun.
      * apply mul_int_None in Em. contradiction.
    + exists it. split; [now left|]. split; [assumption|].
      intros oi s. cbn [price_lines]. now rewrite Ep.
Qed.

Lemma price_map_of_Ok (docs : list Document) (acc : PyDict.t float) :
  Forall (price_converts float_of_str) docs ->
  exists pm, price_map_of float_of_str docs acc = Ok pm.
Proof.
  intros H. revert acc. induction H as [|doc docs [p Hp] _ IH]; intros acc.
  - cbn. eauto.
  - cbn [price_map_of]. rewrite Hp. apply IH.
Qed.

Lemma parse_ids_refused (ids : list string) :
  (exists i, In i ids /\ parse_ObjectId i = None) ->
  exists i,
    In i ids /\ parse_ObjectId i = None /\ parse_ids ids = Raise (InvalidId i).
Proof.
  induction ids as [|j ids IH]; intros [i [Hin Hi]]; [destruct Hin|].
  cbn [parse_ids]. destruct (parse_ObjectId j) as [o|] eqn:Ej.
  - destruct IH as [i' [Hin' [Hi' ->]]].
    { destruct Hin as [->|Hin]; [congruence|eauto]. }
    exists i'. split; [now right|]. auto.
  - exists j. split; [now left|]. auto.
Qed.

(** C1 (as the code has it). A POST /api/order in which some requested
    item_id names no menu document always fails, and fails with the world
    untouched: no order, no payment record, nothing else written. The
    failure is the 400 "Invalid item_id ..." naming a requested id when the
    store is configured, the ObjectId constructor accepts every requested
    id, every quantity converts to a float and every menu price converts to
    a float; the id it names has no price in the lookup, and names no menu
    document when it is in canonical (lower-case) form. When the store is
    configured and the ObjectId constructor refuses some requested id (one
    that is not 24 characters long, or is not made of pairs of hexadecimal
    digits once the whitespace outside the pairs is set aside), the failure
    is InvalidId for such an id instead. *)
Theorem create_order_unresolved_item :
  forall (payload : OrderCreate) (w : World),
    (exists it,
        In it (items payload)
        /\ ~ resolves (stored w "menuitem") (item_id it)) ->
    (exists e, create_order float_of_str payload w = (Raise e, w))
    /\ (db w <> None ->
        Forall
          (fun it =>
             parse_ObjectId (item_id it) <> None
             /\ PyFloat.of_int (quantity it) <> None) (items payload) ->
        Forall (price_converts float_of_str) (stored w "menuitem") ->
        exists it,
          In it (items payload)
          /\ create_order float_of_str payload w
             = (Raise (HTTPException 400
                         ("Invalid item_id " ++ item_id it)), w)
          /\ (canonical (item_id it) ->
              ~ resolves (stored w "menuitem") (item_id it)))
    /\ (db w <> None ->
        (exists it,
            In it (items payload) /\ parse_ObjectId (item_id it) = None) ->
        exists it,
          In it (items payload)
          /\ parse_ObjectId (item_id it) = None
          /\ create_order float_of_str payload w
             = (Raise (InvalidId (item_id it)), w)).
Proof.
  intros payload w [bad [Hbad Hun]].
  destruct (db w) as [d|] eqn:Hd.
  2:{ split; [|split; intros H; contradiction].
      rewrite (create_order_no_db float_of_str payload w Hd). eauto. }
  rewrite (stored_db w "menuitem" Hd) in *.
  rewrite (create_order_eq float_of_str payload w Hd).
  assert (Hbad_id : In (item_id bad) (map item_id (items payload))).
  { now apply in_map. }
  split; [|split].
  - destruct (parse_ids (map item_id (items payload))) as [oids|e] eqn:Hp;
      [|eauto].
    cbv zeta.
    destruct (price_map_of float_of_str _ []) as [pm|e] eqn:Hpm; [|eauto].
    destruct (@price_lines_Raise pm
                (name_map_of (Mongo.find_in (d "menuitem") oids))
                (items payload)) with (oi := @nil value) (s := 0%float)
      as [e He].
    { exists bad. split; [assumption|].
      eapply unresolved_not_priced; eassumption. }
    rewrite He. eauto.
  - intros _ Hreq Hmenu.
    destruct (@parse_ids_Ok (map item_id (items payload))) as [oids Hp].
    { rewrite Forall_forall in *. intros i Hi.
      apply in_map_iff in Hi. destruct Hi as [it [<- Hit]].
      now apply Hreq. }
    rewrite Hp. cbv zeta.
    destruct (@price_map_of_Ok (Mongo.find_in (d "menuitem") oids) [])
      as [pm Hpm].
    { rewrite Forall_forall in *. intros doc Hdoc.
      apply Hmenu. now apply find_in_In in Hdoc. }
    rewrite Hpm.
    destruct (@price_lines_first_miss pm
                (name_map_of (Mongo.find_in (d "menuitem") oids))
                (items payload)) as [it [Hit [Hmiss Hrun]]].
    { eapply Forall_impl; [|exact Hreq]. intros a [_ Ha]. exact Ha. }
    { exists bad. split; [assumption|].
      eapply unresolved_not_priced; eassumption. }
    exists it. split; [assumption|]. rewrite Hrun.
    split; [reflexivity|].
    intros Hcan Hres. revert Hmiss.
    eapply resolved_priced; try eassumption. now apply in_map.
  - intros _ [it [Hit Hnone]].
    destruct (@parse_ids_refused (map item_id (items payload)))
      as [i [Hi [Hpi ->]]].
    { exists (item_id it). split; [now apply in_map|assumption]. }
    apply in_map_iff in Hi. destruct Hi as [it' [<- Hit']].
    exists it'. auto.
Qed.

End RejectedOrders.

Lemma demo_unknown_unresolved :
  exists it,
    In it (items Demo.unknown_body)
    /\ ~ resolves (stored Demo.world "menuitem") (item_id it).
Proof.
  exists {| item_id := Demo.unknown_id; quantity := 3 |}.
  split; [right; left; reflexivity|].
  apply resolvesb_false. vm_compute. reflexivity.
Qed.

Lemma create_order_unresolved_item_witness :
  (exists it,
      In it (items Demo.unknown_body)
      /\ ~ resolves (stored Demo.world "menuitem") (item_id it))
  /\ (exists e,
        create_order Demo.no_float Demo.unknown_body Demo.world
        = (Raise e, Demo.world))
  /\ exists it,
      In it (items Demo.unknown_body)
      /\ create_order Demo.no_float Demo.unknown_body Demo.world
         = (Raise (HTTPException 400 ("Invalid item_id " ++ item_id it)),
            Demo.world)
      /\ (canonical (item_id it) ->
          ~ resolves (stored Demo.world "menuitem") (item_id it)).
Proof.
  split; [exact demo_unknown_unresolved|].
  destruct (@create_order_unresolved_item Demo.no_float Demo.unknown_body
              Demo.world demo_unknown_unresolved) as [H1 [H2 _]].
  split; [exact H1|].
  apply H2.
  - vm_compute. discriminate.
  - repeat constructor; vm_compute; discriminate.
  - repeat constructor; eexists; vm_compute; reflexivity.
Defined.

(** C1, as stated, fails on a malformed id: "xyz" names no menu document,
    and the request dies in the ObjectId constructor with InvalidId, not
    with the 400 of an invalid item. Nothing is written. *)
Lemma create_order_malformed_id :
  (exists it,
      In it (items Demo.malformed_body)
      /\ ~ resolves (stored Demo.world "menuitem") (item_id it))
  /\ create_order Demo.no_float Demo.malformed_body Demo.world
     = (Raise (InvalidId "xyz"), Demo.world)
  /\ forall detail,
      fst (create_order Demo.no_float Demo.malformed_body Demo.world)
      <> Raise (HTTPException 400 detail).
Proof.
  split.
  { exists {| item_id := "xyz"; quantity := 1 |}.
    split; [left; reflexivity|].
    apply resolvesb_false. vm_compute. reflexivity. }
  split; [reflexivity|]. intros detail. vm_compute. discriminate.
Qed.

(** An identifier of eleven bytes is an identifier: it names no document,
    so the order lookup answers 404 and the order is refused with the 400
    of an invalid item. *)
Example demo_spaced_id :
  parse_ObjectId Demo.spaced_id = Some (Oid "65a1b2c3d4e5f60718293a")
  /\ fst (get_order Demo.spaced_id Demo.world)
     = Raise (HTTPException 404 "Order not found")
  /\ create_order Demo.no_float Demo.spaced_body Demo.world
     = (Raise (HTTPException 400 "Invalid item_id 65a1b2c3d4e5f60718293a  "),
        Demo.world).
Proof. repeat split; vm_compute; reflexivity. Qed.

(** A quantity beyond eight bytes is priced, and then refused by the
    driver when the order is to be written: nothing is stored. *)
Example demo_huge_quantity :
  fst (create_order Demo.no_float Demo.huge_body Demo.world)
  = Raise OverflowError
  /\ stored (snd (create_order Demo.no_float Demo.huge_body Demo.world))
       "order" = [].
Proof. split; vm_compute; reflexivity. Qed.

(** ** Order creation does not look at availability *)

Lemma respects_ret {A} (a : A) : respects (ret a).
Proof. intros w2 w H. auto. Qed.

Lemma respects_bind {A B} (m : M A) (k : A -> M B) :
  respects m -> (forall a, respects (k a)) -> respects (bind m k).
Proof.
  intros Hm Hk w2 w H. unfold bind.
  destruct (Hm w2 w H) as [Hfst Hag].
  destruct (m w2) as [[a2|e2] w2'], (m w) as [[a|e] w'];
    cbn [fst snd] in *; try discriminate.
  - injection Hfst as ->. now apply Hk.
  - injection Hfst as ->. auto.
Qed.

Lemma respects_create_document (name : string) (data : dict) :
  name <> "menuitem" -> respects (create_document name data).
Proof.
  intros Hname [o2 clk2 t2 src2 n2] [o clk t src n]
    [Hc [Ht [Hs [Hn [Hdb Hst]]]]].
  cbn [clock ticks oid_source issued db] in *. subst clk2 t2 src2 n2.
  destruct o2 as [d2|], o as [d|];
    try (destruct Hdb as [Hdb1 Hdb2];
         first [discriminate (Hdb1 eq_refl) | discriminate (Hdb2 eq_refl)]).
  - erewrite !create_document_eq by reflexivity.
    unfold next_oid, stamped. cbn [oid_source issued clock ticks].
    assert (Hcoll : d2 name = d name) by (apply (Hst name Hname)).
    rewrite Hcoll.
    destruct (Mongo.refused _).
    { cbn [fst snd]. split; [reflexivity|].
      repeat split; try discriminate. exact Hst. }
    destruct (Mongo.find_one (d name) (oid_of_N (src n))).
    + cbn [fst snd]. split; [reflexivity|].
      repeat split; try discriminate. exact Hst.
    + cbn [fst snd]. split; [reflexivity|].
      unfold inserted, agree. cbn [clock ticks oid_source issued db].
      repeat split; try discriminate.
      intros m Hm. unfold stored. cbn [db]. unfold with_collection.
      rewrite Hcoll. destruct (String.eqb m name); [reflexivity|].
      apply (Hst m Hm).
  - unfold create_document, bind, get_db. cbn [db fst snd].
    split; [reflexivity|]. repeat split; auto; tauto.
Qed.

Lemma respects_persist_order (payload : OrderCreate)
  (order_items : list value) (subtotal : float) :
  respects (persist_order payload order_items subtotal).
Proof.
  unfold persist_order. apply respects_bind.
  - apply respects_create_document. discriminate.
  - intros order_id. apply respects_bind.
    + destruct (payment_method payload).
      * apply respects_bind.
        -- apply respects_create_document. discriminate.
        -- intros a. apply respects_ret.
      * apply respects_ret.
    + intros a. apply respects_ret.
Qed.


Lemma agree_with_menu (w : World) (menu : Collection) :
  agree (with_menu w menu) w.
Proof.
  unfold agree, with_menu. cbn [clock ticks oid_source issued db].
  repeat split; try reflexivity.
  - destruct (db w); [discriminate|reflexivity].
  - intros ->. reflexivity.
  - intros n Hn. unfold stored. cbn [db].
    destruct (db w) as [d|]; [|reflexivity]. cbn [option_map].
    unfold with_collection. apply String.eqb_neq in Hn. now rewrite Hn.
Qed.

Lemma find_in_Forall2 (R : Document -> Document -> Prop)
  (c1 c2 : Collection) (oids : list ObjectId) :
  (forall a b, R a b -> doc_id a = doc_id b) ->
  Forall2 R c1 c2 ->
  Forall2 R (Mongo.find_in c1 oids) (Mongo.find_in c2 oids).
Proof.
  intros Hid H. induction H as [|a b c1 c2 Hab _ IH]; [constructor|].
  cbn [Mongo.find_in filter]. rewrite (Hid a b Hab).
  destruct (existsb (oid_eqb (doc_id b)) oids); [constructor|]; assumption.
Qed.

Lemma name_map_of_Forall2 (docs1 docs2 : list Document) :
  Forall2
    (fun a b =>
       doc_id a = doc_id b
       /\ PyDict.get (doc_fields a) "name" = PyDict.get (doc_fields b) "name")
    docs1 docs2 ->
  name_map_of docs1 = name_map_of docs2.
Proof.
  unfold name_map_of. generalize (@nil (string * value)).
  intros acc H. revert acc.
  induction H as [|a b l1 l2 [Hid Hn] _ IH]; intros acc; [reflexivity|].
  cbn [fold_left]. unfold PyDict.get_default.
  rewrite Hid, Hn. apply IH.
Qed.

Lemma NoDup_map_inj {A B} (f : A -> B) (l : list A) (a b : A) :
  NoDup (map f l) -> In a l -> In b l -> f a = f b -> a = b.
Proof.
  induction l as [|x l IH]; cbn [map]; intros Hnd Ha Hb E; [destruct Ha|].
  inversion Hnd as [|? ? Hnin Hnd']; subst.
  destruct Ha as [->|Ha], Hb as [->|Hb]; auto.
  - exfalso. apply Hnin. rewrite E. now apply in_map.
  - exfalso. apply Hnin. rewrite <- E. now apply in_map.
Qed.

Section Availability.

Variable float_of_str : string -> option float.

Lemma price_map_of_Forall2 (docs1 docs2 : list Document)
  (acc : PyDict.t float) :
  Forall2
    (fun a b =>
       doc_id a = doc_id b
       /\ PyDict.get (doc_fields a) "price"
          = PyDict.get (doc_fields b) "price")
    docs1 docs2 ->
  price_map_of float_of_str docs1 acc = price_map_of float_of_str docs2 acc.
Proof.
  intros H. revert acc.
  induction H as [|a b l1 l2 [Hid Hp] _ IH]; intros acc; [reflexivity|].
  cbn [price_map_of]. unfold PyDict.get_default. rewrite Hid, Hp.
  destruct (py_float float_of_str _); [apply IH|reflexivity].
Qed.

Lemma same_but_availability_make (doc : Document) :
  same_but_availability doc (make_available doc).
Proof.
  split; [reflexivity|]. intros k Hk. cbn [make_available doc_fields].
  symmetry. apply PyDictFacts.get_set_neq. congruence.
Qed.

(** Two menus that differ at most in availability give one outcome. *)
Lemma create_order_with_menu (payload : OrderCreate) (w : World)
  (menu : Collection) :
  Forall2 same_but_availability (stored w "menuitem") menu ->
  fst (create_order float_of_str payload (with_menu w menu))
  = fst (create_order float_of_str payload w)
  /\ agree (snd (create_order float_of_str payload (with_menu w menu)))
       (snd (create_order float_of_str payload w)).
Proof.
  intros Hmenu. pose proof (agree_with_menu w menu) as Hag.
  destruct (db w) as [d|] eqn:Hd.
  2:{ rewrite !create_order_no_db; [auto|assumption|].
      unfold with_menu. cbn [db]. now rewrite Hd. }
  rewrite (stored_db w "menuitem" Hd) in Hmenu.
  rewrite (create_order_eq float_of_str payload w Hd).
  erewrite (create_order_eq float_of_str payload (with_menu w menu)).
  2:{ unfold with_menu. cbn [db]. rewrite Hd. reflexivity. }
  destruct (parse_ids (map item_id (items payload))) as [oids|e];
    [|auto].
  cbv zeta.
  change (with_collection d "menuitem" menu "menuitem") with menu.
  assert (Hdocs : Forall2 same_but_availability
                    (Mongo.find_in (d "menuitem") oids)
                    (Mongo.find_in menu oids)).
  { apply find_in_Forall2; [|assumption]. now intros a b [H _]. }
  rewrite <- (@price_map_of_Forall2 (Mongo.find_in (d "menuitem") oids)
                (Mongo.find_in menu oids)).
  2:{ eapply Forall2_impl; [|exact Hdocs].
      intros a b [Hid Hk]. split; [assumption|]. now apply Hk. }
  rewrite <- (@name_map_of_Forall2 (Mongo.find_in (d "menuitem") oids)
                (Mongo.find_in menu oids)).
  2:{ eapply Forall2_impl; [|exact Hdocs].
      intros a b [Hid Hk]. split; [assumption|]. now apply Hk. }
  destruct (price_map_of float_of_str _ []) as [pm|e]; [|auto].
  destruct (price_lines pm _ (items payload) [] 0%float)
    as [[oi s]|e]; [|auto].
  now apply respects_persist_order.
Qed.

(** C8 (as the code has it). POST /api/order never looks at
    is_available. Its response, and every collection but the menu itself
    afterwards, are what they would be with every menu item switched on:
    a request that names a switched-off item is accepted exactly when it
    would be with every item on sale, and answered the same. And whenever an
    order is accepted (the menu holding one document per identifier), it
    is stored with one line per requested item, and a line whose item_id
    is the identifier of a menu document carries the float price of that
    document and the product of this price and the quantity, whatever the
    document's is_available says. *)
Theorem create_order_ignores_availability :
  (forall (payload : OrderCreate) (w : World),
      fst (create_order float_of_str payload (all_available w))
      = fst (create_order float_of_str payload w)
      /\ forall n,
          n <> "menuitem" ->
          stored (snd (create_order float_of_str payload
                         (all_available w))) n
          = stored (snd (create_order float_of_str payload w)) n)
  /\ (forall (payload : OrderCreate) (w w' : World) (resp : value),
        unique_ids (stored w "menuitem") ->
        create_order float_of_str payload w = (Ok resp, w') ->
        exists (name_map : dict) (lines : list PricedLine)
               (order : Document),
          map pl_item lines = items payload
          /\ stored w' "order" = (stored w "order" ++ [order])%list
          /\ PyDict.get (doc_fields order) "items"
             = Some (VList (map (line_doc name_map) lines))
          /\ forall l doc,
              In l lines ->
              In doc (stored w "menuitem") ->
              parse_ObjectId (item_id (pl_item l)) = Some (doc_id doc) ->
              py_float float_of_str
                (PyDict.get_default (doc_fields doc) "price" (VInt 0))
              = Ok (pl_price l)
              /\ PyFloat.mul_int (pl_price l) (quantity (pl_item l))
                 = Some (pl_total l)
              /\ field (line_doc name_map l) "price"
                 = Some (VFloat (pl_price l))
              /\ field (line_doc name_map l) "line_total"
                 = Some (VFloat (pl_total l))).
Proof.
  split.
  - intros payload w.
    destruct (@create_order_with_menu payload w
                (map make_available (stored w "menuitem")))
      as [Hfst Hag].
    { induction (stored w "menuitem"); constructor;
        [apply same_but_availability_make|assumption]. }
    split; [exact Hfst|]. apply Hag.
  - intros payload w w' resp Huniq H.
    apply (create_order_Ok float_of_str) in H.
    destruct H as [nm [lines [Hm [Hf H]]]].
    apply persist_order_stored in H. destruct H as [Ho _].
    exists nm, lines. eexists. split; [assumption|].
    split; [exact Ho|]. split; [reflexivity|].
    intros l doc Hl Hdoc Hparse. rewrite Forall_forall in Hf.
    destruct (Hf l Hl) as [[doc' [Hdoc' [Hparse' Hp]]] Hmul].
    assert (doc' = doc) as ->.
    { apply (NoDup_map_inj doc_id (stored w "menuitem"));
        try assumption. congruence. }
    repeat split; try assumption; reflexivity.
Qed.

End Availability.

Lemma demo_menu_ids : unique_ids (stored Demo.world "menuitem").
Proof.
  unfold unique_ids.
  repeat (constructor; [simpl; intuition discriminate|]). constructor.
Qed.

Lemma create_order_ignores_availability_witness :
  (In Demo.lassi (stored Demo.world "menuitem")
   /\ PyDict.get (doc_fields Demo.lassi) "is_available"
      = Some (VBool false)
   /\ In {| item_id := str_oid (doc_id Demo.lassi); quantity := 1 |}
        (items (Demo.order_body online)))
  /\ unique_ids (stored Demo.world "menuitem")
  /\ create_order Demo.no_float (Demo.order_body online) Demo.world
     = (Ok Demo.online_response, Demo.world_ordered)
  /\ exists (name_map : dict) (lines : list PricedLine) (order : Document),
      map pl_item lines = items (Demo.order_body online)
      /\ stored Demo.world_ordered "order"
         = (stored Demo.world "order" ++ [order])%list
      /\ PyDict.get (doc_fields order) "items"
         = Some (VList (map (line_doc name_map) lines))
      /\ forall l,
          In l lines ->
          item_id (pl_item l) = str_oid (doc_id Demo.lassi) ->
          pl_price l = 75.5%float
          /\ field (line_doc name_map l) "price" = Some (VFloat 75.5).
Proof.
  assert (Hin : In Demo.lassi (stored Demo.world "menuitem")).
  { right; left; reflexivity. }
  split.
  { split; [exact Hin|].
    split; [reflexivity|right; left; reflexivity]. }
  split; [exact demo_menu_ids|]. split; [exact demo_order_placed|].
  destruct (proj2 (create_order_ignores_availability Demo.no_float)
              (Demo.order_body online) Demo.world Demo.world_ordered
              Demo.online_response demo_menu_ids demo_order_placed)
    as [nm [lines [order [Hm [Ho [Hi Hl]]]]]].
  exists nm, lines, order. split; [exact Hm|]. split; [exact Ho|].
  split; [exact Hi|]. intros l Hin_l Hid.
  destruct (Hl l Demo.lassi Hin_l Hin) as [Hp [_ [Hf _]]].
  { rewrite Hid. reflexivity. }
  cbn in Hp. injection Hp as Hp. rewrite <- Hp in Hf.
  split; [now symmetry|exact Hf].
Defined.

(** C8, as stated, fails where the request names the item in upper case:
    the identifier is that of the lassi, which is switched off, and the
    order is refused with the 400 of an invalid item. It is refused the
    same way with every item switched on. *)
Lemma create_order_refuses_upper_case :
  (exists doc,
      In doc (stored Demo.world "menuitem")
      /\ parse_ObjectId Demo.lassi_upper = Some (doc_id doc)
      /\ PyDict.get (doc_fields doc) "is_available" = Some (VBool false)
      /\ resolves (stored Demo.world "menuitem") Demo.lassi_upper)
  /\ create_order Demo.no_float Demo.lassi_upper_body Demo.world
     = (Raise (HTTPException 400
                 "Invalid item_id 65A1B2C3D4E5F60718293A4C"), Demo.world)
  /\ fst (create_order Demo.no_float Demo.lassi_upper_body
            (all_available Demo.world))
     = Raise (HTTPException 400 "Invalid item_id 65A1B2C3D4E5F60718293A4C").
Proof.
  split.
  { exists Demo.lassi. split; [right; left; reflexivity|].
    split; [reflexivity|]. split; [reflexivity|].
    apply resolvesb_spec. vm_compute. reflexivity. }
  split; [reflexivity|]. vm_compute. reflexivity.
Qed.

(** ** Menu documents without a price *)

Lemma zero_mul_finite (y : float) (m : positive) (e : Z) :
  Prim2SF y = S754_finite false m e -> (0 * y)%float = 0%float.
Proof.
  intros H. apply Prim2SF_inj. rewrite mul_spec, H. reflexivity.
Qed.

Lemma parse_ids_Raise (ids : list string) (e : exn) :
  parse_ids ids = Raise e -> exists i, e = InvalidId i.
Proof.
  induction ids as [|i ids IH]; cbn [parse_ids]; [discriminate|].
  destruct (parse_ObjectId i); [|intros [= <-]; eauto].
  destruct (parse_ids ids); [discriminate|].
  intros [= <-]. now apply IH.
Qed.

Lemma refused_value_exn :
  forall (v : value) (e : exn),
    Mongo.refused_value v = Some e ->
    e = OverflowError \/ e = InvalidDocument.
Proof.
  fix IH 1. intros v e. destruct v as [| | z | | | | | l | d];
    cbn [Mongo.refused_value]; try discriminate.
  - destruct ((- 2 ^ 63 <=? z) && (z <? 2 ^ 63));
      [discriminate|intros [= <-]; now left].
  - induction l as [|x l IHl]; [discriminate|].
    destruct (Mongo.refused_value x) as [e0|] eqn:E.
    + intros [= <-]. exact (IH x e0 E).
    + exact IHl.
  - induction d as [|[k x] d IHd]; [discriminate|].
    destruct (Mongo.has_nul k); [intros [= <-]; now right|].
    destruct (Mongo.refused_value x) as [e0|] eqn:E.
    + intros [= <-]. exact (IH x e0 E).
    + exact IHd.
Qed.

Lemma create_document_Raise (name : string) (data : dict) (w : World) e :
  fst (create_document name data w) = Raise e ->
  e = DuplicateKeyError \/ e = OverflowError \/ e = InvalidDocument
  \/ exists msg, e = DatabaseNotAvailable msg.
Proof.
  destruct (db w) as [d|] eqn:Hd.
  - erewrite create_document_eq by exact Hd.
    destruct (Mongo.refused (stamped data w)) as [e0|] eqn:E.
    + cbn [fst]. intros [= <-]. apply refused_value_exn in E. tauto.
    + destruct (Mongo.find_one (d name) (next_oid w)); cbn [fst];
        [intros [= <-]; now left|discriminate].
  - unfold create_document, bind, get_db. rewrite Hd. cbn [fst].
    intros [= <-]. do 3 right. eauto.
Qed.

Lemma persist_order_Raise (payload : OrderCreate)
  (order_items : list value) (subtotal : float) (w : World) e :
  fst (persist_order payload order_items subtotal w) = Raise e ->
  e = DuplicateKeyError \/ e = OverflowError \/ e = InvalidDocument
  \/ exists msg, e = DatabaseNotAvailable msg.
Proof.
  unfold persist_order, bind.
  destruct (create_document "order" _ w) as [[order_id|e1] w1] eqn:E1.
  2:{ cbn [fst]. intros [= <-].
      apply (create_document_Raise "order"
               (order_doc payload order_items subtotal) w).
      now rewrite E1. }
  destruct (payment_method payload).
  - destruct (create_document "paymentrecord" _ w1) as [[pid|e2] w2] eqn:E2;
      cbn [fst]; [discriminate|].
    intros [= <-].
    apply (create_document_Raise "paymentrecord"
             (payment_doc order_id subtotal) w1).
    now rewrite E2.
  - cbn [fst]. discriminate.
Qed.

Lemma price_lines_Raise_inv (pm : PyDict.t float) (nm : dict)
  (its : list OrderItemIn) (oi : list value) (s : float) e :
  price_lines pm nm its oi s = Raise e ->
  e = OverflowError
  \/ exists it,
       In it its /\ PyDict.get pm (item_id it) = None
       /\ e = HTTPException 400 ("Invalid item_id " ++ item_id it).
Proof.
  revert oi s. induction its as [|it its IH]; intros oi s;
    cbn [price_lines]; [discriminate|].
  destruct (PyDict.get pm (item_id it)) as [price|] eqn:Ep.
  - destruct (PyFloat.mul_int price (quantity it)).
    + intros H. apply IH in H.
      destruct H as [H|[it' [Hin [Hmiss He]]]]; [now left|].
      right. exists it'. split; [now right|]. auto.
    + intros [= <-]. now left.
  - intros [= <-]. right. exists it. split; [now left|]. auto.
Qed.

Section MissingPrice.

Variable float_of_str : string -> option float.

Lemma py_float_Raise (v : value) e :
  py_float float_of_str v = Raise e ->
  e = TypeError \/ e = ValueError \/ e = OverflowError.
Proof.
  destruct v; cbn [py_float]; try (intros [= <-]; auto); try discriminate.
  - destruct (PyFloat.of_int z); [discriminate|intros [= <-]; auto].
  - destruct (float_of_str s); [discriminate|intros [= <-]; auto].
Qed.

Lemma price_map_of_Raise (docs : list Document) (acc : PyDict.t float) e :
  price_map_of float_of_str docs acc = Raise e ->
  e = TypeError \/ e = ValueError \/ e = OverflowError.
Proof.
  revert acc. induction docs as [|doc docs IH]; intros acc;
    cbn [price_map_of]; [discriminate|].
  destruct (py_float float_of_str _) as [p|e'] eqn:Ep.
  - apply IH.
  - intros [= <-]. eapply py_float_Raise. exact Ep.
Qed.

(** The 400 naming [id] comes from the loop, at a requested [id] that has
    no price in the lookup. *)
Lemma create_order_invalid_item_inv (payload : OrderCreate) (w : World)
  (id : string) :
  fst (create_order float_of_str payload w)
  = Raise (HTTPException 400 ("Invalid item_id " ++ id)) ->
  exists d oids pm,
    db w = Some d
    /\ parse_ids (map item_id (items payload)) = Ok oids
    /\ price_map_of float_of_str (Mongo.find_in (d "menuitem") oids) []
       = Ok pm
    /\ In id (map item_id (items payload))
    /\ PyDict.get pm id = None.
Proof.
  destruct (db w) as [d|] eqn:Hd.
  2:{ rewrite (create_order_no_db float_of_str payload w Hd).
      discriminate. }
  rewrite (create_order_eq float_of_str payload w Hd).
  destruct (parse_ids (map item_id (items payload))) as [oids|e] eqn:Hp.
  2:{ cbn [fst]. intros [= ->].
      apply parse_ids_Raise in Hp. destruct Hp as [i Hi]. discriminate. }
  cbv zeta.
  destruct (price_map_of float_of_str _ []) as [pm|e] eqn:Hpm.
  2:{ cbn [fst]. intros [= ->].
      apply price_map_of_Raise in Hpm.
      destruct Hpm as [H|[H|H]]; discriminate. }
  destruct (price_lines pm _ (items payload) [] 0%float)
    as [[oi s]|e] eqn:Hl.
  - intros H. apply persist_order_Raise in H.
    destruct H as [H|[H|[H|[msg H]]]]; discriminate.
  - cbn [fst]. intros [= ->].
    apply price_lines_Raise_inv in Hl.
    destruct Hl as [Hl|[it [Hin [Hmiss He]]]]; [discriminate|].
    injection He as He.
    exists d, oids, pm. repeat split; try assumption.
    + rewrite He. now apply in_map.
    + now rewrite He.
Qed.

(** C9 (as the code has it). Let a requested item_id be the text of the
    identifier of a menu document that has no "price" field, written as
    the store prints it (the store holding one document per identifier).
    Then POST /api/order does not fail with the 400 that names this id;
    and when the order goes through, each of its lines for this id carries
    the unit price 0.0 and, for every quantity that converts to a positive
    finite float, the line_total 0.0, which is what the line adds to the
    subtotal. *)
Theorem create_order_missing_price :
  forall (payload : OrderCreate) (w : World) (it : OrderItemIn)
         (doc : Document),
    db w <> None ->
    unique_ids (stored w "menuitem") ->
    In doc (stored w "menuitem") ->
    PyDict.get (doc_fields doc) "price" = None ->
    In it (items payload) ->
    names (item_id it) doc ->
    fst (create_order float_of_str payload w)
    <> Raise (HTTPException 400 ("Invalid item_id " ++ item_id it))
    /\ forall (resp : value) (w' : World),
        create_order float_of_str payload w = (Ok resp, w') ->
        exists (name_map : dict) (lines : list PricedLine)
               (order : Document),
          map pl_item lines = items payload
          /\ stored w' "order" = (stored w "order" ++ [order])%list
          /\ PyDict.get (doc_fields order) "items"
             = Some (VList (map (line_doc name_map) lines))
          /\ field resp "subtotal"
             = Some (VFloat (PyFloat.round2
                               (float_sum (map pl_total lines))))
          /\ forall l,
              In l lines ->
              item_id (pl_item l) = item_id it ->
              field (line_doc name_map l) "price" = Some (VFloat 0)
              /\ (finite_quantity (quantity (pl_item l)) = true ->
                  pl_total l = 0%float
                  /\ field (line_doc name_map l) "line_total"
                     = Some (VFloat 0)).
Proof.
  intros payload w it doc Hdb Huniq Hdoc Hprice Hit [Hparse Hstr].
  split.
  - intros H. apply create_order_invalid_item_inv in H.
    destruct H as [d [oids [pm [Hd [Hp [Hpm [Hin Hmiss]]]]]]].
    rewrite (stored_db w "menuitem" Hd) in *.
    revert Hmiss. eapply resolved_priced; try eassumption.
    + unfold canonical. rewrite Hparse, <- Hstr.
      destruct (doc_id doc). reflexivity.
    + exists (doc_id doc), doc. auto.
  - intros resp w' H. apply create_order_Ok in H.
    destruct H as [nm [lines [Hm [Hf H]]]].
    rewrite (persist_order_response _ _ _ _ H).
    apply persist_order_stored in H. destruct H as [Ho _].
    exists nm, lines. eexists. split; [assumption|].
    split; [exact Ho|]. split; [reflexivity|]. split; [reflexivity|].
    intros l Hl Hid. rewrite Forall_forall in Hf.
    destruct (Hf l Hl) as [[doc' [Hdoc' [Hparse' Hp]]] Hmul].
    assert (doc' = doc) as ->.
    { apply (NoDup_map_inj doc_id (stored w "menuitem"));
        try assumption. congruence. }
    unfold PyDict.get_default in Hp. rewrite Hprice in Hp.
    assert (Hzero : pl_price l = 0%float).
    { cbn in Hp. now injection Hp as <-. }
    cbn [line_doc order_item field PyDict.get].
    split; [cbn; now rewrite Hzero|].
    intros Hq. unfold finite_quantity in Hq.
    assert (Htotal : pl_total l = 0%float).
    { rewrite Hzero in Hmul. unfold PyFloat.mul_int in Hmul.
      destruct (PyFloat.of_int (quantity (pl_item l))) as [qf|];
        [|discriminate].
      injection Hmul as <-.
      destruct (Prim2SF qf) as [| | |[] m e] eqn:Eq; try discriminate.
      eapply zero_mul_finite. exact Eq. }
    split; [assumption|]. cbn. now rewrite Htotal.
Qed.

End MissingPrice.

Lemma demo_water_placed :
  create_order Demo.no_float Demo.water_body Demo.world
  = (Ok (VDict [ ("order_id", VStr Demo.placed_id);
                 ("subtotal", VFloat 120);
                 ("payment", VNone) ]),
     snd (create_order Demo.no_float Demo.water_body Demo.world)).
Proof.
  destruct (create_order Demo.no_float Demo.water_body Demo.world)
    as [r w] eqn:E.
  apply (f_equal fst) in E. vm_compute in E. now subst r.
Qed.

Lemma create_order_missing_price_witness :
  (db Demo.world <> None
   /\ unique_ids (stored Demo.world "menuitem")
   /\ In Demo.water (stored Demo.world "menuitem")
   /\ PyDict.get (doc_fields Demo.water) "price" = None
   /\ In Demo.water_item (items Demo.water_body)
   /\ names (item_id Demo.water_item) Demo.water)
  /\ create_order Demo.no_float Demo.water_body Demo.world
     = (Ok (VDict [ ("order_id", VStr Demo.placed_id);
                    ("subtotal", VFloat 120);
                    ("payment", VNone) ]),
        snd (create_order Demo.no_float Demo.water_body Demo.world))
  /\ exists (name_map : dict) (lines : list PricedLine) (order : Document),
      map pl_item lines = items Demo.water_body
      /\ stored (snd (create_order Demo.no_float Demo.water_body Demo.world))
           "order"
         = (stored Demo.world "order" ++ [order])%list
      /\ PyDict.get (doc_fields order) "items"
         = Some (VList (map (line_doc name_map) lines))
      /\ forall l,
          In l lines ->
          item_id (pl_item l) = item_id Demo.water_item ->
          field (line_doc name_map l) "price" = Some (VFloat 0)
          /\ pl_total l = 0%float
          /\ field (line_doc name_map l) "line_total" = Some (VFloat 0).
Proof.
  assert (Hdb : db Demo.world <> None) by (vm_compute; discriminate).
  assert (Hin : In Demo.water (stored Demo.world "menuitem")).
  { do 3 right. left. reflexivity. }
  assert (Hnames : names (item_id Demo.water_item) Demo.water).
  { split; reflexivity. }
  assert (Hitem : In Demo.water_item (items Demo.water_body)).
  { left. reflexivity. }
  split; [repeat split; auto; exact demo_menu_ids|].
  split; [exact demo_water_placed|].
  destruct (@create_order_missing_price Demo.no_float Demo.water_body
              Demo.world Demo.water_item Demo.water Hdb demo_menu_ids Hin
              eq_refl Hitem Hnames) as [_ Hlines].
  destruct (Hlines _ _ demo_water_placed)
    as [nm [lines [order [Hm [Ho [Hi [_ Hl]]]]]]].
  exists nm, lines, order. split; [exact Hm|]. split; [exact Ho|].
  split; [exact Hi|]. intros l Hl_in Hid.
  destruct (Hl l Hl_in Hid) as [Hp Ht]. split; [exact Hp|].
  apply Ht.
  assert (Hq : In (pl_item l) (items Demo.water_body)).
  { rewrite <- Hm. now apply in_map. }
  destruct Hq as [<-|[Hq|[]]]; [reflexivity|].
  rewrite <- Hq in Hid. discriminate Hid.
Defined.

(** C9, as stated, fails where the request names the document in upper
    case: the identifier is that of the water, which has no price, and the
    order is refused with the 400 of an invalid item. *)
Lemma create_order_upper_case_price :
  (exists doc,
      In doc (stored Demo.world "menuitem")
      /\ parse_ObjectId Demo.water_upper = Some (doc_id doc)
      /\ PyDict.get (doc_fields doc) "price" = None
      /\ resolves (stored Demo.world "menuitem") Demo.water_upper)
  /\ create_order Demo.no_float Demo.water_upper_body Demo.world
     = (Raise (HTTPException 400
                 "Invalid item_id 65A1B2C3D4E5F60718293A4E"), Demo.world).
Proof.
  split.
  { exists Demo.water. split; [do 3 right; left; reflexivity|].
    split; [reflexivity|]. split; [reflexivity|].
    apply resolvesb_spec. vm_compute. reflexivity. }
  reflexivity.
Qed.

(** The order for water and paneer in [Demo]: the water line costs
    nothing, and the subtotal is the paneer's. *)
Example demo_water_order :
  fst (create_order Demo.no_float Demo.water_body Demo.world)
  = Ok (VDict [ ("order_id", VStr Demo.placed_id);
                ("subtotal", VFloat 120);
                ("payment", VNone) ])
  /\ option_map (fun order => PyDict.get (doc_fields order) "items")
       (hd_error
          (stored (snd (create_order Demo.no_float Demo.water_body
                          Demo.world)) "order"))
     = Some (Some (VList
                     [ VDict [ ("item_id", VStr Demo.water_id);
                               ("name", VStr "Water");
                               ("price", VFloat 0);
                               ("quantity", VInt 2);
                               ("line_total", VFloat 0) ];
                       VDict [ ("item_id", VStr Demo.paneer_id);
                               ("name", VStr "Paneer Tikka");
                               ("price", VFloat 120);
                               ("quantity", VInt 1);
                               ("line_total", VFloat 120) ] ])).
Proof. split; vm_compute; reflexivity. Qed.

(** * Further properties of the adapter *)

Open Scope list_scope.

(** ** Generated identifiers *)

Lemma hex_digit_ok (n : N) :
  (n < 16)%N ->
  is_hex_digit (hex_digit n) = true
  /\ lower_ascii (hex_digit n) = hex_digit n.
Proof.
  intros H. unfold hex_digit.
  assert (Hm : (N.to_nat n < 16)%nat) by lia.
  revert Hm. generalize (N.to_nat n). intros m Hm.
  do 16 (destruct m as [|m]; [split; reflexivity|]). lia.
Qed.

Lemma hex_of_ok (k : nat) (n : N) (acc : string) :
  all_hex acc = true ->
  lower acc = acc ->
  all_hex (hex_of k n acc) = true
  /\ lower (hex_of k n acc) = hex_of k n acc
  /\ String.length (hex_of k n acc) = (k + String.length acc)%nat.
Proof.
  revert n acc. induction k as [|k IH]; intros n acc Hh Hl; cbn [hex_of].
  - auto.
  - destruct (@hex_digit_ok (n mod 16)%N) as [Hd Hlow].
    { apply N.mod_lt. discriminate. }
    destruct (IH (n / 16)%N (String (hex_digit (n mod 16)%N) acc))
      as [H1 [H2 H3]].
    + cbn [all_hex]. now rewrite Hd, Hh.
    + cbn [lower]. now rewrite Hlow, Hl.
    + repeat split; try assumption. rewrite H3. cbn [String.length]. lia.
Qed.

(** The text of a generated identifier parses back to the identifier. *)
Lemma oid_of_N_canonical (n : N) :
  parse_ObjectId (str_oid (oid_of_N n)) = Some (oid_of_N n).
Proof.
  unfold oid_of_N, str_oid. cbn [oid_hex].
  destruct (@hex_of_ok 24 n "" eq_refl eq_refl) as [H1 [H2 H3]].
  rewrite parse_ObjectId_hex by assumption. now rewrite H2.
Qed.

Lemma find_one_app (c1 c2 : Collection) (oid : ObjectId) :
  Mongo.find_one (c1 ++ c2) oid
  = match Mongo.find_one c1 oid with
    | Some doc => Some doc
    | None => Mongo.find_one c2 oid
    end.
Proof.
  unfold Mongo.find_one. induction c1 as [|d c1 IH]; cbn [app find].
  - reflexivity.
  - destruct (Mongo.has_id oid d); [reflexivity|apply IH].
Qed.

Lemma find_one_id (c : Collection) (oid : ObjectId) (doc : Document) :
  Mongo.find_one c oid = Some doc -> In doc c /\ doc_id doc = oid.
Proof.
  unfold Mongo.find_one. intros H. apply find_some in H.
  destruct H as [Hin Hid]. split; [assumption|now apply oid_eqb_eq].
Qed.

Lemma find_one_absent (c : Collection) (oid : ObjectId) :
  Mongo.find_one c oid = None <-> ~ In oid (map doc_id c).
Proof.
  unfold Mongo.find_one. split.
  - intros H Hin. apply in_map_iff in Hin. destruct Hin as [doc [E Hin]].
    apply (find_none _ _ H) in Hin. unfold Mongo.has_id in Hin.
    rewrite E, oid_eqb_refl in Hin. discriminate.
  - intros H. destruct (find (Mongo.has_id oid) c) as [doc|] eqn:E;
      [|reflexivity].
    apply find_some in E. destruct E as [Hin Hid].
    apply oid_eqb_eq in Hid. exfalso. apply H. rewrite <- Hid.
    now apply in_map.
Qed.

(** ** Insert and look up *)

Lemma create_document_Ok (name : string) (data : dict) (w w' : World)
  (id : string) :
  create_document name data w = (Ok id, w') ->
  exists d,
    db w = Some d
    /\ Mongo.find_one (d name) (next_oid w) = None
    /\ id = str_oid (next_oid w)
    /\ w' = inserted d name data w.
Proof.
  intros H. destruct (db w) as [d|] eqn:Hd.
  - erewrite create_document_eq in H by exact Hd.
    destruct (Mongo.refused _); [discriminate|].
    destruct (Mongo.find_one (d name) (next_oid w)) eqn:Ef; [discriminate|].
    injection H as <- <-. exists d. auto.
  - destruct (create_document_no_db name data w Hd) as [e He].
    rewrite He in H. discriminate.
Qed.

(** X1. A document without an [_id] of its own, written by
    [create_document], is read back by [get_document_by_id] under the
    identifier returned: with that identifier as [_id], the two timestamps
    read from the clock (whatever the caller had put under these keys), and
    every other field as the caller gave it. *)
Theorem create_document_round_trip :
  forall (name : string) (data : dict) (w w' : World) (id : string),
    PyDict.get data "_id" = None ->
    create_document name data w = (Ok id, w') ->
    exists doc,
      get_document_by_id name id w' = (Ok (Some doc), w')
      /\ PyDict.get doc "_id" = Some (VStr id)
      /\ PyDict.get doc "created_at" = Some (VDate (clock w (ticks w)))
      /\ PyDict.get doc "updated_at" = Some (VDate (clock w (S (ticks w))))
      /\ forall k,
          k <> "_id" -> k <> "created_at" -> k <> "updated_at" ->
          PyDict.get doc k = PyDict.get data k.
Proof.
  intros name data w w' id _ H. apply create_document_Ok in H.
  destruct H as [d [Hd [Hfresh [-> ->]]]].
  exists (serialize_doc (Doc (next_oid w) (stamped data w))).
  split.
  - erewrite get_document_by_id_eq by reflexivity.
    unfold next_oid at 1. rewrite oid_of_N_canonical. fold (next_oid w).
    unfold with_collection. rewrite String.eqb_refl.
    rewrite find_one_app, Hfresh. unfold Mongo.find_one. cbn [find].
    unfold Mongo.has_id. cbn [doc_id]. rewrite oid_eqb_refl. reflexivity.
  - unfold serialize_doc, stamped. cbn [doc_id doc_fields PyDict.get].
    rewrite String.eqb_refl. split; [reflexivity|].
    change (String.eqb "_id" "created_at") with false.
    change (String.eqb "_id" "updated_at") with false. cbv iota.
    split.
    { rewrite PyDictFacts.get_set_neq by discriminate.
      apply PyDictFacts.get_set_eq. }
    split; [apply PyDictFacts.get_set_eq|].
    intros k H1 H2 H3.
    destruct (String.eqb "_id" k) eqn:E.
    { apply String.eqb_eq in E. congruence. }
    rewrite !PyDictFacts.get_set_neq by congruence. reflexivity.
Qed.

Lemma demo_menu_insert :
  exists w',
    create_document "menuitem" [("name", VStr "Raita")] Demo.world
    = (Ok "000000000000000000001000", w').
Proof.
  exists (snd (create_document "menuitem" [("name", VStr "Raita")]
                 Demo.world)).
  destruct (create_document "menuitem" [("name", VStr "Raita")] Demo.world)
    as [r w] eqn:E.
  apply (f_equal fst) in E. vm_compute in E. now subst r.
Qed.

Lemma create_document_round_trip_witness :
  exists w' doc,
    PyDict.get [("name", VStr "Raita")] "_id" = None
    /\ create_document "menuitem" [("name", VStr "Raita")] Demo.world
       = (Ok "000000000000000000001000", w')
    /\ get_document_by_id "menuitem" "000000000000000000001000" w'
       = (Ok (Some doc), w')
    /\ PyDict.get doc "name" = Some (VStr "Raita").
Proof.
  destruct demo_menu_insert as [w' H]. exists w'.
  destruct (@create_document_round_trip "menuitem" [("name", VStr "Raita")]
              Demo.world w' "000000000000000000001000" eq_refl H)
    as [doc [Hget [_ [_ [_ Hk]]]]].
  exists doc. split; [reflexivity|]. split; [exact H|].
  split; [exact Hget|].
  rewrite Hk by discriminate. reflexivity.
Defined.

Lemma get_document_by_id_found (name id : string) (w : World) :
  fst (get_document_by_id name id w)
  = match db w with
    | None => Raise (DatabaseNotAvailable "Database not available.")
    | Some _ =>
        match parse_ObjectId id with
        | None => Raise (InvalidId id)
        | Some oid =>
            Ok (option_map serialize_doc
                  (Mongo.find_one (stored w name) oid))
        end
    end.
Proof.
  destruct (db w) as [d|] eqn:Hd.
  - erewrite get_document_by_id_eq by exact Hd.
    rewrite (stored_db w name Hd).
    destruct (parse_ObjectId id); reflexivity.
  - unfold get_document_by_id, bind, get_db. now rewrite Hd.
Qed.

Lemma get_document_by_id_pure (name id : string) (w : World) :
  snd (get_document_by_id name id w) = w.
Proof.
  destruct (db w) as [d|] eqn:Hd.
  - erewrite get_document_by_id_eq by exact Hd.
    destruct (parse_ObjectId id); reflexivity.
  - unfold get_document_by_id, bind, get_db. now rewrite Hd.
Qed.

Lemma serialize_doc_inj (a b : Document) :
  serialize_doc a = serialize_doc b -> a = b.
Proof.
  destruct a as [[x] fa], b as [[y] fb]. unfold serialize_doc, str_oid.
  cbn. intros H. injection H as -> ->. reflexivity.
Qed.

(** X2. [create_document] disturbs nothing that is stored: whatever
    [get_document_by_id] found before, in any collection and under any
    identifier, it finds after; and a store with one document per
    identifier is still one. *)
Theorem create_document_keeps_documents :
  forall (name : string) (data : dict) (w w' : World) (id : string),
    create_document name data w = (Ok id, w') ->
    (forall name' id' doc,
        fst (get_document_by_id name' id' w) = Ok (Some doc) ->
        fst (get_document_by_id name' id' w') = Ok (Some doc))
    /\ (store_unique w -> store_unique w').
Proof.
  intros name data w w' id H. apply create_document_Ok in H.
  destruct H as [d [Hd [Hfresh [-> ->]]]].
  assert (Hst : forall n,
             stored (inserted d name data w) n
             = if String.eqb n name
               then d name ++ [Doc (next_oid w) (stamped data w)]
               else d n) by reflexivity.
  split.
  - intros name' id' doc. rewrite !get_document_by_id_found.
    rewrite Hd. cbn [inserted db].
    destruct (parse_ObjectId id') as [oid|]; [|discriminate].
    rewrite Hst, (stored_db w name' Hd).
    destruct (String.eqb name' name) eqn:E; [|auto].
    apply String.eqb_eq in E. subst name'.
    rewrite find_one_app.
    destruct (Mongo.find_one (d name) oid); [auto|discriminate].
  - intros Hu n. unfold unique_ids. rewrite Hst.
    specialize (Hu n). unfold unique_ids in Hu. rewrite (stored_db w n Hd) in Hu.
    destruct (String.eqb n name) eqn:E; [|assumption].
    apply String.eqb_eq in E. subst n.
    rewrite map_app. cbn [map doc_id].
    apply NoDup_app; [assumption|repeat constructor; tauto|].
    intros x Hx [<-|[]]. apply find_one_absent in Hfresh. auto.
Qed.

Lemma create_document_keeps_documents_witness :
  exists w',
    create_document "menuitem" [("name", VStr "Raita")] Demo.world
    = (Ok "000000000000000000001000", w')
    /\ (forall name' id' doc,
           fst (get_document_by_id name' id' Demo.world) = Ok (Some doc) ->
           fst (get_document_by_id name' id' w') = Ok (Some doc))
    /\ (store_unique Demo.world -> store_unique w').
Proof.
  destruct demo_menu_insert as [w' H]. exists w'.
  split; [exact H|].
  exact (create_document_keeps_documents _ _ _ H).
Defined.

(** ** Update and look up *)

Lemma update_one_count (c : Collection) (oid : ObjectId) (upd : dict) :
  snd (Mongo.set_one c oid upd) = 0
  /\ fst (Mongo.set_one c oid upd) = c
  \/ snd (Mongo.set_one c oid upd) = 1.
Proof.
  induction c as [|d c IH]; cbn [Mongo.set_one]; [now left|].
  destruct (Mongo.has_id oid d).
  - destruct (Mongo.changes (doc_fields d) upd); cbn; auto.
  - destruct (Mongo.set_one c oid upd) as [c'' n]. cbn in *.
    destruct IH as [[-> ->] | ->]; auto.
Qed.

Lemma update_one_other (c : Collection) (oid oid2 : ObjectId) (upd : dict) :
  oid2 <> oid ->
  Mongo.find_one (fst (Mongo.set_one c oid upd)) oid2
  = Mongo.find_one c oid2.
Proof.
  intros Hne. unfold Mongo.find_one.
  induction c as [|d c IH]; cbn [Mongo.set_one]; [reflexivity|].
  destruct (Mongo.has_id oid d) eqn:E.
  - apply oid_eqb_eq in E.
    assert (Hd : Mongo.has_id oid2 d = false).
    { unfold Mongo.has_id. destruct (oid_eqb (doc_id d) oid2) eqn:E2;
        [|reflexivity].
      apply oid_eqb_eq in E2. congruence. }
    destruct (Mongo.changes (doc_fields d) upd); cbn [fst find].
    + unfold Mongo.has_id in *. cbn [doc_id]. now rewrite Hd.
    + reflexivity.
  - destruct (Mongo.set_one c oid upd) as [c'' n]. cbn [fst find] in *.
    now rewrite IH.
Qed.

Lemma update_one_ids (c : Collection) (oid : ObjectId) (upd : dict) :
  map doc_id (fst (Mongo.set_one c oid upd)) = map doc_id c.
Proof.
  induction c as [|d c IH]; cbn [Mongo.set_one]; [reflexivity|].
  destruct (Mongo.has_id oid d).
  - destruct (Mongo.changes (doc_fields d) upd); reflexivity.
  - destruct (Mongo.set_one c oid upd) as [c'' n]. cbn [fst map] in *.
    now rewrite IH.
Qed.

Lemma update_document_Ok (name id : string) (upd : dict) (w w' : World)
  (b : bool) :
  update_document name id upd w = (Ok b, w') ->
  exists d oid,
    db w = Some d
    /\ parse_ObjectId id = Some oid
    /\ b = (0 <? snd (Mongo.set_one (d name) oid (set_doc upd w)))
    /\ w' = MkWorld
              (Some (with_collection d name
                       (fst (Mongo.set_one (d name) oid
                               (set_doc upd w)))))
              (clock w) (S (ticks w)) (oid_source w) (issued w).
Proof.
  intros H. destruct (db w) as [d|] eqn:Hd.
  - erewrite update_document_eq in H by exact Hd.
    destruct (parse_ObjectId id) as [oid|]; [|discriminate].
    destruct (Mongo.refused _); [discriminate|].
    cbv zeta in H. injection H as <- <-. exists d, oid. auto.
  - rewrite (update_document_no_db name id upd w Hd) in H. discriminate.
Qed.

Lemma set_doc_keys_NoDup (upd : dict) (w : World) :
  NoDup (PyDict.keys upd) -> NoDup (PyDict.keys (set_doc upd w)).
Proof. apply PyDictFacts.keys_set_NoDup. Qed.

Lemma set_doc_get (upd : dict) (w : World) (k : string) :
  PyDict.get (set_doc upd w) k
  = if String.eqb "updated_at" k then Some (VDate (clock w (ticks w)))
    else PyDict.get upd k.
Proof. unfold set_doc. apply PyDictFacts.get_set. Qed.

(** X3. Let the keys of an update be field names (not empty, no dot, no
    leading dollar) other than [_id]. When [update_document] answers true,
    the document read back under the identifier holds every field of the
    update, the clock's reading as [updated_at], and every other field as
    it was; when it answers false, no collection has changed. *)
Theorem update_document_round_trip :
  forall (name id : string) (upd : dict) (w w' : World) (b : bool),
    update_document name id upd w = (Ok b, w') ->
    NoDup (PyDict.keys upd) ->
    ~ In "_id" (PyDict.keys upd) ->
    forallb field_name (PyDict.keys upd) = true ->
    (b = true ->
     exists old new,
       get_document_by_id name id w = (Ok (Some old), w)
       /\ get_document_by_id name id w' = (Ok (Some new), w')
       /\ PyDict.get new "updated_at" = Some (VDate (clock w (ticks w)))
       /\ (forall k v,
             In (k, v) upd -> k <> "updated_at" ->
             PyDict.get new k = Some v)
       /\ (forall k,
             ~ In k (PyDict.keys upd) -> k <> "updated_at" ->
             PyDict.get new k = PyDict.get old k))
    /\ (b = false -> forall n, stored w' n = stored w n).
Proof.
  intros name id upd w w' b H Hnd Hid _. apply update_document_Ok in H.
  destruct H as [d [oid [Hd [Hp [-> ->]]]]].
  split.
  - intros Hb. apply Z.ltb_lt in Hb.
    destruct (Mongo.find_one (d name) oid) as [doc|] eqn:Hf.
    2:{ rewrite (update_one_not_found _ _ _ Hf) in Hb. cbn in Hb. lia. }
    destruct (update_one_found (d name) oid (set_doc upd w) Hf)
      as [Hfound Hn].
    destruct (Mongo.changes (doc_fields doc) (set_doc upd w)) eqn:Hch.
    2:{ rewrite Hn in Hb. lia. }
    exists (serialize_doc doc).
    exists (serialize_doc
              (Doc (doc_id doc)
                 (PyDict.update (doc_fields doc) (set_doc upd w)))).
    split.
    { erewrite get_document_by_id_eq by exact Hd. now rewrite Hp, Hf. }
    split.
    { erewrite get_document_by_id_eq by reflexivity. rewrite Hp.
      unfold with_collection. rewrite String.eqb_refl. now rewrite Hfound. }
    unfold serialize_doc. cbn [doc_id doc_fields PyDict.get].
    change (String.eqb "_id" "updated_at") with false. cbv iota.
    split.
    { apply PyDictFacts.get_update_named.
      - now apply set_doc_keys_NoDup.
      - apply PyDictFacts.get_In. rewrite set_doc_get.
        now rewrite String.eqb_refl. }
    split.
    + intros k v Hin Hk.
      assert (Hk' : String.eqb "_id" k = false).
      { apply String.eqb_neq. intros <-. apply Hid.
        change "_id" with (fst ("_id", v)). now apply in_map. }
      rewrite Hk'. apply PyDictFacts.get_update_named.
      * now apply set_doc_keys_NoDup.
      * apply PyDictFacts.get_In. rewrite set_doc_get.
        assert (E : String.eqb "updated_at" k = false).
        { apply String.eqb_neq. congruence. }
        rewrite E. now apply PyDictFacts.In_get_NoDup.
    + intros k Hk Hu.
      destruct (String.eqb "_id" k); [reflexivity|].
      apply PyDictFacts.get_update_other. intros Hin.
      apply PyDictFacts.keys_set in Hin. destruct Hin; [tauto|congruence].
  - intros Hb n. apply Z.ltb_ge in Hb.
    destruct (update_one_count (d name) oid (set_doc upd w))
      as [[_ Hc]|H1]; [|lia].
    rewrite Hc. unfold stored. cbn [db]. rewrite Hd.
    unfold with_collection. destruct (String.eqb n name) eqn:E;
      [|reflexivity].
    apply String.eqb_eq in E. now subst.
Qed.

Lemma demo_price_update :
  exists w',
    update_document "menuitem" Demo.paneer_id [("price", VFloat 130)]
      Demo.world = (Ok true, w').
Proof.
  exists (snd (update_document "menuitem" Demo.paneer_id
                 [("price", VFloat 130)] Demo.world)).
  destruct (update_document "menuitem" Demo.paneer_id
              [("price", VFloat 130)] Demo.world) as [r w] eqn:E.
  apply (f_equal fst) in E. vm_compute in E. now subst r.
Qed.

Lemma update_document_round_trip_witness :
  exists w' old new,
    update_document "menuitem" Demo.paneer_id [("price", VFloat 130)]
      Demo.world = (Ok true, w')
    /\ get_document_by_id "menuitem" Demo.paneer_id Demo.world
       = (Ok (Some old), Demo.world)
    /\ get_document_by_id "menuitem" Demo.paneer_id w' = (Ok (Some new), w')
    /\ PyDict.get new "price" = Some (VFloat 130)
    /\ PyDict.get new "name" = PyDict.get old "name".
Proof.
  destruct demo_price_update as [w' H]. exists w'.
  destruct (update_document_round_trip _ _ _ _ H) as [Htrue _].
  - repeat constructor. simpl. tauto.
  - simpl. intuition discriminate.
  - reflexivity.
  - destruct (Htrue eq_refl) as [old [new [H1 [H2 [_ [H3 H4]]]]]].
    exists old, new. split; [exact H|]. split; [exact H1|].
    split; [exact H2|]. split.
    + apply H3; [now left|discriminate].
    + apply H4; [simpl; intuition discriminate|discriminate].
Defined.

(** X4. [update_document] adds, removes and renames nothing: the collection
    keeps its identifiers in place, every other collection is as it was, a
    document under another identifier reads as before, and an identifier
    that the [ObjectId] constructor refuses raises [InvalidId] with every
    collection as it was. *)
Theorem update_document_frame_rule :
  forall (name id : string) (upd : dict) (w : World),
    map doc_id (stored (snd (update_document name id upd w)) name)
    = map doc_id (stored w name)
    /\ (forall n,
          n <> name ->
          stored (snd (update_document name id upd w)) n = stored w n)
    /\ (forall id2 oid oid2,
          parse_ObjectId id = Some oid ->
          parse_ObjectId id2 = Some oid2 ->
          oid2 <> oid ->
          fst (get_document_by_id name id2
                 (snd (update_document name id upd w)))
          = fst (get_document_by_id name id2 w))
    /\ (db w <> None ->
        parse_ObjectId id = None ->
        fst (update_document name id upd w) = Raise (InvalidId id)
        /\ forall n, stored (snd (update_document name id upd w)) n
                     = stored w n).
Proof.
  intros name id upd w.
  split; [|split; [intros n Hn; now apply update_document_frame|]].
  - destruct (db w) as [d|] eqn:Hd.
    + erewrite update_document_eq by exact Hd.
      rewrite (stored_db w name Hd).
      destruct (parse_ObjectId id) as [oid|].
      * destruct (Mongo.refused _); [unfold stored; cbn; reflexivity|].
        cbv zeta. cbn [snd]. rewrite stored_with_collection.
        rewrite String.eqb_refl. apply update_one_ids.
      * unfold stored. cbn. reflexivity.
    + now rewrite (update_document_no_db name id upd w Hd).
  - split.
    + intros id2 oid oid2 Hp Hp2 Hne.
      destruct (db w) as [d|] eqn:Hd.
      * erewrite update_document_eq by exact Hd. rewrite Hp.
        destruct (Mongo.refused _).
        { cbn [snd]. rewrite !get_document_by_id_found.
          cbn [db]. rewrite Hd. unfold stored. cbn [db]. now rewrite Hd. }
        cbv zeta. cbn [snd]. rewrite !get_document_by_id_found.
        cbn [db]. rewrite Hd, Hp2.
        rewrite stored_with_collection, String.eqb_refl.
        rewrite (stored_db w name Hd).
        now rewrite update_one_other.
      * now rewrite (update_document_no_db name id upd w Hd).
    + intros Hdb Hp. destruct (db w) as [d|] eqn:Hd; [|contradiction].
      erewrite update_document_eq by exact Hd. rewrite Hp.
      split; [reflexivity|]. intros n. unfold stored. cbn [snd db].
      now rewrite Hd.
Qed.

(** ** Delete *)

Lemma delete_one_not_found (c : Collection) (oid : ObjectId) :
  Mongo.find_one c oid = None -> Query.delete_one c oid = (c, 0).
Proof.
  unfold Mongo.find_one.
  induction c as [|d c IH]; cbn [find Query.delete_one]; [reflexivity|].
  destruct (Mongo.has_id oid d); [discriminate|].
  intros H. now rewrite (IH H).
Qed.

Lemma delete_one_found (c : Collection) (oid : ObjectId) (doc : Document) :
  Mongo.find_one c oid = Some doc ->
  exists c1 c2,
    c = c1 ++ doc :: c2
    /\ Mongo.find_one c1 oid = None
    /\ Query.delete_one c oid = (c1 ++ c2, 1).
Proof.
  unfold Mongo.find_one.
  induction c as [|d c IH]; cbn [find Query.delete_one]; [discriminate|].
  destruct (Mongo.has_id oid d) eqn:E.
  - intros [= ->]. exists [], c. auto.
  - intros H. destruct (IH H) as [c1 [c2 [-> [Hn Hdel]]]].
    exists (d :: c1), c2. rewrite Hdel. cbn [find app].
    rewrite E. auto.
Qed.

Lemma delete_one_other (c : Collection) (oid oid2 : ObjectId) :
  oid2 <> oid ->
  Mongo.find_one (fst (Query.delete_one c oid)) oid2 = Mongo.find_one c oid2.
Proof.
  intros Hne. unfold Mongo.find_one.
  induction c as [|d c IH]; cbn [Query.delete_one]; [reflexivity|].
  destruct (Mongo.has_id oid d) eqn:E.
  - cbn [fst find]. apply oid_eqb_eq in E.
    unfold Mongo.has_id. destruct (oid_eqb (doc_id d) oid2) eqn:E2;
      [|reflexivity].
    apply oid_eqb_eq in E2. congruence.
  - destruct (Query.delete_one c oid) as [c'' n]. cbn [fst find] in *.
    now rewrite IH.
Qed.

Lemma delete_document_eq (name id : string) (w : World) d :
  db w = Some d ->
  delete_document name id w
  = match parse_ObjectId id with
    | None => (Raise (InvalidId id), w)
    | Some oid =>
        let r := Query.delete_one (d name) oid in
        (Ok (0 <? snd r),
         MkWorld (Some (with_collection d name (fst r))) (clock w) (ticks w)
           (oid_source w) (issued w))
    end.
Proof.
  intros Hd. destruct w as [o clk t src n]. simpl in Hd. subst o.
  unfold delete_document, bind, get_db, to_object_id, Mongo.new_ObjectId.
  cbn [db]. destruct (parse_ObjectId id) as [oid|]; [|reflexivity].
  cbn. destruct (Query.delete_one (d name) oid). reflexivity.
Qed.

Lemma delete_document_Ok (name id : string) (w w' : World) (b : bool) :
  delete_document name id w = (Ok b, w') ->
  exists d oid,
    db w = Some d
    /\ parse_ObjectId id = Some oid
    /\ b = (0 <? snd (Query.delete_one (d name) oid))
    /\ w' = MkWorld
              (Some (with_collection d name
                       (fst (Query.delete_one (d name) oid))))
              (clock w) (ticks w) (oid_source w) (issued w).
Proof.
  intros H. destruct (db w) as [d|] eqn:Hd.
  - erewrite delete_document_eq in H by exact Hd.
    destruct (parse_ObjectId id) as [oid|]; [|discriminate].
    cbv zeta in H. injection H as <- <-. exists d, oid. auto.
  - unfold delete_document, bind, get_db in H. rewrite Hd in H.
    discriminate.
Qed.

(** X5. [delete_document] answers true exactly when the identifier was
    stored; afterwards, in a collection with one document per identifier,
    nothing is read under that identifier, while every other identifier
    and every other collection reads as before. *)
Theorem delete_document_removes :
  forall (name id : string) (w w' : World) (b : bool),
    delete_document name id w = (Ok b, w') ->
    unique_ids (stored w name) ->
    (b = true <->
     exists doc, fst (get_document_by_id name id w) = Ok (Some doc))
    /\ get_document_by_id name id w' = (Ok None, w')
    /\ (forall id2 oid oid2,
          parse_ObjectId id = Some oid ->
          parse_ObjectId id2 = Some oid2 ->
          oid2 <> oid ->
          fst (get_document_by_id name id2 w')
          = fst (get_document_by_id name id2 w))
    /\ (forall n, n <> name -> stored w' n = stored w n).
Proof.
  intros name id w w' b H Hu. apply delete_document_Ok in H.
  destruct H as [d [oid [Hd [Hp [-> ->]]]]].
  rewrite (stored_db w name Hd) in Hu.
  split; [|split; [|split]].
  - rewrite get_document_by_id_found, Hd, Hp, (stored_db w name Hd).
    destruct (Mongo.find_one (d name) oid) as [doc|] eqn:Hf.
    + destruct (delete_one_found _ _ Hf) as [c1 [c2 [_ [_ ->]]]].
      cbn. split; eauto.
    + rewrite (delete_one_not_found _ _ Hf). cbn.
      split; [discriminate|intros [doc Hdoc]; discriminate].
  - erewrite get_document_by_id_eq by reflexivity. rewrite Hp.
    unfold with_collection. rewrite String.eqb_refl.
    destruct (Mongo.find_one (d name) oid) as [doc|] eqn:Hf.
    + destruct (delete_one_found _ _ Hf) as [c1 [c2 [Hc [Hn ->]]]].
      cbn [fst]. rewrite find_one_app, Hn.
      apply find_one_id in Hf. destruct Hf as [_ Hid].
      unfold unique_ids in Hu. rewrite Hc, map_app in Hu. cbn [map] in Hu.
      apply NoDup_remove_2 in Hu.
      destruct (Mongo.find_one c2 oid) as [doc2|] eqn:Hf2; [|reflexivity].
      exfalso. apply Hu. apply in_or_app. right.
      apply find_one_id in Hf2. destruct Hf2 as [Hin2 Hid2].
      rewrite Hid, <- Hid2. now apply in_map.
    + rewrite (delete_one_not_found _ _ Hf). cbn [fst]. now rewrite Hf.
  - intros id2 oid0 oid2 Hp0 Hp2 Hne.
    rewrite Hp in Hp0. injection Hp0 as <-.
    rewrite !get_document_by_id_found. cbn [db]. rewrite Hd, Hp2.
    rewrite stored_with_collection, String.eqb_refl.
    rewrite (stored_db w name Hd). now rewrite delete_one_other.
  - intros n Hn. rewrite stored_with_collection.
    apply String.eqb_neq in Hn. rewrite Hn. now rewrite (stored_db w n Hd).
Qed.

Lemma demo_delete :
  exists w',
    delete_document "menuitem" Demo.lassi_id Demo.world = (Ok true, w').
Proof.
  exists (snd (delete_document "menuitem" Demo.lassi_id Demo.world)).
  destruct (delete_document "menuitem" Demo.lassi_id Demo.world)
    as [r w] eqn:E.
  apply (f_equal fst) in E. vm_compute in E. now subst r.
Qed.

Lemma delete_document_removes_witness :
  exists w',
    delete_document "menuitem" Demo.lassi_id Demo.world = (Ok true, w')
    /\ unique_ids (stored Demo.world "menuitem")
    /\ get_document_by_id "menuitem" Demo.lassi_id w' = (Ok None, w').
Proof.
  destruct demo_delete as [w' H]. exists w'.
  split; [exact H|]. split; [exact demo_menu_ids|].
  exact (proj1 (proj2 (delete_document_removes _ _ _ H demo_menu_ids))).
Defined.

Lemma with_collection_same (d : Database) (name : string) (c : Collection) :
  with_collection d name c name = c.
Proof. unfold with_collection. now rewrite String.eqb_refl. Qed.

Lemma delete_one_app_fresh (c : Collection) (oid : ObjectId) (f : dict) :
  Mongo.find_one c oid = None ->
  Query.delete_one (c ++ [Doc oid f]) oid = (c, 1).
Proof.
  unfold Mongo.find_one.
  induction c as [|d c IH]; cbn [app find Query.delete_one].
  - intros _. unfold Mongo.has_id. cbn [doc_id]. now rewrite oid_eqb_refl.
  - destruct (Mongo.has_id oid d); [discriminate|].
    intros H. now rewrite (IH H).
Qed.

(** X6. Deleting a document under the identifier [create_document] has
    just returned for a document without an [_id] of its own succeeds,
    leaves nothing to read under that identifier and gives every collection
    the content it had before the insertion. *)
Theorem create_then_delete :
  forall (name : string) (data : dict) (w w1 : World) (id : string),
    PyDict.get data "_id" = None ->
    create_document name data w = (Ok id, w1) ->
    exists w2,
      delete_document name id w1 = (Ok true, w2)
      /\ get_document_by_id name id w2 = (Ok None, w2)
      /\ forall n, stored w2 n = stored w n.
Proof.
  intros name data w w1 id _ H. apply create_document_Ok in H.
  destruct H as [d [Hd [Hfresh [-> ->]]]].
  eexists. erewrite delete_document_eq by reflexivity.
  unfold next_oid at 1. rewrite oid_of_N_canonical. fold (next_oid w).
  cbv zeta. rewrite with_collection_same.
  rewrite (@delete_one_app_fresh (d name) (next_oid w) (stamped data w)
             Hfresh).
  cbn [fst snd]. split; [reflexivity|]. split.
  - erewrite get_document_by_id_eq by reflexivity.
    unfold next_oid at 1. rewrite oid_of_N_canonical. fold (next_oid w).
    rewrite with_collection_same. now rewrite Hfresh.
  - intros n. rewrite stored_with_collection, (stored_db w n Hd).
    destruct (String.eqb n name) eqn:E.
    + apply String.eqb_eq in E. now subst.
    + unfold with_collection. now rewrite E.
Qed.

Lemma create_then_delete_witness :
  exists w1 w2,
    PyDict.get [("name", VStr "Raita")] "_id" = None
    /\ create_document "menuitem" [("name", VStr "Raita")] Demo.world
       = (Ok "000000000000000000001000", w1)
    /\ delete_document "menuitem" "000000000000000000001000" w1
       = (Ok true, w2)
    /\ get_document_by_id "menuitem" "000000000000000000001000" w2
       = (Ok None, w2)
    /\ forall n, stored w2 n = stored Demo.world n.
Proof.
  destruct demo_menu_insert as [w1 H]. exists w1.
  destruct (@create_then_delete "menuitem" [("name", VStr "Raita")]
              Demo.world w1 "000000000000000000001000" eq_refl H)
    as [w2 H2].
  exists w2. split; [reflexivity|]. split; [exact H|exact H2].
Defined.

(** * Further properties of the handlers *)

(** ** The effect of the adapter's writes *)

Lemma unchanged_refl (w : World) : unchanged w w.
Proof. split; [tauto|reflexivity]. Qed.

Lemma unchanged_counters (w : World) d t n :
  db w = Some d ->
  unchanged w (MkWorld (Some d) (clock w) t (oid_source w) n).
Proof.
  intros Hd. split.
  - cbn [db]. rewrite Hd. tauto.
  - intros m. unfold stored. cbn [db]. now rewrite Hd.
Qed.

Lemma create_document_effect (name : string) (data : dict) (w : World) :
  match fst (create_document name data w) with
  | Ok id =>
      id = str_oid (next_oid w)
      /\ appended name (Doc (next_oid w) (stamped data w)) w
           (snd (create_document name data w))
  | Raise _ => unchanged w (snd (create_document name data w))
  end.
Proof.
  destruct (db w) as [d|] eqn:Hd.
  - erewrite create_document_eq by exact Hd.
    destruct (Mongo.refused _); [now apply unchanged_counters|].
    destruct (Mongo.find_one (d name) (next_oid w)) eqn:Hf; cbn [fst snd].
    + now apply unchanged_counters.
    + split; [reflexivity|]. unfold appended. cbn [doc_id].
      rewrite Hd, (stored_db w name Hd).
      split; [discriminate|]. split; [discriminate|].
      split; [now apply find_one_absent|].
      split.
      * rewrite stored_inserted. now rewrite String.eqb_refl.
      * intros n Hn. rewrite stored_inserted.
        apply String.eqb_neq in Hn. rewrite Hn.
        now rewrite (stored_db w n Hd).
  - destruct (create_document_no_db name data w Hd) as [e He].
    rewrite He. cbn [fst snd]. apply unchanged_refl.
Qed.

Lemma named_in_false (keys : list string) (k : string) :
  named_in keys k = false -> ~ In k keys.
Proof.
  unfold named_in. intros H Hin.
  assert (existsb (String.eqb k) keys = true).
  { apply existsb_exists. exists k. split; [assumption|].
    apply String.eqb_refl. }
  congruence.
Qed.

Lemma update_document_effect (name id : string) (upd : dict) (w : World) :
  rewritten name (named_in ("updated_at" :: PyDict.keys upd)) w
    (snd (update_document name id upd w)).
Proof.
  assert (Hrefl : forall c : Collection,
             Forall2
               (fun a b =>
                  doc_id b = doc_id a
                  /\ forall k,
                      named_in ("updated_at" :: PyDict.keys upd) k = false ->
                      PyDict.get (doc_fields b) k
                      = PyDict.get (doc_fields a) k) c c).
  { induction c; constructor; auto. }
  split; [apply update_document_keeps_db|].
  split; [|intros n Hn; now apply update_document_frame].
  destruct (db w) as [d|] eqn:Hd.
  2:{ rewrite (update_document_no_db name id upd w Hd). apply Hrefl. }
  erewrite update_document_eq by exact Hd.
  destruct (parse_ObjectId id) as [oid|].
  2:{ unfold stored. cbn [snd db]. rewrite Hd. apply Hrefl. }
  destruct (Mongo.refused _).
  { unfold stored. cbn [snd db]. rewrite Hd. apply Hrefl. }
  cbv zeta. cbn [snd]. rewrite stored_with_collection, String.eqb_refl.
  rewrite (stored_db w name Hd).
  eapply Forall2_impl; [|apply update_one_Forall2].
  intros a b [->|[Hid Hf]]; [auto|].
  split; [assumption|]. intros k Hk. rewrite Hf.
  apply PyDictFacts.get_update_other. intros Hin.
  apply named_in_false in Hk. apply Hk.
  apply PyDictFacts.keys_set in Hin. destruct Hin as [Hin| ->].
  - now right.
  - now left.
Qed.

Lemma rewritten_weaken (name : string) (mc mc' : string -> bool)
  (w w' : World) :
  (forall k, mc' k = false -> mc k = false) ->
  rewritten name mc w w' -> rewritten name mc' w w'.
Proof.
  intros Hmc [Hdb [Hf Hn]]. split; [assumption|]. split; [|assumption].
  eapply Forall2_impl; [|exact Hf].
  intros a b [Hid Hk]. split; [assumption|]. intros k Hk'. apply Hk.
  now apply Hmc.
Qed.

(** ** The effect of each handler *)

Lemma update_menu_item_effect (item_id : string) (payload : MenuUpdate)
  (w : World) :
  effect w (snd (update_menu_item item_id payload w)).
Proof.
  apply eff_menu_changed. rewrite update_menu_item_world.
  eapply rewritten_weaken; [|apply update_document_effect].
  intros k Hk. discriminate.
Qed.

Lemma set_order_status_world (order_id : string)
  (payload : OrderStatusUpdate) (w : World) :
  snd (set_order_status order_id payload w)
  = snd (update_document "order" order_id
           [("status", VStr (OrderStatus_str (osu_status payload)))] w).
Proof.
  unfold set_order_status, bind.
  destruct (update_document "order" order_id _ w) as [[[|]|e] w'];
    reflexivity.
Qed.

Lemma volatile_named (k key : string) :
  key = "status" \/ key = "payment_status" ->
  volatile k = false -> named_in ["updated_at"; key] k = false.
Proof.
  unfold volatile, named_in. cbn [existsb].
  intros Hkey Hv. apply orb_false_elim in Hv. destruct Hv as [Hv H3].
  apply orb_false_elim in Hv. destruct Hv as [H1 H2].
  rewrite H3. destruct Hkey as [-> | ->]; [rewrite H1|rewrite H2];
    reflexivity.
Qed.

Lemma set_order_status_effect (order_id : string)
  (payload : OrderStatusUpdate) (w : World) :
  effect w (snd (set_order_status order_id payload w)).
Proof.
  apply eff_order_changed. rewrite set_order_status_world.
  eapply rewritten_weaken; [|apply update_document_effect].
  intros k Hk. apply volatile_named; auto.
Qed.

Lemma confirm_mock_payment_world (payload : PaymentConfirm) (w : World) :
  snd (confirm_mock_payment payload w) = w
  \/ snd (confirm_mock_payment payload w)
     = snd (update_document "order" (pc_order_id payload)
              [("payment_status",
                VStr (payment_status_of (pc_status payload)))] w).
Proof.
  unfold confirm_mock_payment, bind.
  pose proof (get_document_by_id_pure "order" (pc_order_id payload) w) as Hw.
  destruct (get_document_by_id "order" (pc_order_id payload) w)
    as [[[o|]|e] w1]; cbn [snd] in Hw; subst w1; auto.
  right. destruct (pc_status payload); cbn [payment_status_of];
    destruct (update_document "order" (pc_order_id payload) _ w)
      as [[b|e] w']; reflexivity.
Qed.

Lemma confirm_mock_payment_effect (payload : PaymentConfirm) (w : World) :
  effect w (snd (confirm_mock_payment payload w)).
Proof.
  destruct (confirm_mock_payment_world payload w) as [-> | ->].
  - apply eff_none, unchanged_refl.
  - apply eff_order_changed.
    eapply rewritten_weaken; [|apply update_document_effect].
    intros k Hk. apply volatile_named; auto.
Qed.

Lemma get_order_pure (order_id : string) (w : World) :
  snd (get_order order_id w) = w.
Proof.
  unfold get_order, bind.
  pose proof (get_document_by_id_pure "order" order_id w) as Hw.
  destruct (get_document_by_id "order" order_id w) as [[[o|]|e] w1];
    cbn [snd] in *; assumption.
Qed.

Lemma create_menu_item_effect (payload : MenuCreate) (w : World) :
  effect w (snd (create_menu_item payload w)).
Proof.
  pose proof (create_document_effect "menuitem"
                (MenuCreate_model_dump payload) w) as H.
  unfold create_menu_item, bind.
  destruct (create_document "menuitem" (MenuCreate_model_dump payload) w)
    as [[id|e] w1]; cbn [fst snd] in *.
  - destruct H as [_ H]. eapply eff_menu_added. exact H.
  - now apply eff_none.
Qed.

Lemma appended_then_unchanged (name : string) (doc : Document)
  (w w1 w2 : World) :
  appended name doc w w1 -> unchanged w1 w2 -> appended name doc w w2.
Proof.
  intros [H1 [H2 [H3 [H4 H5]]]] [Hdb Hst].
  split; [assumption|]. split; [tauto|]. split; [assumption|].
  split; [now rewrite Hst|]. intros n Hn. rewrite Hst. now apply H5.
Qed.

Lemma persist_order_effect (payload : OrderCreate)
  (order_items : list value) (subtotal : float) (w : World) :
  effect w (snd (persist_order payload order_items subtotal w)).
Proof.
  pose proof (create_document_effect "order"
                (order_doc payload order_items subtotal) w) as H.
  unfold persist_order, bind, ret.
  destruct (create_document "order"
              (order_doc payload order_items subtotal) w)
    as [[order_id|e] w1]; cbn [fst snd] in *.
  2:{ now apply eff_none. }
  destruct H as [-> Hord].
  destruct (payment_method payload) eqn:Epm.
  2:{ cbn [snd]. eapply eff_order_placed. exact Hord. }
  pose proof (create_document_effect "paymentrecord"
                (payment_doc (str_oid (next_oid w)) subtotal) w1) as H.
  destruct (create_document "paymentrecord"
              (payment_doc (str_oid (next_oid w)) subtotal) w1)
    as [[pid|e] w2]; cbn [fst snd] in *.
  2:{ eapply eff_order_placed. eapply appended_then_unchanged; eassumption. }
  destruct H as [_ [P1 [P2 [P3 [P4 P5]]]]].
  destruct Hord as [O1 [O2 [O3 [O4 O5]]]].
  eapply eff_order_paid with
    (order := Doc (next_oid w)
                (stamped (order_doc payload order_items subtotal) w))
    (rec := Doc (next_oid w1)
              (stamped (payment_doc (str_oid (next_oid w)) subtotal) w1)).
  unfold order_paid. cbn [doc_id doc_fields] in *.
  split; [assumption|]. split; [assumption|]. split; [assumption|].
  split.
  { rewrite <- (O5 "paymentrecord") by discriminate. assumption. }
  split.
  { rewrite (P5 "order") by discriminate. assumption. }
  split.
  { rewrite P4. now rewrite (O5 "paymentrecord") by discriminate. }
  split; [reflexivity|].
  split.
  { unfold order_doc. rewrite Epm. reflexivity. }
  intros n H1 H2. rewrite (P5 n) by assumption. now apply O5.
Qed.

Lemma create_order_world (float_of_str : string -> option float)
  (payload : OrderCreate) (w : World) :
  snd (create_order float_of_str payload w) = w
  \/ exists order_items subtotal,
       snd (create_order float_of_str payload w)
       = snd (persist_order payload order_items subtotal w).
Proof.
  destruct (db w) as [d|] eqn:Hd.
  2:{ rewrite (create_order_no_db float_of_str payload w Hd). now left. }
  rewrite (create_order_eq float_of_str payload w Hd).
  destruct (parse_ids (map item_id (items payload))); [|now left].
  cbv zeta. destruct (price_map_of float_of_str _ []); [|now left].
  destruct (price_lines _ _ (items payload) [] 0%float) as [[oi s]|e];
    [|now left].
  right. eauto.
Qed.

Lemma create_order_effect (float_of_str : string -> option float)
  (payload : OrderCreate) (w : World) :
  effect w (snd (create_order float_of_str payload w)).
Proof.
  destruct (create_order_world float_of_str payload w)
    as [-> | [oi [s ->]]].
  - apply eff_none, unchanged_refl.
  - apply persist_order_effect.
Qed.

(** ** What every request keeps *)

Lemma Forall2_refl {A} (R : A -> A -> Prop) (l : list A) :
  (forall a, R a a) -> Forall2 R l l.
Proof. intros H. induction l; constructor; auto. Qed.

Lemma Forall2_trans {A} (R : A -> A -> Prop) (l1 l2 l3 : list A) :
  (forall a b c, R a b -> R b c -> R a c) ->
  Forall2 R l1 l2 -> Forall2 R l2 l3 -> Forall2 R l1 l3.
Proof.
  intros Ht H12. revert l3.
  induction H12 as [|a b l1 l2 Hab _ IH]; intros l3 H23;
    inversion H23; subst; constructor; eauto.
Qed.

Lemma extends_refl (R : Document -> Document -> Prop) (c : Collection) :
  (forall a, R a a) -> extends R c c.
Proof.
  intros H. exists c, []. rewrite app_nil_r.
  split; [reflexivity|now apply Forall2_refl].
Qed.

Lemma extends_eq (R : Document -> Document -> Prop) (c c' : Collection) :
  (forall a, R a a) -> c' = c -> extends R c c'.
Proof. intros H ->. now apply extends_refl. Qed.

Lemma extends_trans (R : Document -> Document -> Prop)
  (c1 c2 c3 : Collection) :
  (forall a b c, R a b -> R b c -> R a c) ->
  extends R c1 c2 -> extends R c2 c3 -> extends R c1 c3.
Proof.
  intros Ht [k1 [a1 [-> H1]]] [k2 [a2 [-> H2]]].
  apply Forall2_app_inv_l in H2.
  destruct H2 as [k2a [k2b [Ha [Hb ->]]]].
  exists k2a, (k2b ++ a2). rewrite app_assoc. split; [reflexivity|].
  eapply Forall2_trans; eassumption.
Qed.

Lemma extends_app (R : Document -> Document -> Prop) (c added : Collection) :
  (forall a, R a a) -> extends R c (c ++ added).
Proof.
  intros H. exists c, added. split; [reflexivity|now apply Forall2_refl].
Qed.

Lemma extends_Forall2 (R : Document -> Document -> Prop)
  (c c' : Collection) :
  Forall2 R c c' -> extends R c c'.
Proof. intros H. exists c', []. now rewrite app_nil_r. Qed.

Lemma same_snapshot_refl (a : Document) : same_snapshot a a.
Proof. split; auto. Qed.

Lemma same_snapshot_trans (a b c : Document) :
  same_snapshot a b -> same_snapshot b c -> same_snapshot a c.
Proof.
  intros [H1 H2] [H3 H4]. split; [congruence|].
  intros k Hk. rewrite H4, H2; auto.
Qed.

Lemma history_refl (w : World) : history w w.
Proof.
  split; [tauto|]. repeat split.
  - apply extends_refl, same_snapshot_refl.
  - now apply extends_refl.
  - apply extends_refl. reflexivity.
Qed.

Lemma history_trans (w1 w2 w3 : World) :
  history w1 w2 -> history w2 w3 -> history w1 w3.
Proof.
  intros [A1 [A2 [A3 A4]]] [B1 [B2 [B3 B4]]].
  split; [tauto|]. repeat split.
  - eapply extends_trans; [apply same_snapshot_trans| |]; eassumption.
  - eapply extends_trans; [|eassumption|eassumption].
    intros; congruence.
  - eapply extends_trans; [|eassumption|eassumption].
    unfold same_id. intros; congruence.
Qed.

Lemma effect_history (w w' : World) : effect w w' -> history w w'.
Proof.
  intros [[Hdb Hst] | doc [H1 [H2 [H3 [H4 H5]]]] | [Hdb [Hf Hn]]
         | [Hdb [Hf Hn]] | order [H1 [H2 [H3 [H4 H5]]]]
         | order rec [H1 [H2 [H3 [H4 [H5 [H6 [H7 [H8 H9]]]]]]]]].
  - split; [assumption|]. rewrite !Hst. repeat split.
    + apply extends_refl, same_snapshot_refl.
    + now apply extends_refl.
    + apply extends_refl. reflexivity.
  - split; [tauto|]. repeat split.
    + apply extends_eq; [apply same_snapshot_refl|]. apply H5. discriminate.
    + apply extends_eq; [reflexivity|]. apply H5. discriminate.
    + rewrite H4. apply extends_app. reflexivity.
  - split; [assumption|]. repeat split.
    + apply extends_eq; [apply same_snapshot_refl|]. apply Hn. discriminate.
    + apply extends_eq; [reflexivity|]. apply Hn. discriminate.
    + apply extends_Forall2. eapply Forall2_impl; [|exact Hf].
      intros a b [Hid _]. exact Hid.
  - split; [assumption|]. repeat split.
    + apply extends_Forall2. exact Hf.
    + apply extends_eq; [reflexivity|]. apply Hn. discriminate.
    + apply extends_eq; [reflexivity|]. apply Hn. discriminate.
  - split; [tauto|]. repeat split.
    + rewrite H4. apply extends_app, same_snapshot_refl.
    + apply extends_eq; [reflexivity|]. apply H5. discriminate.
    + apply extends_eq; [reflexivity|]. apply H5. discriminate.
  - split; [tauto|]. repeat split.
    + rewrite H5. apply extends_app, same_snapshot_refl.
    + rewrite H6. now apply extends_app.
    + apply extends_eq; [reflexivity|]. apply H9; discriminate.
Qed.

Lemma Forall2_same_ids (P : Document -> Document -> Prop)
  (c c' : Collection) :
  Forall2 (fun a b => doc_id b = doc_id a /\ P a b) c c' ->
  map doc_id c' = map doc_id c.
Proof.
  induction 1 as [|a b c c' [Hid _] _ IH]; cbn [map]; congruence.
Qed.

Lemma unique_ids_app (c : Collection) (doc : Document) :
  unique_ids c -> ~ In (doc_id doc) (map doc_id c) ->
  unique_ids (c ++ [doc]).
Proof.
  unfold unique_ids. intros Hu Hn. rewrite map_app. cbn [map].
  apply NoDup_app; [assumption|repeat constructor; tauto|].
  intros x Hx [<-|[]]. contradiction.
Qed.

Lemma effect_unique (w w' : World) :
  effect w w' -> store_unique w -> store_unique w'.
Proof.
  unfold store_unique.
  intros [[Hdb Hst] | doc [H1 [H2 [H3 [H4 H5]]]] | [Hdb [Hf Hn]]
         | [Hdb [Hf Hn]] | order [H1 [H2 [H3 [H4 H5]]]]
         | order rec [H1 [H2 [H3 [H4 [H5 [H6 [H7 [H8 H9]]]]]]]]] Hu name.
  - now rewrite Hst.
  - destruct (String.eqb name "menuitem") eqn:E.
    + apply String.eqb_eq in E. subst name. rewrite H4.
      now apply unique_ids_app.
    + apply String.eqb_neq in E. now rewrite H5.
  - destruct (String.eqb name "menuitem") eqn:E.
    + apply String.eqb_eq in E. subst name. unfold unique_ids.
      rewrite (Forall2_same_ids _ Hf). apply Hu.
    + apply String.eqb_neq in E. now rewrite Hn.
  - destruct (String.eqb name "order") eqn:E.
    + apply String.eqb_eq in E. subst name. unfold unique_ids.
      rewrite (Forall2_same_ids _ Hf). apply Hu.
    + apply String.eqb_neq in E. now rewrite Hn.
  - destruct (String.eqb name "order") eqn:E.
    + apply String.eqb_eq in E. subst name. rewrite H4.
      now apply unique_ids_app.
    + apply String.eqb_neq in E. now rewrite H5.
  - destruct (String.eqb name "order") eqn:E.
    { apply String.eqb_eq in E. subst name. rewrite H5.
      now apply unique_ids_app. }
    destruct (String.eqb name "paymentrecord") eqn:E2.
    { apply String.eqb_eq in E2. subst name. rewrite H6.
      now apply unique_ids_app. }
    apply String.eqb_neq in E. apply String.eqb_neq in E2.
    now rewrite H9.
Qed.

Lemma Forall2_In_l {A B} (R : A -> B -> Prop) (l : list A) (l' : list B)
  (a : A) :
  Forall2 R l l' -> In a l -> exists b, In b l' /\ R a b.
Proof.
  induction 1 as [|x y l l' Hxy _ IH]; intros Hin; [destruct Hin|].
  destruct Hin as [->|Hin].
  - exists y. split; [now left|assumption].
  - destruct (IH Hin) as [b [Hb Hr]]. exists b. split; [now right|assumption].
Qed.

Lemma payments_sound_orders (w w' : World) :
  stored w' "paymentrecord" = stored w "paymentrecord" ->
  (forall order,
      In order (stored w "order") ->
      exists order',
        In order' (stored w' "order")
        /\ doc_id order' = doc_id order
        /\ PyDict.get (doc_fields order') "payment_method"
           = PyDict.get (doc_fields order) "payment_method") ->
  payments_sound w -> payments_sound w'.
Proof.
  intros Hp Ho [Hnd Hs]. split; [now rewrite Hp|].
  intros rec Hrec. rewrite Hp in Hrec.
  destruct (Hs rec Hrec) as [order [Hin [Href Hm]]].
  destruct (Ho order Hin) as [order' [Hin' [Hid Hm']]].
  exists order'. split; [assumption|]. rewrite Hid, Hm'. auto.
Qed.

Lemma effect_payments (w w' : World) :
  effect w w' -> payments_sound w -> payments_sound w'.
Proof.
  intros [[Hdb Hst] | doc [H1 [H2 [H3 [H4 H5]]]] | [Hdb [Hf Hn]]
         | [Hdb [Hf Hn]] | order [H1 [H2 [H3 [H4 H5]]]]
         | order rec [H1 [H2 [H3 [H4 [H5 [H6 [H7 [H8 H9]]]]]]]]].
  - apply payments_sound_orders; [apply Hst|].
    intros order Hin. exists order. rewrite Hst. auto.
  - apply payments_sound_orders; [apply H5; discriminate|].
    intros order Hin. exists order. rewrite H5 by discriminate. auto.
  - apply payments_sound_orders; [apply Hn; discriminate|].
    intros order Hin. exists order. rewrite Hn by discriminate. auto.
  - apply payments_sound_orders; [apply Hn; discriminate|].
    intros order Hin.
    destruct (Forall2_In_l _ Hf Hin) as [b [Hb [Hid Hk]]].
    exists b. split; [assumption|]. split; [assumption|].
    apply Hk. reflexivity.
  - apply payments_sound_orders; [apply H5; discriminate|].
    intros o Hin. exists o. rewrite H4.
    split; [apply in_or_app; now left|auto].
  - intros [Hnd Hs]. split.
    + rewrite H6, map_app. cbn [map].
      apply NoDup_app; [assumption|repeat constructor; tauto|].
      intros x Hx [<-|[]].
      apply in_map_iff in Hx. destruct Hx as [rec0 [Href0 Hrec0]].
      destruct (Hs rec0 Hrec0) as [order0 [Hin0 [Href Hm]]].
      rewrite Href0, H7 in Href. injection Href as Href.
      apply H3. apply in_map_iff. exists order0.
      split; [|assumption].
      destruct (doc_id order0), (doc_id order). cbn in Href. congruence.
    + intros rec' Hrec'. rewrite H6 in Hrec'.
      apply in_app_or in Hrec'. destruct Hrec' as [Hold|[<-|[]]].
      * destruct (Hs rec' Hold) as [order0 [Hin0 [Href Hm]]].
        exists order0. rewrite H5.
        split; [apply in_or_app; now left|auto].
      * exists order. rewrite H5.
        split; [apply in_or_app; right; now left|auto].
Qed.

(** ** Any series of requests *)

Lemma find_one_Forall2 (R : Document -> Document -> Prop)
  (c c' : Collection) (oid : ObjectId) (a : Document) :
  (forall x y, R x y -> doc_id y = doc_id x) ->
  Forall2 R c c' ->
  Mongo.find_one c oid = Some a ->
  exists b, Mongo.find_one c' oid = Some b /\ R a b.
Proof.
  intros Hid H. unfold Mongo.find_one.
  induction H as [|x y c c' Hxy _ IH]; cbn [find]; [discriminate|].
  unfold Mongo.has_id at 1 3. rewrite (Hid x y Hxy).
  destruct (oid_eqb (doc_id x) oid).
  - intros [= <-]. eauto.
  - exact IH.
Qed.

Lemma find_one_extends (R : Document -> Document -> Prop)
  (c c' : Collection) (oid : ObjectId) (a : Document) :
  (forall x y, R x y -> doc_id y = doc_id x) ->
  extends R c c' ->
  Mongo.find_one c oid = Some a ->
  exists b, Mongo.find_one c' oid = Some b /\ R a b.
Proof.
  intros Hid [kept [added [-> Hf]]] Ha.
  destruct (find_one_Forall2 oid Hid Hf Ha) as [b [Hb Hr]].
  exists b. rewrite find_one_app, Hb. auto.
Qed.

Section Requests.

Variable float_of_str : string -> option float.
Variable cursor_sort : SortSpec -> list Document -> list Document.
Variable cursor_limit : Z -> list Document -> list Document.
Variable float_total : list float -> float.

Lemma get_documents_pure (name : string) (filt : option Filter)
  (limit : option Z) (sort : option SortSpec) (w : World) :
  snd (get_documents cursor_sort cursor_limit name filt limit sort w) = w.
Proof.
  unfold get_documents, bind, get_db. destruct (db w); reflexivity.
Qed.

Lemma list_menu_pure (category : option string) (w : World) :
  snd (list_menu cursor_sort cursor_limit category w) = w.
Proof.
  unfold list_menu, bind.
  match goal with
  | |- context [get_documents ?s ?l ?n ?f ?li ?so w] =>
      pose proof (get_documents_pure n f li so w) as H;
      destruct (get_documents s l n f li so w) as [[x|e] w1]
  end; cbn [snd] in *; assumption.
Qed.

Lemma list_orders_pure (table_id : option string) (w : World) :
  snd (list_orders cursor_sort cursor_limit table_id w) = w.
Proof.
  unfold list_orders, bind.
  match goal with
  | |- context [get_documents ?s ?l ?n ?f ?li ?so w] =>
      pose proof (get_documents_pure n f li so w) as H;
      destruct (get_documents s l n f li so w) as [[x|e] w1]
  end; cbn [snd] in *; assumption.
Qed.

Lemma admin_orders_pure (w : World) :
  snd (admin_orders cursor_sort cursor_limit w) = w.
Proof.
  unfold admin_orders, bind.
  match goal with
  | |- context [get_documents ?s ?l ?n ?f ?li ?so w] =>
      pose proof (get_documents_pure n f li so w) as H;
      destruct (get_documents s l n f li so w) as [[x|e] w1]
  end; cbn [snd] in *; assumption.
Qed.

Lemma admin_stats_pure (w : World) :
  snd (admin_stats float_of_str float_total w) = w.
Proof.
  unfold admin_stats, bind, db_item, lift.
  destruct (db w) as [d|]; [|reflexivity].
  destruct (map_result _ _); reflexivity.
Qed.

Lemma handle_effect (r : Request) (w : World) :
  effect w
    (snd (handle float_of_str cursor_sort cursor_limit float_total r w)).
Proof.
  destruct r; cbn [handle].
  - apply eff_none, unchanged_refl.
  - rewrite list_menu_pure. apply eff_none, unchanged_refl.
  - apply create_menu_item_effect.
  - apply update_menu_item_effect.
  - apply create_order_effect.
  - rewrite get_order_pure. apply eff_none, unchanged_refl.
  - rewrite list_orders_pure. apply eff_none, unchanged_refl.
  - apply set_order_status_effect.
  - apply confirm_mock_payment_effect.
  - rewrite admin_orders_pure. apply eff_none, unchanged_refl.
  - rewrite admin_stats_pure. apply eff_none, unchanged_refl.
Qed.

Lemma serve_invariant (P : World -> Prop) :
  (forall w w', effect w w' -> P w -> P w') ->
  forall reqs w,
    P w ->
    P (serve float_of_str cursor_sort cursor_limit float_total reqs w).
Proof.
  intros Hstep reqs. induction reqs as [|r reqs IH]; intros w Hw;
    cbn [serve]; [assumption|].
  apply IH. eapply Hstep; [apply handle_effect|assumption].
Qed.

Lemma serve_history (reqs : list Request) (w : World) :
  history w
    (serve float_of_str cursor_sort cursor_limit float_total reqs w).
Proof.
  revert w. induction reqs as [|r reqs IH]; intros w; cbn [serve].
  - apply history_refl.
  - eapply history_trans; [|apply IH].
    apply effect_history, handle_effect.
Qed.

(** X7. Whatever requests are served, in whatever order, a store that held
    one document per identifier in every collection still does. *)
Theorem serve_keeps_unique_ids :
  forall (reqs : list Request) (w : World),
    store_unique w ->
    store_unique
      (serve float_of_str cursor_sort cursor_limit float_total reqs w).
Proof.
  intros reqs w. apply serve_invariant. intros a b. apply effect_unique.
Qed.

(** X8. An order that GET /api/order/{id} returns is returned for ever:
    after any series of requests the same identifier still gives an order,
    with the same value under every key except status, payment_status and
    updated_at (so the same _id, table, items, subtotal, payment method,
    notes and creation time). *)
Theorem orders_survive :
  forall (reqs : list Request) (w : World) (order_id : string) (order : dict),
    fst (get_order order_id w) = Ok (VDict order) ->
    exists order',
      fst (get_order order_id
             (serve float_of_str cursor_sort cursor_limit float_total
                reqs w))
      = Ok (VDict order')
      /\ forall k,
          volatile k = false ->
          PyDict.get order' k = PyDict.get order k.
Proof.
  intros reqs w order_id order H.
  destruct (serve_history reqs w) as [Hdb [Ho _]].
  rewrite get_order_eq in *.
  destruct (db w) as [d|] eqn:Hd; [|discriminate].
  destruct (db (serve _ _ _ _ reqs w)) as [d'|] eqn:Hd'.
  2:{ destruct Hdb as [Hdb _]. discriminate (Hdb eq_refl). }
  destruct (parse_ObjectId order_id) as [oid|]; [|discriminate].
  destruct (Mongo.find_one (stored w "order") oid) as [a|] eqn:Ha;
    [|discriminate].
  injection H as <-.
  assert (Hids : forall x y, same_snapshot x y -> doc_id y = doc_id x).
  { now intros x y [Hxy _]. }
  destruct (find_one_extends oid Hids Ho Ha) as [b [Hb [Hid Hk]]].
  rewrite Hb. eexists. split; [reflexivity|].
  intros k Hv. unfold serialize_doc. cbn [PyDict.get].
  rewrite Hid. destruct (String.eqb "_id" k); [reflexivity|now apply Hk].
Qed.

(** X9. Payment records are written once: after any series of requests the
    paymentrecord collection is the one before, document for document,
    followed by the records added since. No request, the payment
    confirmation included, changes or removes a record. *)
Theorem payment_records_write_once :
  forall (reqs : list Request) (w : World),
    exists added,
      stored (serve float_of_str cursor_sort cursor_limit float_total
                reqs w) "paymentrecord"
      = stored w "paymentrecord" ++ added.
Proof.
  intros reqs w.
  destruct (serve_history reqs w) as [_ [_ [[kept [added [-> Hf]]] _]]].
  exists added. f_equal. symmetry.
  induction Hf; [reflexivity|]. now f_equal.
Qed.

(** X10. Whatever requests are served, payment records keep referring to
    distinct orders, each of them stored and placed with the online method:
    an order never has two payment records, and a cash order never has
    one. *)
Theorem serve_keeps_payments_sound :
  forall (reqs : list Request) (w : World),
    payments_sound w ->
    payments_sound
      (serve float_of_str cursor_sort cursor_limit float_total reqs w).
Proof.
  intros reqs w. apply serve_invariant. intros a b. apply effect_payments.
Qed.

(** X11. The API never removes a menu item: an item_id that names a menu
    document names one after any series of requests. *)
Theorem menu_items_survive :
  forall (reqs : list Request) (w : World) (item_id : string),
    resolves (stored w "menuitem") item_id ->
    resolves
      (stored (serve float_of_str cursor_sort cursor_limit float_total
                 reqs w) "menuitem") item_id.
Proof.
  intros reqs w item_id [oid [doc [Hp [Hin Hid]]]].
  destruct (serve_history reqs w) as [_ [_ [_ [kept [added [-> Hf]]]]]].
  destruct (Forall2_In_l _ Hf Hin) as [b [Hb Hsame]].
  exists oid, b. split; [assumption|].
  split; [apply in_or_app; now left|].
  unfold same_id in Hsame. congruence.
Qed.

End Requests.

Lemma demo_store_unique : store_unique Demo.world.
Proof.
  intros name. unfold stored, Demo.world, Demo.database. cbn [db].
  destruct (String.eqb name "menuitem").
  - exact demo_menu_ids.
  - constructor.
Qed.

Lemma serve_keeps_unique_ids_witness :
  store_unique Demo.world
  /\ store_unique (Service.run Service.evening Demo.world).
Proof.
  split; [exact demo_store_unique|].
  exact (serve_keeps_unique_ids Demo.no_float Service.keep_order
           Service.take Service.total Service.evening demo_store_unique).
Defined.

Lemma orders_survive_witness :
  exists order order',
    fst (get_order Demo.placed_id Demo.world_ordered) = Ok (VDict order)
    /\ fst (get_order Demo.placed_id
              (Service.run Service.evening Demo.world_ordered))
       = Ok (VDict order')
    /\ forall k,
        volatile k = false -> PyDict.get order' k = PyDict.get order k.
Proof.
  eexists.
  assert (H : fst (get_order Demo.placed_id Demo.world_ordered)
              = Ok (VDict
                      (serialize_doc
                         (Doc (Oid Demo.placed_id)
                            (stamped
                               (order_doc (Demo.order_body online)
                                  (map (line_doc
                                          (name_map_of Demo.menu))
                                     [ {| pl_item :=
                                            {| item_id := Demo.paneer_id;
                                               quantity := 2 |};
                                          pl_price := 120;
                                          pl_total := 240 |};
                                       {| pl_item :=
                                            {| item_id := Demo.lassi_id;
                                               quantity := 1 |};
                                          pl_price := 75.5;
                                          pl_total := 75.5 |} ])
                                  315.5) Demo.world))))).
  { vm_compute. reflexivity. }
  destruct (orders_survive Demo.no_float Service.keep_order Service.take
              Service.total Service.evening Demo.world_ordered
              Demo.placed_id H) as [order' H'].
  exists order'. split; [exact H|exact H'].
Defined.

Lemma demo_payments_sound : payments_sound Demo.world.
Proof.
  split.
  - constructor.
  - intros rec [].
Qed.

Lemma serve_keeps_payments_sound_witness :
  payments_sound Demo.world
  /\ payments_sound (Service.run Service.evening Demo.world).
Proof.
  split; [exact demo_payments_sound|].
  exact (serve_keeps_payments_sound Demo.no_float Service.keep_order
           Service.take Service.total Service.evening demo_payments_sound).
Defined.

Lemma menu_items_survive_witness :
  resolves (stored Demo.world "menuitem") Demo.paneer_id
  /\ resolves (stored (Service.run Service.evening Demo.world) "menuitem")
       Demo.paneer_id.
Proof.
  assert (H : resolves (stored Demo.world "menuitem") Demo.paneer_id).
  { apply resolvesb_spec. vm_compute. reflexivity. }
  split; [exact H|].
  exact (@menu_items_survive Demo.no_float Service.keep_order Service.take
           Service.total Service.evening Demo.world Demo.paneer_id H).
Defined.

(** The evening in [Service]: the order placed third is served, paid, and
    is the one order counted in the sales. *)
Example demo_evening :
  Service.answer GetAdminStats (Service.run Service.evening Demo.world)
  = Ok (VDict [ ("total_orders", VInt 2);
                ("paid_orders", VInt 1);
                ("total_sales", VFloat 315.5) ]).
Proof. vm_compute. reflexivity. Qed.

(** ** Menu items and the orders placed on them *)

Lemma update_document_other_id (name id id2 : string) (upd : dict)
  (w : World) (oid oid2 : ObjectId) :
  parse_ObjectId id = Some oid ->
  parse_ObjectId id2 = Some oid2 ->
  oid2 <> oid ->
  fst (get_document_by_id name id2 (snd (update_document name id upd w)))
  = fst (get_document_by_id name id2 w).
Proof.
  intros Hp Hp2 Hne. destruct (db w) as [d|] eqn:Hd.
  - erewrite update_document_eq by exact Hd. rewrite Hp.
    destruct (Mongo.refused _).
    { cbn [snd]. rewrite !get_document_by_id_found.
      cbn [db]. rewrite Hd. unfold stored. cbn [db]. now rewrite Hd. }
    cbv zeta. cbn [snd]. rewrite !get_document_by_id_found.
    cbn [db]. rewrite Hd, Hp2.
    rewrite stored_with_collection, String.eqb_refl.
    rewrite (stored_db w name Hd).
    now rewrite update_one_other.
  - now rewrite (update_document_no_db name id upd w Hd).
Qed.

Lemma create_menu_item_Ok (payload : MenuCreate) (w w1 : World)
  (resp : value) :
  create_menu_item payload w = (Ok resp, w1) ->
  resp = VDict [("id", VStr (str_oid (next_oid w)))]
  /\ appended "menuitem"
       (Doc (next_oid w) (stamped (MenuCreate_model_dump payload) w)) w w1.
Proof.
  intros H.
  pose proof (create_document_effect "menuitem"
                (MenuCreate_model_dump payload) w) as He.
  unfold create_menu_item, bind in H.
  destruct (create_document "menuitem" (MenuCreate_model_dump payload) w)
    as [[id|e] w1']; [|discriminate].
  cbn [fst snd] in He. destruct He as [-> He].
  unfold ret in H. injection H as <- <-. auto.
Qed.

Section MenuAndOrders.

Variable float_of_str : string -> option float.

(** X12. The identifier POST /api/menu returns names the new menu document,
    and an order placed next, before any other request, prices its lines
    for that identifier at the price of the request body, with the float
    product of price and quantity as line total. *)
Theorem create_menu_item_orderable :
  forall (payload : MenuCreate) (w w1 : World) (resp : value),
    create_menu_item payload w = (Ok resp, w1) ->
    exists id,
      resp = VDict [("id", VStr id)]
      /\ canonical id
      /\ resolves (stored w1 "menuitem") id
      /\ forall (body : OrderCreate) (resp2 : value) (w2 : World),
          create_order float_of_str body w1 = (Ok resp2, w2) ->
          exists (name_map : dict) (lines : list PricedLine)
                 (order : Document),
            map pl_item lines = items body
            /\ stored w2 "order" = stored w1 "order" ++ [order]
            /\ PyDict.get (doc_fields order) "items"
               = Some (VList (map (line_doc name_map) lines))
            /\ forall l,
                In l lines ->
                item_id (pl_item l) = id ->
                pl_price l = mc_price payload
                /\ PyFloat.mul_int (mc_price payload)
                     (quantity (pl_item l)) = Some (pl_total l).
Proof.
  intros payload w w1 resp H. apply create_menu_item_Ok in H.
  destruct H as [-> [H1 [H2 [Hfresh [Hst Hoth]]]]].
  cbn [doc_id] in Hfresh.
  exists (str_oid (next_oid w)).
  assert (Hcan : parse_ObjectId (str_oid (next_oid w)) = Some (next_oid w)).
  { apply oid_of_N_canonical. }
  split; [reflexivity|]. split.
  { unfold canonical. rewrite Hcan. unfold str_oid.
    now destruct (next_oid w). }
  split.
  { exists (next_oid w). eexists. split; [exact Hcan|].
    split; [rewrite Hst; apply in_or_app; right; now left|reflexivity]. }
  intros body resp2 w2 Hord. apply create_order_Ok in Hord.
  destruct Hord as [nm [lines [Hm [Hf Hp]]]].
  apply persist_order_stored in Hp. destruct Hp as [Ho _].
  exists nm, lines. eexists. split; [assumption|]. split; [exact Ho|].
  split; [reflexivity|].
  intros l Hl Hid. rewrite Forall_forall in Hf.
  destruct (Hf l Hl) as [[doc [Hdoc [Hparse Hprice]]] Hmul].
  rewrite Hid, Hcan in Hparse. injection Hparse as Hdid.
  rewrite Hst in Hdoc. apply in_app_or in Hdoc.
  destruct Hdoc as [Hold|[<-|[]]].
  { exfalso. apply Hfresh. rewrite Hdid. now apply in_map. }
  cbn in Hprice. injection Hprice as Hprice.
  split; [now symmetry|]. now rewrite Hprice.
Qed.

(** X13. The order a successful POST /api/order announces is the one GET
    /api/order/{id} returns for the announced id: same subtotal, the table,
    notes and payment method of the request, status pending, and the
    payment status the method calls for. *)
Theorem create_order_round_trip :
  forall (body : OrderCreate) (w w' : World) (resp : value),
    create_order float_of_str body w = (Ok resp, w') ->
    exists id order,
      field resp "order_id" = Some (VStr id)
      /\ get_order id w' = (Ok (VDict order), w')
      /\ PyDict.get order "_id" = Some (VStr id)
      /\ PyDict.get order "subtotal" = field resp "subtotal"
      /\ PyDict.get order "table_id" = Some (VStr (table_id body))
      /\ PyDict.get order "notes" = Some (opt_value VStr (notes body))
      /\ PyDict.get order "payment_method"
         = Some (VStr (PaymentMethod_str (payment_method body)))
      /\ PyDict.get order "status" = Some (VStr "pending")
      /\ PyDict.get order "payment_status"
         = Some (VStr (match payment_method body with
                       | cash => "unpaid"
                       | online => "pending"
                       end)).
Proof.
  intros body w w' resp H. apply create_order_Ok in H.
  destruct H as [nm [lines [Hm [Hf H]]]].
  pose proof (persist_order_response _ _ _ _ H) as Hresp.
  pose proof (persist_order_stored _ _ _ _ H) as [Ho _].
  apply persist_order_Ok in H. destruct H as [d [Hd [Hfresh Hw]]].
  assert (Hdb' : db w' <> None).
  { cbv zeta in Hw. destruct (payment_method body).
    - destruct Hw as [_ [d1 [_ [_ ->]]]]. discriminate.
    - destruct Hw as [_ ->]. discriminate. }
  exists (str_oid (next_oid w)).
  exists (serialize_doc
            (Doc (next_oid w)
               (stamped (order_doc body (map (line_doc nm) lines)
                           (float_sum (map pl_total lines))) w))).
  split; [now rewrite Hresp|]. split.
  { rewrite (surjective_pairing (get_order (str_oid (next_oid w)) w')).
    rewrite get_order_pure, get_order_eq.
    destruct (db w'); [|contradiction].
    unfold next_oid at 1. rewrite oid_of_N_canonical. fold (next_oid w).
    rewrite Ho, find_one_app, (stored_db w "order" Hd), Hfresh.
    unfold Mongo.find_one. cbn [find]. unfold Mongo.has_id. cbn [doc_id].
    now rewrite oid_eqb_refl. }
  rewrite Hresp. unfold order_doc.
  repeat split; reflexivity.
Qed.

(** X14. Changing an order's status leaves its payment status alone,
    confirming its payment leaves its status alone, and neither changes
    what GET /api/order/{id} returns for any other order. *)
Theorem transitions_are_independent :
  forall (w : World) (order_id : string) (oid : ObjectId),
    parse_ObjectId order_id = Some oid ->
    (forall (payload : OrderStatusUpdate) order,
        fst (get_order order_id w) = Ok (VDict order) ->
        exists order',
          fst (get_order order_id
                 (snd (set_order_status order_id payload w)))
          = Ok (VDict order')
          /\ forall k, k <> "status" -> k <> "updated_at" ->
               PyDict.get order' k = PyDict.get order k)
    /\ (forall (outcome : PaymentOutcome) order,
          fst (get_order order_id w) = Ok (VDict order) ->
          exists order',
            fst (get_order order_id
                   (snd (confirm_mock_payment
                           {| pc_order_id := order_id;
                              pc_status := outcome |} w)))
            = Ok (VDict order')
            /\ forall k, k <> "payment_status" -> k <> "updated_at" ->
                 PyDict.get order' k = PyDict.get order k)
    /\ (forall (payload : OrderStatusUpdate) (outcome : PaymentOutcome)
               (other : string) (oid2 : ObjectId),
          parse_ObjectId other = Some oid2 ->
          oid2 <> oid ->
          fst (get_order other (snd (set_order_status order_id payload w)))
          = fst (get_order other w)
          /\ fst (get_order other
                    (snd (confirm_mock_payment
                            {| pc_order_id := order_id;
                               pc_status := outcome |} w)))
             = fst (get_order other w)).
Proof.
  intros w order_id oid Hp.
  assert (Hone : forall key s order,
             key <> "updated_at" ->
             fst (get_order order_id w) = Ok (VDict order) ->
             exists order',
               fst (get_order order_id
                      (snd (update_document "order" order_id
                              [(key, VStr s)] w)))
               = Ok (VDict order')
               /\ forall k, k <> key -> k <> "updated_at" ->
                    PyDict.get order' k = PyDict.get order k).
  { intros key s order Hkey H.
    pose proof (update_document_effect "order" order_id [(key, VStr s)] w)
      as [Hdb [Hf _]].
    rewrite get_order_eq in *.
    destruct (db w) as [d|] eqn:Hd; [|discriminate].
    destruct (db (snd (update_document "order" order_id _ w))) eqn:Hd'.
    2:{ destruct Hdb as [Hdb _]. discriminate (Hdb eq_refl). }
    rewrite Hp in *.
    destruct (Mongo.find_one (stored w "order") oid) as [a|] eqn:Ha;
      [|discriminate].
    injection H as <-.
    destruct (find_one_Forall2 oid (fun x y H => proj1 H) Hf Ha)
      as [b [Hb [Hid Hk]]].
    rewrite Hb. eexists. split; [reflexivity|].
    intros k H1 H2. unfold serialize_doc. cbn [PyDict.get].
    rewrite Hid. destruct (String.eqb "_id" k); [reflexivity|].
    apply Hk. unfold named_in. cbn [existsb PyDict.keys map fst].
    assert (E1 : String.eqb k "updated_at" = false)
      by now apply String.eqb_neq.
    assert (E2 : String.eqb k key = false) by now apply String.eqb_neq.
    now rewrite E1, E2. }
  assert (Hother : forall upd other oid2,
             parse_ObjectId other = Some oid2 -> oid2 <> oid ->
             fst (get_order other
                    (snd (update_document "order" order_id upd w)))
             = fst (get_order other w)).
  { intros upd other oid2 Hp2 Hne.
    pose proof (@update_document_other_id "order" order_id other upd w
                  oid oid2 Hp Hp2 Hne) as Hget.
    pose proof (update_document_keeps_db "order" order_id upd w) as Hdb.
    rewrite !get_document_by_id_found in Hget.
    rewrite !get_order_eq. rewrite Hp2 in *.
    destruct (db (snd (update_document "order" order_id upd w))),
      (db w); try reflexivity.
    - injection Hget as Hget.
      destruct (Mongo.find_one (stored (snd _) "order") oid2) as [d1|],
        (Mongo.find_one (stored w "order") oid2) as [d2|];
        cbn [option_map] in Hget; try discriminate; [|reflexivity].
      assert (E : serialize_doc d1 = serialize_doc d2) by congruence.
      apply serialize_doc_inj in E. now subst.
    - destruct Hdb as [_ Hdb]. discriminate (Hdb eq_refl).
    - destruct Hdb as [Hdb _]. discriminate (Hdb eq_refl). }
  split; [|split].
  - intros payload order H. rewrite set_order_status_world.
    apply Hone; [discriminate|assumption].
  - intros outcome order H.
    destruct (confirm_mock_payment_world
                {| pc_order_id := order_id; pc_status := outcome |} w)
      as [-> | ->].
    + exists order. auto.
    + cbn [pc_order_id pc_status]. apply Hone; [discriminate|assumption].
  - intros payload outcome other oid2 Hp2 Hne. split.
    + rewrite set_order_status_world. now apply (Hother _ other oid2).
    + destruct (confirm_mock_payment_world
                  {| pc_order_id := order_id; pc_status := outcome |} w)
        as [-> | ->]; [reflexivity|].
      now apply (Hother _ other oid2).
Qed.

End MenuAndOrders.

(** ** Faults: identifiers that are none, and no store *)

(** X15. With a store, an identifier that the [ObjectId] constructor
    refuses (one that is not 24 characters long, or is not made of pairs of
    hexadecimal digits once the whitespace outside the pairs is set aside)
    makes GET /api/order/{id}, PATCH /api/order/{id}/status, POST
    /api/payment/mock/confirm and PUT /api/menu/{id} raise [InvalidId], not
    the 404 of a missing document, and no collection is written. *)
Theorem malformed_id_raises_invalid_id :
  forall (id : string) (w : World),
    db w <> None ->
    parse_ObjectId id = None ->
    get_order id w = (Raise (InvalidId id), w)
    /\ (forall outcome,
          confirm_mock_payment {| pc_order_id := id; pc_status := outcome |} w
          = (Raise (InvalidId id), w))
    /\ (forall payload,
          fst (set_order_status id payload w) = Raise (InvalidId id)
          /\ forall n,
              stored (snd (set_order_status id payload w)) n = stored w n)
    /\ (forall payload,
          fst (update_menu_item id payload w) = Raise (InvalidId id)
          /\ forall n,
              stored (snd (update_menu_item id payload w)) n = stored w n).
Proof.
  intros id w Hdb Hp. destruct (db w) as [d|] eqn:Hd; [|contradiction].
  assert (Hget : get_document_by_id "order" id w = (Raise (InvalidId id), w)).
  { erewrite get_document_by_id_eq by exact Hd. now rewrite Hp. }
  assert (Hupd : forall name upd,
             fst (update_document name id upd w) = Raise (InvalidId id)
             /\ forall n,
                 stored (snd (update_document name id upd w)) n
                 = stored w n).
  { intros name upd. erewrite update_document_eq by exact Hd. rewrite Hp.
    split; [reflexivity|]. intros n. unfold stored. cbn [snd db].
    now rewrite Hd. }
  split; [|split; [|split]].
  - unfold get_order, bind. now rewrite Hget.
  - intros outcome. unfold confirm_mock_payment, bind. cbn [pc_order_id].
    now rewrite Hget.
  - intros payload. rewrite set_order_status_world.
    split; [|apply Hupd].
    unfold set_order_status, bind.
    destruct (Hupd "order"
                [("status", VStr (OrderStatus_str (osu_status payload)))])
      as [H _].
    destruct (update_document "order" id _ w) as [[b|e] w1];
      cbn [fst] in H; [discriminate|]. cbn [fst]. injection H as ->.
    reflexivity.
  - intros payload. rewrite update_menu_item_world.
    split; [|apply Hupd].
    unfold update_menu_item, bind. fold (menu_changes payload).
    destruct (Hupd "menuitem" (menu_changes payload)) as [H _].
    destruct (update_document "menuitem" id (menu_changes payload) w)
      as [[b|e] w1]; cbn [fst] in H; [discriminate|]. cbn [fst].
    injection H as ->. reflexivity.
Qed.

Lemma malformed_id_raises_invalid_id_witness :
  db Demo.world <> None
  /\ parse_ObjectId "paneer" = None
  /\ get_order "paneer" Demo.world = (Raise (InvalidId "paneer"), Demo.world).
Proof.
  assert (H1 : db Demo.world <> None) by discriminate.
  assert (H2 : parse_ObjectId "paneer" = None) by reflexivity.
  split; [exact H1|]. split; [exact H2|].
  exact (proj1 (@malformed_id_raises_invalid_id "paneer" Demo.world H1 H2)).
Defined.

Section Faults.

Variable float_of_str : string -> option float.
Variable cursor_sort : SortSpec -> list Document -> list Document.
Variable cursor_limit : Z -> list Document -> list Document.
Variable float_total : list float -> float.

(** X16. Without a store GET / still answers, and each of the ten routes
    of [Request] that use the store (the menu's list, creation and update;
    an order's creation, lookup and status change; the order list; the
    payment confirmation; the admin's order list and statistics) raises an
    exception that is not an [HTTPException] (a server fault, never a 4xx)
    and leaves the world as it was. GET /test and GET
    /api/qr/{table_number} are no routes of [Request], and the statement
    says nothing about them. *)
Theorem no_store_no_data :
  forall (r : Request) (w : World),
    db w = None ->
    match r with
    | GetRoot =>
        handle float_of_str cursor_sort cursor_limit float_total r w
        = (Ok (VDict [("message", VStr "Smart Restaurant API running")]), w)
    | _ =>
        exists e,
          handle float_of_str cursor_sort cursor_limit float_total r w
          = (Raise e, w)
          /\ forall code detail, e <> HTTPException code detail
    end.
Proof.
  intros r w Hd.
  assert (Hupd : forall name id upd,
             update_document name id upd w
             = (Raise (DatabaseNotAvailable "Database not available."), w)).
  { intros. unfold update_document, bind, get_db. now rewrite Hd. }
  assert (Hget : forall name id,
             get_document_by_id name id w
             = (Raise (DatabaseNotAvailable "Database not available."), w)).
  { intros. unfold get_document_by_id, bind, get_db. now rewrite Hd. }
  assert (Hdocs : forall name f l s,
             exists msg,
               get_documents cursor_sort cursor_limit name f l s w
               = (Raise (DatabaseNotAvailable msg), w)).
  { intros. unfold get_documents, bind, get_db. rewrite Hd. eauto. }
  destruct r; cbn [handle].
  - reflexivity.
  - unfold list_menu, bind.
    match goal with
    | |- context [get_documents _ _ ?n ?f ?l ?s w] =>
        destruct (Hdocs n f l s) as [msg ->]
    end.
    eexists. split; [reflexivity|discriminate].
  - unfold create_menu_item, bind.
    destruct (create_document_no_db "menuitem"
                (MenuCreate_model_dump payload) w Hd) as [e He].
    pose proof He as He'.
    unfold create_document, bind, get_db in He'. rewrite Hd in He'.
    injection He' as <-. rewrite He.
    eexists. split; [reflexivity|discriminate].
  - unfold update_menu_item, bind. rewrite Hupd.
    eexists. split; [reflexivity|discriminate].
  - rewrite (create_order_no_db float_of_str payload w Hd).
    eexists. split; [reflexivity|discriminate].
  - unfold get_order, bind. rewrite Hget.
    eexists. split; [reflexivity|discriminate].
  - unfold list_orders, bind.
    match goal with
    | |- context [get_documents _ _ ?n ?f ?l ?s w] =>
        destruct (Hdocs n f l s) as [msg ->]
    end.
    eexists. split; [reflexivity|discriminate].
  - unfold set_order_status, bind. rewrite Hupd.
    eexists. split; [reflexivity|discriminate].
  - unfold confirm_mock_payment, bind. rewrite Hget.
    eexists. split; [reflexivity|discriminate].
  - unfold admin_orders, bind.
    match goal with
    | |- context [get_documents _ _ ?n ?f ?l ?s w] =>
        destruct (Hdocs n f l s) as [msg ->]
    end.
    eexists. split; [reflexivity|discriminate].
  - unfold admin_stats, bind, db_item. rewrite Hd.
    eexists. split; [reflexivity|discriminate].
Qed.

Lemma admin_stats_eq (w : World) d :
  db w = Some d ->
  fst (admin_stats float_of_str float_total w)
  = match map_result
            (fun o =>
               py_float float_of_str
                 (PyDict.get_default (doc_fields o) "subtotal" (VInt 0)))
            (Query.find (stored w "order") [("payment_status", FStr "paid")])
    with
    | Raise e => Raise e
    | Ok amounts =>
        Ok (VDict
              [ ("total_orders",
                 VInt (Z.of_nat (List.length (stored w "order"))));
                ("paid_orders",
                 VInt (Z.of_nat
                         (List.length
                            (Query.find (stored w "order")
                               [("payment_status", FStr "paid")]))));
                ("total_sales",
                 match amounts with
                 | [] => VInt 0
                 | _ :: _ => VFloat (PyFloat.round2 (float_total amounts))
                 end) ])
    end.
Proof.
  intros Hd. unfold admin_stats, bind, db_item, lift. rewrite Hd.
  rewrite (stored_db w "order" Hd).
  destruct (map_result _ _); reflexivity.
Qed.

(** X17. A placed order counts as one more order in GET /api/admin/stats and
    as nothing else: the number of paid orders and the total of sales are
    what they were, and statistics that failed before fail the same way. *)
Theorem admin_stats_counts_placed_order :
  forall (body : OrderCreate) (w w' : World) (resp : value),
    create_order float_of_str body w = (Ok resp, w') ->
    (forall total paid sales,
        fst (admin_stats float_of_str float_total w)
        = Ok (VDict [ ("total_orders", VInt total);
                      ("paid_orders", VInt paid);
                      ("total_sales", sales) ]) ->
        fst (admin_stats float_of_str float_total w')
        = Ok (VDict [ ("total_orders", VInt (total + 1));
                      ("paid_orders", VInt paid);
                      ("total_sales", sales) ]))
    /\ (forall e,
          fst (admin_stats float_of_str float_total w) = Raise e ->
          fst (admin_stats float_of_str float_total w') = Raise e).
Proof.
  intros body w w' resp H. apply create_order_Ok in H.
  destruct H as [nm [lines [_ [_ H]]]].
  pose proof (persist_order_stored _ _ _ _ H) as [Ho _].
  apply persist_order_Ok in H. destruct H as [d [Hd [_ Hw]]].
  assert (Hdb' : exists d', db w' = Some d').
  { cbv zeta in Hw. destruct (payment_method body).
    - destruct Hw as [_ [d1 [_ [_ ->]]]]. cbn. eauto.
    - destruct Hw as [_ ->]. cbn. eauto. }
  destruct Hdb' as [d' Hd'].
  rewrite (@admin_stats_eq w d Hd), (@admin_stats_eq w' d' Hd'), Ho.
  unfold Query.find. rewrite filter_app. cbn [filter].
  assert (Hm : Query.matches [("payment_status", FStr "paid")]
                 (Doc (next_oid w)
                    (stamped
                       (order_doc body (map (line_doc nm) lines)
                          (float_sum (map pl_total lines))) w))
               = false).
  { unfold order_doc. destruct (payment_method body); reflexivity. }
  rewrite Hm, app_nil_r, length_app. cbn [List.length].
  rewrite Nat2Z.inj_add. change (Z.of_nat 1) with 1.
  destruct (map_result _ _) as [amounts|e0].
  - split; [|discriminate].
    intros total paid sales E. injection E as <- <- <-. reflexivity.
  - split; [discriminate|trivial].
Qed.

End Faults.

(** ** Listings

    The order of a listing is the store's; what is listed is not. *)

Lemma matches_cons (k : string) (q : FilterValue) (f : Filter)
  (doc : Document) :
  Query.matches ((k, q) :: f) doc
  = match PyDict.get (Query.view doc) k with
    | Some v => Query.field_matches v q
    | None => false
    end && Query.matches f doc.
Proof. reflexivity. Qed.

Lemma view_get (doc : Document) (k : string) :
  String.eqb "_id" k = false ->
  PyDict.get (Query.view doc) k = PyDict.get (doc_fields doc) k.
Proof. intros H. unfold Query.view. cbn [PyDict.get]. now rewrite H. Qed.

Lemma matches_field (k : string) (q : FilterValue) (doc : Document) :
  String.eqb "_id" k = false ->
  Query.matches [(k, q)] doc
  = match PyDict.get (doc_fields doc) k with
    | Some v => Query.field_matches v q
    | None => false
    end.
Proof.
  intros H. rewrite matches_cons, view_get by assumption.
  cbn [Query.matches forallb fst snd]. apply andb_true_r.
Qed.

Lemma field_matches_VStr (s t : string) :
  Query.field_matches (VStr s) (FStr t) = String.eqb s t.
Proof. unfold Query.field_matches. cbn. apply orb_false_r. Qed.

Lemma field_matches_VBool (a b : bool) :
  Query.field_matches (VBool a) (FBool b) = Bool.eqb a b.
Proof. unfold Query.field_matches. cbn. apply orb_false_r. Qed.

Lemma truthy_false (s : option string) :
  truthy s = false -> s = None \/ s = Some "".
Proof. destruct s as [[|c s]|]; cbn; auto. discriminate. Qed.

Lemma serialize_doc_id (doc : Document) (oid : ObjectId) :
  PyDict.get (serialize_doc doc) "_id" = Some (VStr (str_oid oid)) ->
  doc_id doc = oid.
Proof.
  unfold serialize_doc. cbn [PyDict.get]. rewrite String.eqb_refl.
  destruct doc as [[x] f], oid as [y]. cbn. now intros [= ->].
Qed.

Lemma unique_ids_find_one (c : Collection) (doc : Document) :
  unique_ids c -> In doc c -> Mongo.find_one c (doc_id doc) = Some doc.
Proof.
  unfold unique_ids, Mongo.find_one.
  induction c as [|d c IH]; cbn [map find]; intros Hnd Hin; [contradiction|].
  inversion Hnd as [|? ? Hnin Hnd']; subst.
  destruct Hin as [->|Hin].
  - unfold Mongo.has_id. now rewrite oid_eqb_refl.
  - destruct (Mongo.has_id (doc_id doc) d) eqn:E; [|now apply IH].
    exfalso. apply Hnin. unfold Mongo.has_id in E.
    apply oid_eqb_eq in E. rewrite E. now apply in_map.
Qed.

Section Listings.

Variable float_of_str : string -> option float.
Variable cursor_sort : SortSpec -> list Document -> list Document.
Variable cursor_limit : Z -> list Document -> list Document.

(** Sorting keeps the documents it is given, and only those. *)
Hypothesis sort_keeps :
  forall spec docs doc, In doc (cursor_sort spec docs) <-> In doc docs.

Lemma get_documents_Ok (name : string) (filt : Filter) (sort : SortSpec)
  (w : World) :
  db w <> None ->
  exists docs,
    get_documents cursor_sort cursor_limit name (Some filt) None (Some sort) w
    = (Ok (map serialize_doc docs), w)
    /\ forall doc,
        In doc docs
        <-> In doc (stored w name) /\ Query.matches filt doc = true.
Proof.
  intros Hdb. destruct (db w) as [d|] eqn:Hd; [|contradiction].
  unfold get_documents, bind, get_db, ret. rewrite Hd.
  rewrite (stored_db w name Hd).
  destruct sort as [|k s].
  - eexists. split; [reflexivity|]. intros doc. apply filter_In.
  - eexists. split; [reflexivity|]. intros doc.
    rewrite sort_keeps. apply filter_In.
Qed.

Ltac listing w Hdb docs Hdocs :=
  match goal with
  | |- context [get_documents ?a ?b ?n ?F ?l ?S w] =>
      match F with
      | Some ?f =>
          match S with
          | Some ?s =>
              let E := fresh "E" in
              let E' := fresh "E" in
              destruct (@get_documents_Ok n f s w Hdb) as [docs [E Hdocs]];
              assert (E' : get_documents a b n F l S w
                           = (Ok (map serialize_doc docs), w)) by exact E;
              rewrite E'; clear E E'
          end
      end
  end.

Lemma list_menu_Ok (category : option string) (w : World) :
  db w <> None ->
  exists docs,
    list_menu cursor_sort cursor_limit category w
    = (Ok (VDict [("items", VList (map VDict (map serialize_doc docs)))]), w)
    /\ forall doc,
        In doc docs
        <-> In doc (stored w "menuitem")
            /\ PyDict.get (doc_fields doc) "is_available" <> None
            /\ (forall v,
                  PyDict.get (doc_fields doc) "is_available" = Some v ->
                  Query.field_matches v (FBool true) = true)
            /\ (forall c,
                  truthy category = true ->
                  category = Some c ->
                  PyDict.get (doc_fields doc) "category" <> None
                  /\ forall v,
                      PyDict.get (doc_fields doc) "category" = Some v ->
                      Query.field_matches v (FStr c) = true).
Proof.
  intros Hdb. unfold list_menu, bind. cbv zeta.
  listing w Hdb docs Hdocs.
  exists docs. split; [reflexivity|]. intros doc. rewrite Hdocs.
  apply and_iff_compat_l.
  destruct category as [[|a c]|]; cbn [truthy].
  - rewrite matches_field by reflexivity.
    destruct (PyDict.get (doc_fields doc) "is_available") as [v|].
    + split.
      * intros H. split; [discriminate|]. split; [now intros ? [= <-]|].
        discriminate.
      * intros [_ [H _]]. now apply H.
    + split; [discriminate|]. intros [H _]. now contradiction H.
  - change (PyDict.set [("is_available", FBool true)] "category"
              (FStr (String a c)))
      with [("is_available", FBool true); ("category", FStr (String a c))].
    rewrite matches_cons, view_get by reflexivity.
    rewrite matches_field by reflexivity.
    destruct (PyDict.get (doc_fields doc) "is_available") as [v|].
    2:{ split; [discriminate|]. intros [H _]. now contradiction H. }
    destruct (PyDict.get (doc_fields doc) "category") as [vc|].
    + rewrite andb_true_iff. split.
      * intros [H1 H2]. split; [discriminate|].
        split; [now intros ? [= <-]|].
        intros c0 _ [= <-]. split; [discriminate|]. now intros ? [= <-].
      * intros [_ [H1 H2]]. split; [now apply H1|].
        destruct (H2 (String a c) eq_refl eq_refl) as [_ H3]. now apply H3.
    + rewrite andb_false_r. split; [discriminate|].
      intros [_ [_ H2]].
      destruct (H2 (String a c) eq_refl eq_refl) as [H3 _].
      now contradiction H3.
  - rewrite matches_field by reflexivity.
    destruct (PyDict.get (doc_fields doc) "is_available") as [v|].
    + split.
      * intros H. split; [discriminate|]. split; [now intros ? [= <-]|].
        discriminate.
      * intros [_ [H _]]. now apply H.
    + split; [discriminate|]. intros [H _]. now contradiction H.
Qed.

Lemma In_listing (item : dict) (docs : list Document) :
  In (VDict item) (map VDict (map serialize_doc docs)) ->
  exists doc, In doc docs /\ item = serialize_doc doc.
Proof.
  rewrite map_map. intros H. apply in_map_iff in H.
  destruct H as [doc [E H]]. injection E as <-. eauto.
Qed.

(** X18. GET /api/menu lists documents of the menu collection and no
    others; a document whose [is_available] is missing or false is never
    listed, a listed document's category, when it is a string, is the
    requested one, and every document with [is_available] true (and the
    requested category, unless none or the empty string is requested) is
    listed. *)
Theorem list_menu_shows_available :
  forall (category : option string) (w : World),
    db w <> None ->
    exists docs,
      list_menu cursor_sort cursor_limit category w
      = (Ok (VDict [("items", VList (map VDict (map serialize_doc docs)))]),
         w)
      /\ (forall doc,
            In doc docs ->
            In doc (stored w "menuitem")
            /\ PyDict.get (doc_fields doc) "is_available" <> None
            /\ PyDict.get (doc_fields doc) "is_available"
               <> Some (VBool false)
            /\ forall c c',
                truthy category = true ->
                category = Some c ->
                PyDict.get (doc_fields doc) "category" = Some (VStr c') ->
                c' = c)
      /\ (forall doc,
            In doc (stored w "menuitem") ->
            PyDict.get (doc_fields doc) "is_available" = Some (VBool true) ->
            (truthy category = false
             \/ exists c,
                 category = Some c
                 /\ PyDict.get (doc_fields doc) "category"
                    = Some (VStr c)) ->
            In doc docs).
Proof.
  intros category w Hdb.
  destruct (@list_menu_Ok category w Hdb) as [docs [E Hdocs]].
  exists docs. split; [exact E|]. split.
  - intros doc Hin. apply Hdocs in Hin.
    destruct Hin as [Hin [H1 [H2 H3]]].
    split; [assumption|]. split; [assumption|]. split.
    + intros Hf. specialize (H2 _ Hf). discriminate.
    + intros c c' Ht Hc Hg. destruct (H3 c Ht Hc) as [_ H4].
      specialize (H4 _ Hg). rewrite field_matches_VStr in H4.
      now apply String.eqb_eq.
  - intros doc Hin Hav Hcat. apply Hdocs.
    split; [assumption|]. split; [congruence|]. split.
    + intros v Hv. rewrite Hav in Hv. now injection Hv as <-.
    + intros c Ht Hc. destruct Hcat as [Hf|[c0 [Hc0 Hg]]]; [congruence|].
      rewrite Hc in Hc0. injection Hc0 as <-. rewrite Hg.
      split; [discriminate|]. intros v [= <-].
      rewrite field_matches_VStr. apply String.eqb_refl.
Qed.

(** X19. After a successful PUT /api/menu/{id} on a menu with one document
    per identifier, GET /api/menu does not list the item when the body
    switched its availability off, and lists it (no category asked) when
    the body switched it on. *)
Theorem availability_switch :
  forall (item_id : string) (oid : ObjectId) (payload : MenuUpdate)
         (w w1 : World) (resp : value),
    parse_ObjectId item_id = Some oid ->
    unique_ids (stored w "menuitem") ->
    update_menu_item item_id payload w = (Ok resp, w1) ->
    forall (category : option string) (items : list value),
      fst (list_menu cursor_sort cursor_limit category w1)
      = Ok (VDict [("items", VList items)]) ->
      (mu_is_available payload = Some false ->
       forall item,
         In (VDict item) items ->
         PyDict.get item "_id" <> Some (VStr (str_oid oid)))
      /\ (mu_is_available payload = Some true ->
          truthy category = false ->
          exists item,
            In (VDict item) items
            /\ PyDict.get item "_id" = Some (VStr (str_oid oid))).
Proof.
  intros item_id oid payload w w1 resp Hp Hu H category items Hl.
  unfold update_menu_item, bind in H. fold (menu_changes payload) in H.
  destruct (update_document "menuitem" item_id (menu_changes payload) w)
    as [[b|e] w1'] eqn:Hupd; [|discriminate].
  destruct b; cbn [negb] in H; [|discriminate].
  unfold ret in H. injection H as _ <-.
  apply update_document_Ok in Hupd.
  destruct Hupd as [d [oid' [Hd [Hp' [Hb ->]]]]].
  rewrite Hp in Hp'. injection Hp' as <-.
  symmetry in Hb. apply Z.ltb_lt in Hb.
  rewrite (stored_db w "menuitem" Hd) in Hu.
  set (upd := set_doc (menu_changes payload) w) in *.
  set (w1 := MkWorld _ _ _ _ _) in *.
  assert (Hst : stored w1 "menuitem"
                = fst (Mongo.set_one (d "menuitem") oid upd)).
  { unfold w1. rewrite stored_with_collection. now rewrite String.eqb_refl. }
  destruct (Mongo.find_one (d "menuitem") oid) as [doc|] eqn:Hf.
  2:{ rewrite (update_one_not_found _ _ _ Hf) in Hb. cbn in Hb. lia. }
  destruct (update_one_found (d "menuitem") oid upd Hf) as [Hfound Hn].
  destruct (Mongo.changes (doc_fields doc) upd) eqn:Hch.
  2:{ rewrite Hn in Hb. lia. }
  destruct (find_one_id _ _ Hf) as [_ Hid]. rewrite Hid in Hfound.
  assert (Hu1 : unique_ids (stored w1 "menuitem")).
  { unfold unique_ids. rewrite Hst, update_one_ids. exact Hu. }
  assert (Hav : forall b,
             mu_is_available payload = Some b ->
             PyDict.get (PyDict.update (doc_fields doc) upd) "is_available"
             = Some (VBool b)).
  { intros b Hb'. apply PyDictFacts.get_update_named.
    - apply set_doc_keys_NoDup, keys_filter_NoDup, model_dump_NoDup.
    - apply PyDictFacts.get_In. unfold upd. rewrite set_doc_get.
      change (String.eqb "updated_at" "is_available") with false.
      cbv iota. apply PyDictFacts.In_get_NoDup.
      + apply keys_filter_NoDup, model_dump_NoDup.
      + apply menu_changes_In. unfold requested. cbn. rewrite Hb'.
        split; [reflexivity|discriminate]. }
  assert (Hdb1 : db w1 <> None) by discriminate.
  destruct (@list_menu_Ok category w1 Hdb1) as [docs [E Hdocs]].
  rewrite E in Hl. cbn [fst] in Hl. injection Hl as <-.
  split.
  - intros Hoff item Hin Hitem. apply In_listing in Hin.
    destruct Hin as [x [Hx ->]]. apply serialize_doc_id in Hitem.
    apply Hdocs in Hx. destruct Hx as [Hx [_ [H2 _]]].
    pose proof (@unique_ids_find_one _ x Hu1 Hx) as Hfx.
    rewrite Hitem, Hst, Hfound in Hfx. injection Hfx as <-.
    cbn [doc_fields] in H2. specialize (H2 _ (Hav false Hoff)).
    discriminate.
  - intros Hon Hcat. exists (serialize_doc (Doc oid (PyDict.update (doc_fields doc) upd))).
    split; [|reflexivity].
    rewrite map_map. apply in_map_iff. eexists. split; [reflexivity|].
    apply Hdocs. rewrite Hst. cbn [doc_fields]. rewrite (Hav true Hon).
    split; [exact (proj1 (find_one_id _ _ Hfound))|].
    split; [discriminate|]. split; [now intros ? [= <-]|].
    intros c Ht. congruence.
Qed.

Lemma list_orders_Ok (table : option string) (w : World) :
  db w <> None ->
  exists docs,
    list_orders cursor_sort cursor_limit table w
    = (Ok (VDict [("orders", VList (map VDict (map serialize_doc docs)))]),
       w)
    /\ forall doc,
        In doc docs
        <-> In doc (stored w "order")
            /\ (forall t,
                  truthy table = true ->
                  table = Some t ->
                  Query.matches [("table_id", FStr t)] doc = true).
Proof.
  intros Hdb. unfold list_orders, bind. cbv zeta.
  listing w Hdb docs Hdocs.
  exists docs. split; [reflexivity|]. intros doc. rewrite Hdocs.
  apply and_iff_compat_l.
  destruct table as [[|a t]|]; cbn [truthy].
  - split; [discriminate|reflexivity].
  - split.
    + now intros H t0 _ [= <-].
    + intros H. now apply H.
  - split; [discriminate|reflexivity].
Qed.

Lemma admin_orders_Ok (w : World) :
  db w <> None ->
  exists docs,
    admin_orders cursor_sort cursor_limit w
    = (Ok (VDict [("orders", VList (map VDict (map serialize_doc docs)))]),
       w)
    /\ forall doc, In doc docs <-> In doc (stored w "order").
Proof.
  intros Hdb. unfold admin_orders, bind. cbv zeta.
  listing w Hdb docs Hdocs.
  exists docs. split; [reflexivity|]. intros doc. rewrite Hdocs.
  cbn [Query.matches forallb]. tauto.
Qed.

(** X20. The order a successful POST /api/order announces is listed by GET
    /api/admin/orders and by GET /api/orders, both unfiltered and filtered
    by the order's own table, and is not listed under any other table. *)
Theorem placed_order_is_listed :
  forall (body : OrderCreate) (w w' : World) (resp : value),
    create_order float_of_str body w = (Ok resp, w') ->
    exists id order,
      field resp "order_id" = Some (VStr id)
      /\ PyDict.get order "_id" = Some (VStr id)
      /\ PyDict.get order "table_id" = Some (VStr (table_id body))
      /\ (forall orders,
            fst (admin_orders cursor_sort cursor_limit w')
            = Ok (VDict [("orders", VList orders)]) ->
            In (VDict order) orders)
      /\ (forall table orders,
            truthy table = false \/ table = Some (table_id body) ->
            fst (list_orders cursor_sort cursor_limit table w')
            = Ok (VDict [("orders", VList orders)]) ->
            In (VDict order) orders)
      /\ (forall t orders,
            truthy (Some t) = true ->
            t <> table_id body ->
            fst (list_orders cursor_sort cursor_limit (Some t) w')
            = Ok (VDict [("orders", VList orders)]) ->
            forall o,
              In (VDict o) orders ->
              PyDict.get o "_id" <> Some (VStr id)).
Proof.
  intros body w w' resp H. apply create_order_Ok in H.
  destruct H as [nm [lines [_ [_ H]]]].
  pose proof (persist_order_response _ _ _ _ H) as Hresp.
  pose proof (persist_order_stored _ _ _ _ H) as [Ho _].
  apply persist_order_Ok in H. destruct H as [d [Hd [Hfresh Hw]]].
  assert (Hdb' : db w' <> None).
  { cbv zeta in Hw. destruct (payment_method body).
    - destruct Hw as [_ [d1 [_ [_ ->]]]]. discriminate.
    - destruct Hw as [_ ->]. discriminate. }
  rewrite <- (stored_db w "order" Hd) in Hfresh.
  apply find_one_absent in Hfresh.
  set (new := Doc (next_oid w)
                (stamped (order_doc body (map (line_doc nm) lines)
                            (float_sum (map pl_total lines))) w)) in *.
  assert (Hnew : In new (stored w' "order")).
  { rewrite Ho. apply in_or_app. right. now left. }
  assert (Htab : forall t,
             Query.matches [("table_id", FStr t)] new
             = String.eqb (table_id body) t).
  { intros t. rewrite matches_field by reflexivity.
    unfold new, order_doc. cbn. apply orb_false_r. }
  exists (str_oid (next_oid w)), (serialize_doc new).
  split; [now rewrite Hresp|]. split; [reflexivity|].
  split; [reflexivity|]. split; [|split].
  - intros orders E.
    destruct (@admin_orders_Ok w' Hdb') as [docs [E' Hdocs]].
    rewrite E' in E. cbn [fst] in E. injection E as <-.
    rewrite map_map. apply in_map_iff. exists new.
    split; [reflexivity|]. now apply Hdocs.
  - intros table orders Ht E.
    destruct (@list_orders_Ok table w' Hdb') as [docs [E' Hdocs]].
    rewrite E' in E. cbn [fst] in E. injection E as <-.
    rewrite map_map. apply in_map_iff. exists new.
    split; [reflexivity|]. apply Hdocs. split; [assumption|].
    intros t Htr Hs. destruct Ht as [Ht| ->]; [congruence|].
    injection Hs as <-. rewrite Htab. apply String.eqb_refl.
  - intros t orders Htr Hne E o Hin Hid.
    destruct (@list_orders_Ok (Some t) w' Hdb') as [docs [E' Hdocs]].
    rewrite E' in E. cbn [fst] in E. injection E as <-.
    apply In_listing in Hin. destruct Hin as [x [Hx ->]].
    apply serialize_doc_id in Hid. apply Hdocs in Hx.
    destruct Hx as [Hx Hm]. specialize (Hm t Htr eq_refl).
    rewrite Ho in Hx. apply in_app_or in Hx.
    destruct Hx as [Hx|[<-|[]]].
    + apply Hfresh. rewrite <- Hid. now apply in_map.
    + rewrite Htab in Hm. apply String.eqb_eq in Hm. congruence.
Qed.

End Listings.

(** ** The further properties on the store of [Demo] *)

Lemma demo_raita :
  create_menu_item Service.raita Demo.world
  = (Ok (VDict [("id", VStr Demo.placed_id)]),
     snd (create_menu_item Service.raita Demo.world)).
Proof.
  destruct (create_menu_item Service.raita Demo.world) as [r w] eqn:E.
  apply (f_equal fst) in E. vm_compute in E. now subst r.
Qed.

Lemma demo_raita_ordered :
  create_order Demo.no_float Service.raita_body
    (snd (create_menu_item Service.raita Demo.world))
  = (Ok (VDict [ ("order_id", VStr "000000000000000000001001");
                 ("subtotal", VFloat 81);
                 ("payment", VNone) ]),
     snd (create_order Demo.no_float Service.raita_body
            (snd (create_menu_item Service.raita Demo.world)))).
Proof.
  destruct (create_order Demo.no_float Service.raita_body
              (snd (create_menu_item Service.raita Demo.world)))
    as [r w] eqn:E.
  apply (f_equal fst) in E. vm_compute in E. now subst r.
Qed.

Lemma create_menu_item_orderable_witness :
  exists id w1 w2,
    create_menu_item Service.raita Demo.world
    = (Ok (VDict [("id", VStr id)]), w1)
    /\ canonical id
    /\ resolves (stored w1 "menuitem") id
    /\ create_order Demo.no_float Service.raita_body w1
       = (Ok (VDict [ ("order_id", VStr "000000000000000000001001");
                      ("subtotal", VFloat 81);
                      ("payment", VNone) ]), w2)
    /\ exists (name_map : dict) (lines : list PricedLine) (order : Document),
        map pl_item lines = items Service.raita_body
        /\ stored w2 "order" = stored w1 "order" ++ [order]
        /\ PyDict.get (doc_fields order) "items"
           = Some (VList (map (line_doc name_map) lines))
        /\ forall l,
            In l lines ->
            item_id (pl_item l) = id ->
            pl_price l = 40.5%float /\ pl_total l = 81%float.
Proof.
  destruct (@create_menu_item_orderable Demo.no_float Service.raita
              Demo.world _ _ demo_raita) as [id [E [Hc [Hr Hord]]]].
  injection E as <-.
  exists Demo.placed_id. do 2 eexists.
  split; [exact demo_raita|]. split; [exact Hc|]. split; [exact Hr|].
  split; [exact demo_raita_ordered|].
  destruct (Hord _ _ _ demo_raita_ordered)
    as [nm [lines [order [Hm [Ho [Hi Hl]]]]]].
  exists nm, lines, order. split; [exact Hm|]. split; [exact Ho|].
  split; [exact Hi|]. intros l Hin Hid.
  destruct (Hl l Hin Hid) as [Hp Ht]. split; [exact Hp|].
  assert (Hq : In (pl_item l) (items Service.raita_body)).
  { rewrite <- Hm. now apply in_map. }
  destruct Hq as [Hq|[]]. rewrite <- Hq in Ht.
  change (PyFloat.mul_int 40.5 2 = Some (pl_total l)) in Ht.
  assert (E : PyFloat.mul_int 40.5 2 = Some 81%float)
    by (vm_compute; reflexivity).
  rewrite E in Ht. now injection Ht as <-.
Defined.

Lemma create_order_round_trip_witness :
  exists id order,
    field Demo.online_response "order_id" = Some (VStr id)
    /\ get_order id Demo.world_ordered
       = (Ok (VDict order), Demo.world_ordered)
    /\ PyDict.get order "status" = Some (VStr "pending")
    /\ PyDict.get order "payment_status" = Some (VStr "pending").
Proof.
  destruct (@create_order_round_trip Demo.no_float (Demo.order_body online)
              Demo.world Demo.world_ordered Demo.online_response
              demo_order_placed)
    as [id [order [H1 [H2 [_ [_ [_ [_ [_ [H3 H4]]]]]]]]]].
  exists id, order. auto.
Defined.

Lemma transitions_are_independent_witness :
  parse_ObjectId Demo.placed_id = Some (Oid Demo.placed_id)
  /\ forall payload outcome,
      fst (get_order Demo.paneer_id
             (snd (set_order_status Demo.placed_id payload
                     Demo.world_ordered)))
      = fst (get_order Demo.paneer_id Demo.world_ordered)
      /\ fst (get_order Demo.paneer_id
                (snd (confirm_mock_payment
                        {| pc_order_id := Demo.placed_id;
                           pc_status := outcome |} Demo.world_ordered)))
         = fst (get_order Demo.paneer_id Demo.world_ordered).
Proof.
  assert (H : parse_ObjectId Demo.placed_id = Some (Oid Demo.placed_id))
    by reflexivity.
  split; [exact H|]. intros payload outcome.
  apply (proj2 (proj2 (@transitions_are_independent Demo.world_ordered
                         Demo.placed_id (Oid Demo.placed_id) H))
           payload outcome Demo.paneer_id (Oid Demo.paneer_id)).
  - reflexivity.
  - discriminate.
Defined.

Lemma no_store_no_data_witness :
  db (MkWorld None (fun _ => 0) 0 (fun _ => 0%N) 0) = None
  /\ exists e,
      handle Demo.no_float Service.keep_order Service.take Service.total
        (GetMenu None) (MkWorld None (fun _ => 0) 0 (fun _ => 0%N) 0)
      = (Raise e, MkWorld None (fun _ => 0) 0 (fun _ => 0%N) 0)
      /\ forall code detail, e <> HTTPException code detail.
Proof.
  split; [reflexivity|].
  exact (@no_store_no_data Demo.no_float Service.keep_order Service.take
           Service.total (GetMenu None)
           (MkWorld None (fun _ => 0) 0 (fun _ => 0%N) 0) eq_refl).
Defined.

Lemma admin_stats_counts_placed_order_witness :
  fst (admin_stats Demo.no_float Service.total Demo.world)
  = Ok (VDict [ ("total_orders", VInt 0); ("paid_orders", VInt 0);
                ("total_sales", VInt 0) ])
  /\ fst (admin_stats Demo.no_float Service.total Demo.world_ordered)
     = Ok (VDict [ ("total_orders", VInt 1); ("paid_orders", VInt 0);
                   ("total_sales", VInt 0) ]).
Proof.
  assert (H : fst (admin_stats Demo.no_float Service.total Demo.world)
              = Ok (VDict [ ("total_orders", VInt 0); ("paid_orders", VInt 0);
                            ("total_sales", VInt 0) ])) by reflexivity.
  split; [exact H|].
  exact (proj1 (@admin_stats_counts_placed_order Demo.no_float Service.total
                  (Demo.order_body online) Demo.world Demo.world_ordered
                  Demo.online_response demo_order_placed) 0 0 (VInt 0) H).
Defined.

Lemma keep_order_keeps (spec : SortSpec) (docs : list Document)
  (doc : Document) :
  In doc (Service.keep_order spec docs) <-> In doc docs.
Proof. reflexivity. Qed.

Lemma list_menu_shows_available_witness :
  db Demo.world <> None
  /\ exists docs,
      list_menu Service.keep_order Service.take (Some "Starters") Demo.world
      = (Ok (VDict [("items", VList (map VDict (map serialize_doc docs)))]),
         Demo.world)
      /\ In Demo.paneer docs
      /\ ~ In Demo.lassi docs.
Proof.
  assert (H : db Demo.world <> None) by discriminate.
  split; [exact H|].
  destruct (@list_menu_shows_available Service.keep_order Service.take
              keep_order_keeps (Some "Starters") Demo.world H)
    as [docs [E [Hs Hc]]].
  exists docs. split; [exact E|]. split.
  - apply Hc.
    + cbn. tauto.
    + reflexivity.
    + right. exists "Starters". split; reflexivity.
  - intros Hin. destruct (Hs _ Hin) as [_ [_ [Hf _]]]. now apply Hf.
Defined.

Lemma demo_switch_off :
  exists w1,
    update_menu_item Demo.paneer_id Service.switch_off Demo.world
    = (Ok (VDict [("success", VBool true)]), w1).
Proof.
  exists (snd (update_menu_item Demo.paneer_id Service.switch_off
                 Demo.world)).
  destruct (update_menu_item Demo.paneer_id Service.switch_off Demo.world)
    as [r w] eqn:E.
  apply (f_equal fst) in E. vm_compute in E. now subst r.
Qed.

Lemma availability_switch_witness :
  exists w1,
    update_menu_item Demo.paneer_id Service.switch_off Demo.world
    = (Ok (VDict [("success", VBool true)]), w1)
    /\ forall category items,
        fst (list_menu Service.keep_order Service.take category w1)
        = Ok (VDict [("items", VList items)]) ->
        forall item,
          In (VDict item) items ->
          PyDict.get item "_id" <> Some (VStr Demo.paneer_id).
Proof.
  destruct demo_switch_off as [w1 H]. exists w1. split; [exact H|].
  intros category items Hl.
  exact (proj1 (@availability_switch Service.keep_order Service.take
                  keep_order_keeps Demo.paneer_id (Oid Demo.paneer_id)
                  Service.switch_off Demo.world w1 _ eq_refl
                  demo_menu_ids H category items Hl) eq_refl).
Defined.

Lemma placed_order_is_listed_witness :
  exists id order,
    field Demo.online_response "order_id" = Some (VStr id)
    /\ PyDict.get order "_id" = Some (VStr id)
    /\ forall orders,
        fst (list_orders Service.keep_order Service.take (Some "7")
               Demo.world_ordered)
        = Ok (VDict [("orders", VList orders)]) ->
        In (VDict order) orders.
Proof.
  destruct (@placed_order_is_listed Demo.no_float Service.keep_order
              Service.take keep_order_keeps (Demo.order_body online)
              Demo.world Demo.world_ordered Demo.online_response
              demo_order_placed)
    as [id [order [H1 [H2 [_ [_ [H3 _]]]]]]].
  exists id, order. split; [exact H1|]. split; [exact H2|].
  intros orders. apply H3. now right.
Defined.

(** ** Identifiers that name nothing *)

Lemma menu_changes_storable (payload : MenuUpdate) (w : World) :
  Mongo.refused (set_doc (menu_changes payload) w) = None.
Proof.
  destruct payload as [[n|] [de|] [p|] [c|] [i|] [a|]]; reflexivity.
Qed.

Lemma update_document_absent (name id : string) (upd : dict) (w : World)
  (oid : ObjectId) :
  db w <> None ->
  parse_ObjectId id = Some oid ->
  Mongo.refused (set_doc upd w) = None ->
  Mongo.find_one (stored w name) oid = None ->
  fst (update_document name id upd w) = Ok false
  /\ forall n, stored (snd (update_document name id upd w)) n = stored w n.
Proof.
  intros Hdb Hp Hr Hf. destruct (db w) as [d|] eqn:Hd; [|contradiction].
  erewrite update_document_eq by exact Hd. rewrite Hp, Hr. cbv zeta.
  rewrite (stored_db w name Hd) in Hf.
  rewrite (update_one_not_found _ _ _ Hf). cbn [fst snd].
  split; [reflexivity|]. intros n. rewrite stored_with_collection.
  rewrite (stored_db w n Hd).
  destruct (String.eqb n name) eqn:E; [|reflexivity].
  apply String.eqb_eq in E. now subst.
Qed.

(** X21. With a store, a well-formed identifier that names no document
    makes GET /api/order/{id}, PATCH /api/order/{id}/status and POST
    /api/payment/mock/confirm raise 404 "Order not found" and PUT
    /api/menu/{id} raise 404 "Menu item not found", and no collection is
    written. *)
Theorem absent_id_raises_404 :
  forall (id : string) (oid : ObjectId) (w : World),
    db w <> None ->
    parse_ObjectId id = Some oid ->
    (Mongo.find_one (stored w "order") oid = None ->
     get_order id w = (Raise (HTTPException 404 "Order not found"), w)
     /\ (forall outcome,
           confirm_mock_payment
             {| pc_order_id := id; pc_status := outcome |} w
           = (Raise (HTTPException 404 "Order not found"), w))
     /\ (forall payload,
           fst (set_order_status id payload w)
           = Raise (HTTPException 404 "Order not found")
           /\ forall n,
               stored (snd (set_order_status id payload w)) n
               = stored w n))
    /\ (Mongo.find_one (stored w "menuitem") oid = None ->
        forall payload,
          fst (update_menu_item id payload w)
          = Raise (HTTPException 404 "Menu item not found")
          /\ forall n,
              stored (snd (update_menu_item id payload w)) n = stored w n).
Proof.
  intros id oid w Hdb Hp. split.
  - intros Hf.
    assert (Hget : get_document_by_id "order" id w = (Ok None, w)).
    { destruct (db w) as [d|] eqn:Hd; [|contradiction].
      erewrite get_document_by_id_eq by exact Hd. rewrite Hp.
      rewrite (stored_db w "order" Hd) in Hf. now rewrite Hf. }
    split; [|split].
    + unfold get_order, bind. now rewrite Hget.
    + intros outcome. unfold confirm_mock_payment, bind.
      cbn [pc_order_id]. now rewrite Hget.
    + intros payload. rewrite set_order_status_world.
      destruct (@update_document_absent "order" id
                  [("status", VStr (OrderStatus_str (osu_status payload)))]
                  w oid Hdb Hp eq_refl Hf) as [H1 H2].
      split; [|exact H2].
      unfold set_order_status, bind.
      destruct (update_document "order" id _ w) as [[b|e] w1];
        cbn [fst] in H1; [|discriminate].
      injection H1 as ->. reflexivity.
  - intros Hf payload. rewrite update_menu_item_world.
    destruct (@update_document_absent "menuitem" id (menu_changes payload)
                w oid Hdb Hp (menu_changes_storable payload w) Hf)
      as [H1 H2].
    split; [|exact H2].
    unfold update_menu_item, bind. fold (menu_changes payload).
    destruct (update_document "menuitem" id (menu_changes payload) w)
      as [[b|e] w1]; cbn [fst] in H1; [|discriminate].
    injection H1 as ->. reflexivity.
Qed.

Lemma absent_id_raises_404_witness :
  db Demo.world <> None
  /\ parse_ObjectId Demo.unknown_id = Some (Oid Demo.unknown_id)
  /\ Mongo.find_one (stored Demo.world "menuitem") (Oid Demo.unknown_id)
     = None
  /\ fst (update_menu_item Demo.unknown_id Service.switch_off Demo.world)
     = Raise (HTTPException 404 "Menu item not found").
Proof.
  assert (H1 : db Demo.world <> None) by discriminate.
  assert (H2 : parse_ObjectId Demo.unknown_id = Some (Oid Demo.unknown_id))
    by reflexivity.
  assert (H3 : Mongo.find_one (stored Demo.world "menuitem")
                 (Oid Demo.unknown_id) = None) by reflexivity.
  split; [exact H1|]. split; [exact H2|]. split; [exact H3|].
  exact (proj1 (proj2 (@absent_id_raises_404 Demo.unknown_id
                         (Oid Demo.unknown_id) Demo.world H1 H2) H3
                  Service.switch_off)).
Defined.
